(** * OPC UA listener: node-to-metric mapping and subscription client

    A shallow embedding of the Go sources

      - [plugins/common/opcua/input/input_client.go]   (package [input])
      - [plugins/inputs/opcua_listener/subscribe_client.go]
                                                      (package [opcua_listener])

    Go maps are [gmap]s, Go sets ([map[K]struct{}]) are [gset]s, slices are
    lists, pointers that may be [nil] are [option]s, and [(T, error)] results
    are values of [result].  Strings are byte strings, as in Go. *)

From Stdlib Require Import ZArith String Ascii List.
From Stdlib Require Import Floats.PrimFloat Floats.FloatAxioms Floats.SpecFloat.
From stdpp Require Import base option list gmap sets strings sorting.

Local Open Scope string_scope.
Local Open Scope Z_scope.

(** ** Results of fallible functions *)

Inductive result (E A : Type) : Type :=
  | Ok (a : A)
  | Err (e : E).
Arguments Ok {E A} a.
Arguments Err {E A} e.

Definition rbind {E A B} (r : result E A) (k : A -> result E B) : result E B :=
  match r with
  | Ok a => k a
  | Err e => Err e
  end.

Notation "x <- r ;; k" := (rbind r (fun x => k))
  (at level 100, r at next level, right associativity).

(** ** Stateful code

    A method with a pointer receiver is a function of the state it mutates.
    A run either finishes with a value or stops at a fault: a run-time panic,
    or a send that can never proceed.  Go's [error] results are ordinary
    values. *)

Inductive fault :=
  | Panic (why : string)
  | Blocked.

Inductive outcome (A : Type) : Type :=
  | Done (a : A)
  | Fault (f : fault).
Arguments Done {A} a.
Arguments Fault {A} f.

Definition M (S A : Type) : Type := S -> outcome A * S.

Definition ret {S A} (a : A) : M S A := fun s => (Done a, s).

Definition bind {S A B} (m : M S A) (k : A -> M S B) : M S B :=
  fun s =>
    match m s with
    | (Done a, s') => k a s'
    | (Fault f, s') => (Fault f, s')
    end.

Definition get {S} : M S S := fun s => (Done s, s).
Definition modify {S} (f : S -> S) : M S unit := fun s => (Done tt, f s).
Definition panic {S A} (why : string) : M S A := fun s => (Fault (Panic why), s).
Definition block {S A} : M S A := fun s => (Fault Blocked, s).

Notation "x <~ m ;; k" := (bind m (fun x => k))
  (at level 100, m at next level, right associativity).
Notation "m ;;; k" := (bind m (fun _ => k))
  (at level 100, right associativity).

(** [xs[i]]: an index out of range panics. *)
Definition index {S A} (xs : list A) (i : nat) : M S A :=
  match xs !! i with
  | Some x => ret x
  | None => panic "index out of range"
  end.

(** [for _, x := range xs { ... }] with a local variable [a] carried through
    the iterations and a body that may [return err]. *)
Fixpoint range_until {S X A E} (xs : list X) (a : A)
    (body : A -> X -> M S (result E A)) : M S (result E A) :=
  match xs with
  | [] => ret (Ok a)
  | x :: xs' =>
      r <~ body a x ;;
      match r with
      | Ok a' => range_until xs' a' body
      | Err e => ret (Err e)
      end
  end.

(** [for _, x := range xs { ... }] with a body that runs to its end. *)
Fixpoint range_each {S X} (xs : list X) (body : X -> M S unit) : M S unit :=
  match xs with
  | [] => ret tt
  | x :: xs' => body x ;;; range_each xs' body
  end.

(** ** Fragments of the Go standard library used by the sources *)

Module Go.

(** [sort.Strings]: ascending byte-wise lexicographic order. *)
Definition sort_Strings (keys : list string) : list string :=
  merge_sort String.le keys.

Definition is_digit (c : ascii) : bool :=
  ((48 <=? nat_of_ascii c) && (nat_of_ascii c <=? 57))%nat.

Fixpoint digits_value (acc : Z) (s : string) : option Z :=
  match s with
  | EmptyString => Some acc
  | String c s' =>
      if is_digit c
      then digits_value (10 * acc + (Z.of_nat (nat_of_ascii c) - 48)) s'
      else None
  end.

Definition maxInt : Z := 2 ^ 63 - 1.
Definition minInt : Z := - 2 ^ 63.

(** [strconv.Atoi] on a platform with 64-bit [int]: an optional sign, then
    at least one decimal digit and nothing else; [None] is a syntax or
    range error. *)
Definition Atoi (s : string) : option Z :=
  match s with
  | EmptyString => None
  | String c rest =>
      let '(neg, body) :=
        if decide (c = "+"%char) then (false, rest)
        else if decide (c = "-"%char) then (true, rest)
        else (false, s) in
      match body with
      | EmptyString => None
      | _ =>
          match digits_value 0 body with
          | None => None
          | Some v =>
              let v := if neg : bool then - v else v in
              if (minInt <=? v) && (v <=? maxInt) then Some v else None
          end
      end
  end.

(** *** A fragment of [fmt.Sprintf]

    Operands are strings or [Stringer]s (a type name for [%!(EXTRA ...)]
    and the text).  The directives modelled are [%%], [%s] and [%v], the
    last two with an optional precision [.N], which truncates the operand.
    A format with any other directive is outside the fragment: [None]. *)
Record operand := {
  o_type : string;
  o_text : string;
}.

Inductive pstate :=
  | Lit                 (* copying literal text *)
  | Pct                 (* just after a percent sign *)
  | Prec (n : nat).     (* in the digits of a precision *)

Fixpoint all_ascii (s : string) : bool :=
  match s with
  | EmptyString => true
  | String c s' => (nat_of_ascii c <? 128)%nat && all_ascii s'
  end.

Fixpoint take (n : nat) (s : string) : string :=
  match n, s with
  | O, _ => EmptyString
  | S n', String c s' => String c (take n' s')
  | S _, EmptyString => EmptyString
  end.

(** [%!(EXTRA type=value, ...)] for the operands no directive used. *)
Fixpoint extra_list (i : nat) (args : list operand) : string :=
  match args with
  | [] => ""
  | a :: rest =>
      (if decide (0 < i)%nat then ", " else "")
        +:+ o_type a +:+ "=" +:+ o_text a +:+ extra_list (S i) rest
  end.

Definition extra (args : list operand) : string :=
  match args with
  | [] => ""
  | _ => "%!(EXTRA " +:+ extra_list 0 args +:+ ")"
  end.

(** A string operand under the verb [verb] with the precision [prec]. *)
Definition fmtS (prec : option nat) (text : string) : option string :=
  match prec with
  | None => Some text
  | Some n => if all_ascii text then Some (take n text) else None
  end.

Definition is_string_verb (c : ascii) : bool :=
  bool_decide (c = "s"%char) || bool_decide (c = "v"%char).

Fixpoint doPrintf (st : pstate) (format : string) (args : list operand)
    : option string :=
  let verb (c : ascii) (prec : option nat) (rest : string) :=
    match args with
    | [] =>
        out ← doPrintf Lit rest [];
        Some ("%!" +:+ String c "(MISSING)" +:+ out)
    | a :: args' =>
        txt ← fmtS prec (o_text a);
        out ← doPrintf Lit rest args';
        Some (txt +:+ out)
    end in
  match format with
  | EmptyString =>
      match st with
      | Lit => Some (extra args)
      | _ => Some ("%!(NOVERB)" +:+ extra args)
      end
  | String c rest =>
      match st with
      | Lit =>
          if decide (c = "%"%char) then doPrintf Pct rest args
          else String c <$> doPrintf Lit rest args
      | Pct =>
          if decide (c = "%"%char) then String c <$> doPrintf Lit rest args
          else if decide (c = "."%char) then doPrintf (Prec 0) rest args
          else if is_string_verb c then verb c None rest
          else None
      | Prec n =>
          if is_digit c then
            if decide (1000000 < Z.of_nat n) then None
            else doPrintf (Prec (10 * n + (nat_of_ascii c - 48))) rest args
          else if is_string_verb c then verb c (Some n) rest
          else None
      end
  end.

Definition Sprintf (format : string) (args : list operand) : option string :=
  doPrintf Lit format args.

(** [strings.Replace(s, old, new, 1)] for a non-empty [old]: the first
    occurrence of [old] is replaced. *)
Fixpoint Replace_first (s old new : string) : string :=
  if String.prefix old s
  then new +:+ String.substring (String.length old) (String.length s) s
  else match s with
       | EmptyString => EmptyString
       | String c s' => String c (Replace_first s' old new)
       end.

(** [choice.Contains] of telegraf's [internal/choice]. *)
Definition Contains (choice : string) (choices : list string) : bool :=
  bool_decide (choice ∈ choices).

(** [time.Time]; only carried around and formatted, so a number of
    nanoseconds stands for it, [0] for the zero time. *)
Definition time_Time := Z.

End Go.

(** ** The part of the protocol library [gopcua/ua] the sources use *)

Module ua.

(** [type StatusCode uint32] *)
Definition StatusCode := Z.
Definition StatusOK : StatusCode := 0.

(** [type TypeID byte] *)
Definition TypeID := Z.
Definition TypeIDDateTime : TypeID := 13.

Record LocalizedText := {
  Locale : string;
  Text : string;
}.

(** The dynamic values an [interface{}] holds in the sources, by what the
    sources and the metric they are handed to tell apart: a boolean, a
    number of an integer or of a float type, a text (a string or a byte
    slice), a [time.Time], a [*ua.LocalizedText], and a value of any other
    type, one that a metric does not store as a field. *)
Inductive value :=
  | VNil                                 (* nil interface *)
  | VBool (b : bool)
  | VInt (z : Z)
  | VFloat (f : float)
  | VString (s : string)
  | VTime (t : Go.time_Time)             (* time.Time *)
  | VLocalizedText (lt : LocalizedText)  (* *ua.LocalizedText *)
  | VOther (typeName : string).          (* any other dynamic type *)

(** [*ua.Variant], through its methods [Type()] and [Value()]. *)
Record Variant := {
  v_Type : TypeID;
  v_Value : value;
}.

Record DataValue := {
  dv_Value : option Variant;
  dv_Status : StatusCode;
  SourceTimestamp : Go.time_Time;
  ServerTimestamp : Go.time_Time;
}.

(** A [*ua.NodeID], represented by the text its [String()] method gives. *)
Record NodeID := { NodeID_String : string }.

Record MonitoredItemNotification := {
  min_ClientHandle : nat;                (* uint32 *)
  min_Value : DataValue;
}.

Record EventFieldList := {
  efl_ClientHandle : nat;                (* uint32 *)
  EventFields : list Variant;
}.

(** The payload of a publish notification ([res.Value]). *)
Inductive notification :=
  | NilNotification
  | DataChangeNotification (MonitoredItems : list MonitoredItemNotification)
  | EventNotificationList (Events : list EventFieldList)
  | OtherNotification (typeName : string).

(** [ua.DataChangeTrigger] and [ua.DeadbandType] with the conversions
    [DataChangeTriggerFromString] and [DeadbandTypeFromString] the library
    generates for its enumerations (an unknown name gives the zero value). *)
Definition DataChangeTriggerFromString (s : string) : Z :=
  if decide (s = "Status") then 0
  else if decide (s = "StatusValue") then 1
  else if decide (s = "StatusValueTimestamp") then 2
  else 0.

Definition DeadbandTypeFromString (s : string) : Z :=
  if decide (s = "None") then 0
  else if decide (s = "Absolute") then 1
  else if decide (s = "Percent") then 2
  else 0.

(** [ua.DataChangeFilter], the typed filter payload. *)
Record DataChangeFilter := {
  f_Trigger : Z;
  f_DeadbandType : Z;                    (* uint32 *)
  f_DeadbandValue : float;
}.

Record MonitoringParameters := {
  rp_ClientHandle : nat;
  rp_SamplingInterval : Z;    (* a float64 holding this whole number *)
  rp_Filter : option DataChangeFilter;   (* *ua.ExtensionObject *)
  rp_QueueSize : Z;
  rp_DiscardOldest : bool;
}.

Record MonitoredItemCreateRequest := {
  ItemToMonitor : NodeID;
  RequestedParameters : MonitoringParameters;
}.

(** *** Node IDs in full, attribute operands and event filters *)

(** [ua.NodeIDType], the value of the method [Type()] of a node ID: one of the six types
    of the library, or any other value. *)
Inductive NodeIDType :=
  | NodeIDTypeTwoByte
  | NodeIDTypeFourByte
  | NodeIDTypeNumeric
  | NodeIDTypeString
  | NodeIDTypeGUID
  | NodeIDTypeByteString
  | NodeIDTypeOther.

(** A [*ua.NodeID] that is not nil, through the methods the construction of
    an event filter calls.  [StringID()] is a text for every node ID: for an
    opaque one not its bytes, but a text made of them.  [String()] is not a
    field: the sources call it only for a node ID of no known type, where
    it panics. *)
Record NodeIDValue := {
  nid_Type : NodeIDType;                 (* Type() *)
  nid_Namespace : N;                     (* Namespace(), a uint16 *)
  nid_IntID : N;                         (* IntID(), a uint32 *)
  nid_StringID : string;                 (* StringID() *)
}.

(** The node ID a constructor of the library is called for, with the
    arguments of the call; the identifier of [NewByteStringNodeID] is a
    byte slice, given here as the text it was converted from. *)
Inductive NewNodeID :=
  | NewGUIDNodeID (ns : N) (id : string)
  | NewStringNodeID (ns : N) (id : string)
  | NewByteStringNodeID (ns : N) (id : string)
  | NewTwoByteNodeID (id : N)            (* uint8 *)
  | NewFourByteNodeID (ns : N) (id : N)  (* uint8, uint16 *)
  | NewNumericNodeID (ns : N) (id : N).

Record QualifiedName := {
  NamespaceIndex : N;
  qn_Name : string;
}.

Inductive AttributeID := AttributeIDValue.

Record SimpleAttributeOperand := {
  TypeDefinitionID : NewNodeID;
  BrowsePath : list QualifiedName;
  sao_AttributeID : AttributeID;
}.

(** The encodings named by [createEventFilter] and [createWhereClauses]:
    [&ua.ExpandedNodeID{NodeID: ua.NewNumericNodeID(0, id.X)}], by [X]. *)
Inductive encodingID :=
  | EventFilter_Encoding_DefaultBinary
  | LiteralOperand_Encoding_DefaultBinary
  | SimpleAttributeOperand_Encoding_DefaultBinary.

Inductive encodingMask :=
  | ExtensionObjectBinary
  | Mask (n : Z).

(** [ua.ExtensionObject] with a value of type [V]. *)
Record ExtensionObject (V : Type) := {
  EncodingMask : encodingMask;
  eo_TypeID : encodingID;
  eo_Value : V;
}.
Arguments EncodingMask {V} _.
Arguments eo_TypeID {V} _.
Arguments eo_Value {V} _.

(** The operands of a filter element: [ua.LiteralOperand] with the variant
    of a string, and [*ua.SimpleAttributeOperand]. *)
Inductive filterOperand :=
  | LiteralOperand (value : string)
  | AttributeOperand (a : SimpleAttributeOperand).

Inductive FilterOperator := FilterOperatorInList.

Record ContentFilterElement := {
  cfe_FilterOperator : FilterOperator;
  FilterOperands : list (ExtensionObject filterOperand);
}.

Record ContentFilter := {
  Elements : list ContentFilterElement;
}.

Record EventFilter := {
  SelectClauses : list SimpleAttributeOperand;
  WhereClause : ContentFilter;
}.

End ua.

(** What the sources take from outside the repository without fixing it:
    the texts of the protocol library and of [time] and [strings]. *)
Class External := {
  (** [ua.StatusCode.Error()] *)
  StatusCode_Error : ua.StatusCode -> string;
  (** [ua.TypeID.String()] *)
  TypeID_String : ua.TypeID -> string;
  (** [time.Time.Format(layout)] *)
  time_Format : Go.time_Time -> string -> string;
  (** [strings.TrimSpace] *)
  strings_TrimSpace : string -> string;
  (** [time.Now()]; the model reads one instant. *)
  time_Now : Go.time_Time;
}.

(** ** The interfaces of [telegraf]: logger and metric *)

Module telegraf.

Inductive level := LError | LWarn | LInfo | LDebug.

(** An argument handed to a logging call. *)
Inductive arg :=
  | AStr (s : string)
  | AInt (n : Z)
  | ARune (r : Z)               (* a rune constant, an [int32] *)
  | AStatus (c : ua.StatusCode)
  | AValue (v : ua.value)
  | ATypeOf (v : ua.value)      (* the dynamic type of a value, "%T" *)
  | AErr (text : option string). (* an error, by its text *)

(** One call of the logger: its level, its format and its arguments. *)
Record entry := {
  e_level : level;
  e_format : string;
  e_args : list arg;
}.

(** A [telegraf.Metric]: its name, its tags, its fields and its time. *)
Record Metric := {
  Name : string;
  Tags : gmap string string;
  Fields : gmap string ua.value;
  Tm : Go.time_Time;
}.

(** [convertField] of the package [metric]: the value a field is stored
    with.  A boolean, a number and a text are stored (an integer as an
    [int64] or a [uint64], a float as a [float64], a byte slice as a string:
    the boolean, the number and the text stay what they are); a nil value
    and a value of any other type are not stored. *)
Definition convertField (v : ua.value) : option ua.value :=
  match v with
  | ua.VBool _ | ua.VInt _ | ua.VFloat _ | ua.VString _ => Some v
  | ua.VNil | ua.VTime _ | ua.VLocalizedText _ | ua.VOther _ => None
  end.

(** [metric.New(name, tags, fields, tm)]: every tag is taken, and every
    field that [convertField] stores; the other fields are left out. *)
Definition New (name : string) (tags : gmap string string)
    (fields : gmap string ua.value) (tm : Go.time_Time) : Metric :=
  {| Name := name; Tags := tags; Fields := omap convertField fields; Tm := tm |}.

End telegraf.

(** ** Package [input] *)

Module input.

(** [type Trigger string], [type DeadbandType string] *)
Definition Trigger := string.
Definition Status : Trigger := "Status".
Definition StatusValue : Trigger := "StatusValue".
Definition StatusValueTimestamp : Trigger := "StatusValueTimestamp".

Definition DeadbandType := string.
Definition Absolute : DeadbandType := "Absolute".
Definition Percent : DeadbandType := "Percent".

Record DataChangeFilter := {
  dcf_Trigger : Trigger;
  dcf_DeadbandType : DeadbandType;
  dcf_DeadbandValue : option float;   (* *float64 *)
}.

Record MonitoringParameters := {
  SamplingInterval : Z;               (* config.Duration, nanoseconds *)
  QueueSize : option Z;               (* *uint32 *)
  DiscardOldest : option bool;        (* *bool *)
  mp_DataChangeFilter : option DataChangeFilter;
}.

(** [NodeSettings] describes how to map from a OPC UA node to a Metric. *)
Record NodeSettings := {
  FieldName : string;
  Namespace : string;
  IdentifierType : string;
  Identifier : string;
  TagsSlice : list (list string);
  DefaultTags : gmap string string;
  MonitoringParams : MonitoringParameters;
}.

Definition NodeID (tag : NodeSettings) : string :=
  "ns=" +:+ Namespace tag +:+ ";" +:+ IdentifierType tag +:+ "=" +:+ Identifier tag.

Record NodeGroupSettings := {
  g_MetricName : string;
  g_Namespace : string;
  g_IdentifierType : string;
  g_Nodes : list NodeSettings;
  g_TagsSlice : list (list string);
  g_DefaultTags : gmap string string;
  g_SamplingInterval : Z;
}.

(** The errors of the package, one constructor per [errors.New] or
    [fmt.Errorf] site, carrying the arguments of the format. *)
Inductive error :=
  | ErrTagNeeds2 (i : nat) (len : nat) (tag : list string)
      (* "tag %d needs 2 values, has %d: %v" *)
  | ErrTagEmptyName (i : nat)          (* "tag %d has empty name" *)
  | ErrTagEmptyValue (i : nat)         (* "tag %d has empty value" *)
  | ErrTagDuplicateKey (i : nat) (key : string)
      (* "tag %d has duplicate key: %v" *)
  | ErrEmptyName (fieldName : string)  (* "empty name in %q" *)
  | ErrEmptyNamespace                  (* "empty node namespace not allowed" *)
  | ErrEmptyIdentifier                 (* "empty node identifier not allowed" *)
  | ErrDuplicated (fieldName metricName tags : string)
      (* "name %q is duplicated (metric name %q, tags %q)" *)
  | ErrIdentifierMismatch (identifierType identifier : string)
      (* "identifier type %q does not match the type of identifier %q" *)
  | ErrInvalidIdentifierType (identifierType fieldName : string)
      (* "invalid identifier type %q in %q" *)
  | ErrNew (text : string)             (* errors.New(text) *)
  | ErrChoice (choice : string)        (* the error of choice.Check *)
  | ErrInvalidEventInput (cause : error)
      (* "invalid event_streaming_input: %w" *)
  | ErrExternal (text : string).       (* an error of the client library *)

(** [NodeMetricMapping]: mapping from a single node to a metric. *)
Record NodeMetricMapping := {
  Tag : NodeSettings;
  idStr : string;
  metricName : string;
  MetricTags : gmap string string;
}.

(** [tagsSliceToMap] takes an array of pairs of strings and creates a map
    from it; [i] is the index of the head of [tags]. *)
Fixpoint tagsSliceToMap_from (i : nat) (tags : list (list string))
    (m : gmap string string) : result error (gmap string string) :=
  match tags with
  | [] => Ok m
  | tag :: rest =>
      match tag with
      | [name; value] =>
          if decide (name = "") then Err (ErrTagEmptyName (i + 1))
          else if decide (value = "") then Err (ErrTagEmptyValue (i + 1))
          else if decide (is_Some (m !! name))
               then Err (ErrTagDuplicateKey (i + 1) name)
          else tagsSliceToMap_from (S i) rest (<[name := value]> m)
      | _ => Err (ErrTagNeeds2 (i + 1) (length tag) tag)
      end
  end.

Definition tagsSliceToMap (tags : list (list string))
    : result error (gmap string string) :=
  tagsSliceToMap_from 0 tags ∅.

(** [for n, t := range src { dst[n] = t }] *)
Definition copy_into (src dst : gmap string string) : gmap string string :=
  map_fold (fun n t acc => <[n := t]> acc) dst src.

(** The local variable [nodeTags] of [NewNodeMetricMapping]: the tag map of
    the node, from [DefaultTags] or else from the deprecated [TagsSlice]. *)
Definition nodeTags (node : NodeSettings) : result error (gmap string string) :=
  if decide (0 < size (DefaultTags node))%nat
  then Ok (DefaultTags node)
  else if decide (0 < length (TagsSlice node))%nat
       then tagsSliceToMap (TagsSlice node)
       else Ok ∅.

(** [NewNodeMetricMapping] builds a new NodeMetricMapping from the given
    argument. *)
Definition NewNodeMetricMapping (metricName : string) (node : NodeSettings)
    (groupTags : gmap string string) : result error NodeMetricMapping :=
  let mergedTags := copy_into groupTags ∅ in
  nodeTags <- nodeTags node ;;
  let mergedTags := copy_into nodeTags mergedTags in
  Ok {| Tag := node;
        idStr := NodeID node;
        metricName := metricName;
        MetricTags := mergedTags |}.

(** [metricParts] is only used to ensure no duplicate metrics are created. *)
Record metricParts := {
  mp_metricName : string;
  mp_fieldName : string;
  mp_tags : string; (* sorted by tag name and in format tag1=value1, tag2=value2 *)
}.

Global Instance metricParts_eq_dec : EqDecision metricParts.
Proof. solve_decision. Defined.

Global Instance metricParts_countable : Countable metricParts.
Proof.
  refine (inj_countable'
    (fun p => (mp_metricName p, mp_fieldName p, mp_tags p))
    (fun t => {| mp_metricName := t.1.1; mp_fieldName := t.1.2; mp_tags := t.2 |})
    _).
  by intros [].
Defined.

(** The loop over the sorted keys writing into the [strings.Builder]. *)
Fixpoint writeTags (i : nat) (keys : list string) (tags : gmap string string)
    (sb : string) : string :=
  match keys with
  | [] => sb
  | key :: rest =>
      let sb := if decide (i ≠ 0%nat) then sb +:+ ", " else sb in
      let sb := sb +:+ key in
      let sb := sb +:+ "=" in
      let sb := sb +:+ default "" (tags !! key) in
      writeTags (S i) rest tags sb
  end.

(** [newMP], given the order [keys] in which [range n.MetricTags] happens
    to enumerate the keys of the map. *)
Definition newMP_from (keys : list string) (n : NodeMetricMapping) : metricParts :=
  let keys := Go.sort_Strings keys in
  {| mp_metricName := metricName n;
     mp_fieldName := FieldName (Tag n);
     mp_tags := writeTags 0 keys (MetricTags n) "" |}.

Definition newMP (n : NodeMetricMapping) : metricParts :=
  newMP_from (map_to_list (MetricTags n)).*1 n.

Definition validateNodeToAdd (existing : gset metricParts)
    (nmm : NodeMetricMapping) : result error (gset metricParts) :=
  if decide (FieldName (Tag nmm) = "") then Err (ErrEmptyName (FieldName (Tag nmm)))
  else if decide (String.length (Namespace (Tag nmm)) = 0%nat) then Err ErrEmptyNamespace
  else if decide (String.length (Identifier (Tag nmm)) = 0%nat) then Err ErrEmptyIdentifier
  else
    let mp := newMP nmm in
    if decide (mp ∈ existing)
    then Err (ErrDuplicated (mp_fieldName mp) (mp_metricName mp) (mp_tags mp))
    else
      let checked : result error unit :=
        if decide (IdentifierType (Tag nmm) = "i") then
          match Go.Atoi (Identifier (Tag nmm)) with
          | None => Err (ErrIdentifierMismatch (IdentifierType (Tag nmm)) (Identifier (Tag nmm)))
          | Some _ => Ok tt
          end
        else if decide (IdentifierType (Tag nmm) ∈ ["s"; "g"; "b"]) then Ok tt
        else Err (ErrInvalidIdentifierType (IdentifierType (Tag nmm)) (FieldName (Tag nmm))) in
      _ <- checked ;;
      Ok ({[ mp ]} ∪ existing).

(** The configuration of the client library ([opcua.OpcUAClientConfig]);
    the sources read these two fields. *)
Record OpcUAClientConfig := {
  Endpoint : string;
  OptionalFields : list string;
}.

Record OpcUAEventStreamingInput := {
  Interval : Z;                          (* config.Duration *)
  EventType : option ua.NodeID;          (* NodeIDWrapper.ID *)
  es_NodeIDs : list (option ua.NodeID);
  SourceNames : list string;
  es_Fields : list string;
}.

(** [InputClientConfig]: a configuration for the input client. *)
Record InputClientConfig := {
  ClientConfig : OpcUAClientConfig;      (* embedded *)
  MetricName : string;
  Timestamp : string;                    (* TimestampSource *)
  TimestampFormat : string;
  RootNodes : list NodeSettings;
  Groups : list NodeGroupSettings;
  cfg_EventStreamingInput : option OpcUAEventStreamingInput;
}.

Definition TimestampSourceServer : string := "server".
Definition TimestampSourceSource : string := "source".
Definition TimestampSourceTelegraf : string := "gather".

(** [NodeValue]: the received value for a node. *)
Record NodeValue := {
  TagName : string;
  Value : ua.value;
  Quality : ua.StatusCode;
  ServerTime : Go.time_Time;
  SourceTime : Go.time_Time;
  DataType : ua.TypeID;
}.

(** The zero value of [NodeValue]. *)
Definition NodeValue_zero : NodeValue :=
  {| TagName := ""; Value := ua.VNil; Quality := 0; ServerTime := 0;
     SourceTime := 0; DataType := 0 |}.

(** The mapping of an event node, as [subscribe_client.go] reads it. *)
Record EventNodeMetricMapping := {
  ev_NodeID : ua.NodeID;
  ev_Fields : list string;
}.

(** [OpcUAInputClient].  [StatusCodeOK] is the method of the embedded
    [*opcua.OpcUAClient]. *)
Record OpcUAInputClient := {
  StatusCodeOK : ua.StatusCode -> bool;
  Config : InputClientConfig;
  Log : list telegraf.entry;
  NodeMetricMappings : list NodeMetricMapping;
  NodeIDs : list ua.NodeID;
  LastReceivedData : list NodeValue;
  EventStreamingInput : option OpcUAEventStreamingInput;
  EventClientHandle : gmap nat EventNodeMetricMapping;
}.

Definition set_Config (c : InputClientConfig) (o : OpcUAInputClient) :=
  {| StatusCodeOK := StatusCodeOK o; Config := c;
     Log := Log o; NodeMetricMappings := NodeMetricMappings o;
     NodeIDs := NodeIDs o; LastReceivedData := LastReceivedData o;
     EventStreamingInput := EventStreamingInput o;
     EventClientHandle := EventClientHandle o |}.

Definition set_Log (l : list telegraf.entry) (o : OpcUAInputClient) :=
  {| StatusCodeOK := StatusCodeOK o; Config := Config o;
     Log := l; NodeMetricMappings := NodeMetricMappings o;
     NodeIDs := NodeIDs o; LastReceivedData := LastReceivedData o;
     EventStreamingInput := EventStreamingInput o;
     EventClientHandle := EventClientHandle o |}.

Definition set_NodeMetricMappings (l : list NodeMetricMapping)
    (o : OpcUAInputClient) :=
  {| StatusCodeOK := StatusCodeOK o; Config := Config o;
     Log := Log o; NodeMetricMappings := l;
     NodeIDs := NodeIDs o; LastReceivedData := LastReceivedData o;
     EventStreamingInput := EventStreamingInput o;
     EventClientHandle := EventClientHandle o |}.

Definition set_LastReceivedData (l : list NodeValue) (o : OpcUAInputClient) :=
  {| StatusCodeOK := StatusCodeOK o; Config := Config o;
     Log := Log o; NodeMetricMappings := NodeMetricMappings o;
     NodeIDs := NodeIDs o; LastReceivedData := l;
     EventStreamingInput := EventStreamingInput o;
     EventClientHandle := EventClientHandle o |}.

(** A call of [o.Log]. *)
Definition log (lvl : telegraf.level) (format : string)
    (args : list telegraf.arg) : M OpcUAInputClient unit :=
  modify (fun o =>
    set_Log (Log o ++ [ {| telegraf.e_level := lvl;
                           telegraf.e_format := format;
                           telegraf.e_args := args |} ]) o).

(** The body of both loops of [InitNodeMetricMapping]: build the mapping,
    validate it against [existing], append it. *)
Definition addNode (metricName : string) (groupTags : gmap string string)
    (existing : gset metricParts) (node : NodeSettings)
    : M OpcUAInputClient (result error (gset metricParts)) :=
  match NewNodeMetricMapping metricName node groupTags with
  | Err e => ret (Err e)
  | Ok nmm =>
      match validateNodeToAdd existing nmm with
      | Err e => ret (Err e)
      | Ok existing' =>
          modify (fun o =>
            set_NodeMetricMappings (NodeMetricMappings o ++ [nmm]) o) ;;;
          ret (Ok existing')
      end
  end.

(** The defaults a node takes from its group. *)
Definition withGroupDefaults (group : NodeGroupSettings) (node : NodeSettings)
    : NodeSettings :=
  let ns := if decide (Namespace node = "") then g_Namespace group
            else Namespace node in
  let it := if decide (IdentifierType node = "") then g_IdentifierType group
            else IdentifierType node in
  let mp := MonitoringParams node in
  let si := if decide (SamplingInterval mp = 0) then g_SamplingInterval group
            else SamplingInterval mp in
  {| FieldName := FieldName node;
     Namespace := ns;
     IdentifierType := it;
     Identifier := Identifier node;
     TagsSlice := TagsSlice node;
     DefaultTags := DefaultTags node;
     MonitoringParams :=
       {| SamplingInterval := si;
          QueueSize := QueueSize mp;
          DiscardOldest := DiscardOldest mp;
          mp_DataChangeFilter := mp_DataChangeFilter mp |} |}.

(** The local variable [groupTags] of the loop over the groups. *)
Definition groupTags (group : NodeGroupSettings) : result error (gmap string string) :=
  if decide (0 < size (g_DefaultTags group))%nat
  then Ok (g_DefaultTags group)
  else if decide (0 < length (g_TagsSlice group))%nat
       then tagsSliceToMap (g_TagsSlice group)
       else Ok ∅.

Definition addGroup (configMetricName : string)
    (existing : gset metricParts) (group : NodeGroupSettings)
    : M OpcUAInputClient (result error (gset metricParts)) :=
  let groupMetricName :=
    if decide (g_MetricName group = "") then configMetricName
    else g_MetricName group in
  (if decide ((0 < size (g_DefaultTags group))%nat
              ∧ (0 < length (g_TagsSlice group))%nat)
   then log telegraf.LWarn
          "Tags found in both `tags` and `default_tags`, only using tags defined in `default_tags`" []
   else ret tt) ;;;
  match groupTags group with
  | Err e => ret (Err e)
  | Ok groupTags =>
      range_until (g_Nodes group) existing
        (fun existing node =>
           addNode groupMetricName groupTags existing
             (withGroupDefaults group node))
  end.

(** [InitNodeMetricMapping] builds nodes from the configuration. *)
Definition InitNodeMetricMapping : M OpcUAInputClient (option error) :=
  o <~ get ;;
  r <~ range_until (RootNodes (Config o)) (∅ : gset metricParts)
         (fun existing node =>
            addNode (MetricName (Config o)) ∅ existing node) ;;
  match r with
  | Err e => ret (Some e)
  | Ok existing =>
      r <~ range_until (Groups (Config o)) existing
             (addGroup (MetricName (Config o))) ;;
      match r with
      | Err e => ret (Some e)
      | Ok _ => ret None
      end
  end.

Definition initLastReceivedValues : M OpcUAInputClient unit :=
  modify (fun o =>
    set_LastReceivedData
      ((fun nmm => {| TagName := FieldName (Tag nmm); Value := ua.VNil;
                      Quality := 0; ServerTime := 0; SourceTime := 0;
                      DataType := 0 |}) <$> NodeMetricMappings o) o).

Section with_external.
Context `{External}.

Definition set_nth_LastReceivedData (nodeIdx : nat)
    (f : NodeValue -> NodeValue) : M OpcUAInputClient unit :=
  o <~ get ;;
  v <~ index (LastReceivedData o) nodeIdx ;;
  modify (set_LastReceivedData (<[nodeIdx := f v]> (LastReceivedData o))).

Definition set_Quality (q : ua.StatusCode) (v : NodeValue) : NodeValue :=
  {| TagName := TagName v; Value := Value v; Quality := q;
     ServerTime := ServerTime v; SourceTime := SourceTime v;
     DataType := DataType v |}.

Definition set_DataType (t : ua.TypeID) (v : NodeValue) : NodeValue :=
  {| TagName := TagName v; Value := Value v; Quality := Quality v;
     ServerTime := ServerTime v; SourceTime := SourceTime v;
     DataType := t |}.

Definition set_Value (x : ua.value) (v : NodeValue) : NodeValue :=
  {| TagName := TagName v; Value := x; Quality := Quality v;
     ServerTime := ServerTime v; SourceTime := SourceTime v;
     DataType := DataType v |}.

Definition set_ServerTime (t : Go.time_Time) (v : NodeValue) : NodeValue :=
  {| TagName := TagName v; Value := Value v; Quality := Quality v;
     ServerTime := t; SourceTime := SourceTime v;
     DataType := DataType v |}.

Definition set_SourceTime (t : Go.time_Time) (v : NodeValue) : NodeValue :=
  {| TagName := TagName v; Value := Value v; Quality := Quality v;
     ServerTime := ServerTime v; SourceTime := t;
     DataType := DataType v |}.

Definition UpdateNodeValue (nodeIdx : nat) (d : ua.DataValue)
    : M OpcUAInputClient unit :=
  set_nth_LastReceivedData nodeIdx (set_Quality (ua.dv_Status d)) ;;;
  o <~ get ;;
  if negb (StatusCodeOK o (ua.dv_Status d)) then
    (* Verify NodeIDs array has been built before trying to get item;
       otherwise show '?' for node id *)
    (if decide (nodeIdx < length (NodeIDs o))%nat then
       nmm <~ index (NodeMetricMappings o) nodeIdx ;;
       nid <~ index (NodeIDs o) nodeIdx ;;
       log telegraf.LError "status not OK for node %v (%v): %v"
         [telegraf.AStr (FieldName (Tag nmm));
          telegraf.AStr (ua.NodeID_String nid);
          telegraf.AStatus (ua.dv_Status d)]
     else
       nmm <~ index (NodeMetricMappings o) nodeIdx ;;
       log telegraf.LError "status not OK for node %v (%v): %v"
         [telegraf.AStr (FieldName (Tag nmm));
          telegraf.ARune 63;
          telegraf.AStatus (ua.dv_Status d)])
  else
    (match ua.dv_Value d with
     | Some variant =>
         set_nth_LastReceivedData nodeIdx (set_DataType (ua.v_Type variant)) ;;;
         set_nth_LastReceivedData nodeIdx (set_Value (ua.v_Value variant)) ;;;
         if decide (ua.v_Type variant = ua.TypeIDDateTime) then
           match ua.v_Value variant with
           | ua.VTime t =>
               o <~ get ;;
               set_nth_LastReceivedData nodeIdx
                 (set_Value (ua.VString
                    (time_Format t (TimestampFormat (Config o)))))
           | _ => ret tt
           end
         else ret tt
     | None => ret tt
     end) ;;;
    set_nth_LastReceivedData nodeIdx (set_ServerTime (ua.ServerTimestamp d)) ;;;
    set_nth_LastReceivedData nodeIdx (set_SourceTime (ua.SourceTimestamp d)).

Definition MetricForNode (nodeIdx : nat) : M OpcUAInputClient telegraf.Metric :=
  o <~ get ;;
  nmm <~ index (NodeMetricMappings o) nodeIdx ;;
  let fields : gmap string ua.value := ∅ in
  let tags : gmap string string := {[ "id" := idStr nmm ]} in
  let tags := copy_into (MetricTags nmm) tags in
  last <~ index (LastReceivedData o) nodeIdx ;;
  let fields := <[ FieldName (Tag nmm) := Value last ]> fields in
  let fields :=
    <[ "Quality" :=
         ua.VString (strings_TrimSpace (StatusCode_Error (Quality last))) ]>
      fields in
  let fields :=
    if Go.Contains "DataType" (OptionalFields (ClientConfig (Config o)))
    then <[ "DataType" :=
              ua.VString
                (Go.Replace_first (TypeID_String (DataType last)) "TypeID" "") ]>
           fields
    else fields in
  (if negb (StatusCodeOK o (Quality last)) then
     let mp := newMP nmm in
     log telegraf.LDebug "status not OK for node %q(metric name %q, tags %q)"
       [telegraf.AStr (mp_fieldName mp); telegraf.AStr (mp_metricName mp);
        telegraf.AStr (mp_tags mp)]
   else ret tt) ;;;
  let t :=
    if decide (Timestamp (Config o) = TimestampSourceServer)
    then ServerTime last
    else if decide (Timestamp (Config o) = TimestampSourceSource)
         then SourceTime last
         else time_Now in
  ret (telegraf.New (metricName nmm) tags fields t).

End with_external.

(** [Validate] of the configuration; it fills in the default timestamp
    format. *)
Definition RFC3339Nano : string := "2006-01-02T15:04:05.999999999Z07:00".

Definition set_TimestampFormat (f : string) (o : InputClientConfig) :=
  {| ClientConfig := ClientConfig o; MetricName := MetricName o;
     Timestamp := Timestamp o; TimestampFormat := f;
     RootNodes := RootNodes o; Groups := Groups o;
     cfg_EventStreamingInput := cfg_EventStreamingInput o |}.

Definition Validate : M InputClientConfig (option error) :=
  o <~ get ;;
  if decide (MetricName o = "") then ret (Some (ErrNew "metric name is empty"))
  else if negb (Go.Contains (Timestamp o) [""; "gather"; "server"; "source"])
  then ret (Some (ErrChoice (Timestamp o)))
  else
    (if decide (TimestampFormat o = "")
     then modify (set_TimestampFormat RFC3339Nano) else ret tt) ;;;
    if decide (length (Groups o) = 0%nat ∧ length (RootNodes o) = 0%nat
               ∧ cfg_EventStreamingInput o = None)
    then ret (Some (ErrNew
           "no groups or root nodes or event streaming input provided to gather from"))
    else if bool_decide (Exists (fun g => length (g_Nodes g) = 0%nat) (Groups o))
    then ret (Some (ErrNew "group has no nodes to collect from"))
    else ret None.

Definition IsSet (e : option OpcUAEventStreamingInput) : bool :=
  match e with
  | None => false
  | Some e =>
      bool_decide (0 < Interval e) || bool_decide (is_Some (EventType e))
      || bool_decide (0 < length (es_NodeIDs e))%nat
      || bool_decide (0 < length (SourceNames e))%nat
      || bool_decide (0 < length (es_Fields e))%nat
  end.

Definition ValidateEvents (e : OpcUAEventStreamingInput) : option error :=
  if decide (Interval e <= 0)
  then Some (ErrNew "streaming_interval must be greater than 0")
  else if decide (EventType e = None)
  then Some (ErrNew "streaming_event_type must be a valid NodeID")
  else if decide (length (es_NodeIDs e) = 0%nat)
  then Some (ErrNew "at least one streaming_node_id must be specified")
  else if decide (length (es_Fields e) = 0%nat)
  then Some (ErrNew "at least one Field must be specified")
  else None.

(** [CreateInputClient]; [opcClient] is what [CreateClient] of the client
    library returns, and [log] the logger's output so far.  The result is
    the pair [(client, err)] of the source, with the logger's output. *)
Definition CreateInputClient (o : InputClientConfig)
    (opcClient : result error (ua.StatusCode -> bool))
    (log0 : list telegraf.entry)
    : outcome (result error OpcUAInputClient) * list telegraf.entry :=
  match Validate o with
  | (Fault f, _) => (Fault f, log0)
  | (Done (Some err), _) => (Done (Err err), log0)
  | (Done None, o) =>
      let checked :=
        if IsSet (cfg_EventStreamingInput o) then
          match cfg_EventStreamingInput o with
          | Some e =>
              match ValidateEvents e with
              | Some err => Err (ErrInvalidEventInput err)
              | None => Ok (Some e)
              end
          | None => Ok None
          end
        else Ok None in
      match checked with
      | Err err => (Done (Err err), log0)
      | Ok eventStreamingInput =>
          let log1 := (log0 ++ [ {| telegraf.e_level := telegraf.LDebug;
                                    telegraf.e_format := "Initialising OpcUAInputClient";
                                    telegraf.e_args := [] |} ])%list in
          match opcClient with
          | Err err => (Done (Err err), log1)
          | Ok statusCodeOK =>
              let c := {| StatusCodeOK := statusCodeOK;
                          Config := o;
                          Log := (log1 ++ [ {| telegraf.e_level := telegraf.LDebug;
                                               telegraf.e_format := "Initialising node to metric mapping";
                                               telegraf.e_args := [] |} ])%list;
                          NodeMetricMappings := [];
                          NodeIDs := [];
                          LastReceivedData := [];
                          EventStreamingInput := eventStreamingInput;
                          EventClientHandle := ∅ |} in
              match InitNodeMetricMapping c with
              | (Fault f, c) => (Fault f, Log c)
              | (Done (Some err), c) => (Done (Err err), Log c)
              | (Done None, c) =>
                  match initLastReceivedValues c with
                  | (_, c) => (Done (Ok c), Log c)
                  end
              end
          end
      end
  end.

Definition set_NodeIDs (l : list ua.NodeID) (o : OpcUAInputClient) :=
  {| StatusCodeOK := StatusCodeOK o; Config := Config o;
     Log := Log o; NodeMetricMappings := NodeMetricMappings o;
     NodeIDs := l; LastReceivedData := LastReceivedData o;
     EventStreamingInput := EventStreamingInput o;
     EventClientHandle := EventClientHandle o |}.

Section with_parser.
(** [ua.ParseNodeID] of the protocol library. *)
Context (ParseNodeID : string -> result error ua.NodeID).

Definition InitNodeIDs : M OpcUAInputClient (option error) :=
  modify (set_NodeIDs []) ;;;
  o <~ get ;;
  r <~ range_until (NodeMetricMappings o) tt
         (fun _ node =>
            match ParseNodeID (NodeID (Tag node)) with
            | Err err => ret (Err err)
            | Ok nid =>
                modify (fun o => set_NodeIDs (NodeIDs o ++ [nid]) o) ;;;
                ret (Ok tt)
            end) ;;
  match r with
  | Err err => ret (Some err)
  | Ok _ => ret None
  end.

End with_parser.

(** A channel that has been closed. *)
Inductive closedChan := Closed.

(** [Stop] the connection to the client; [disconnect] is what [Disconnect]
    of the client library returns, an error by its text. *)
Definition Stop (disconnect : option string) : M OpcUAInputClient closedChan :=
  (match disconnect with
   | Some text =>
       log telegraf.LWarn ""
         [telegraf.AStr "Disconnecting from server failed with error ";
          telegraf.AErr (Some text)]
   | None => ret tt
   end) ;;;
  ret Closed.

End input.

(** ** Package [opcua_listener] *)

Module opcua_listener.

Record subscribeClientConfig := {
  InputClientConfig : input.InputClientConfig;   (* embedded *)
  SubscriptionInterval : Z;                      (* config.Duration *)
  ConnectFailBehavior : string;
}.

(** The [error] values of the package.  The text of an error made by
    [fmt.Errorf] is [None] when its format is outside the fragment of
    [Go.Sprintf]. *)
Inductive error :=
  | ErrText (text : option string)       (* errors.New, fmt.Errorf *)
  | ErrWrap (pre : string) (cause : error)
      (* fmt.Errorf(pre + "%w", cause) *)
  | ErrStatus (code : ua.StatusCode)     (* a ua.StatusCode as an error *)
  | ErrLibrary (text : string).          (* an error of the client library *)

(** What the server and the client library answer, and the calls made.
    [OpcUAClient.Connect] writes to the logger of the client on its own:
    [srv_ConnectLog] are the entries of one call. *)
Record Server := {
  srv_Connect : option error;            (* OpcUAClient.Connect *)
  srv_ConnectLog : list telegraf.entry;
  srv_Subscribe : result error Z;        (* Client.Subscribe: the subscription ID *)
  srv_Monitor : list ua.MonitoredItemCreateRequest ->
                result error (list ua.StatusCode);
      (* sub.Monitor: the status codes of resp.Results *)
}.

Inductive call :=
  | CallConnect
  | CallSubscribe (interval : Z)
  | CallMonitor (reqs : list ua.MonitoredItemCreateRequest).

(** [*opcua.PublishNotificationData] *)
Record PublishNotificationData := {
  pn_Error : option error;
  pn_Value : ua.notification;
}.

(** The two output channels of a client. *)
Inductive chan := ChMetrics | ChEventMetrics.

(** [subscribeClient].  A buffered channel is the queue of what was sent
    on it; [eventMetrics] is [nil] until it is made.  [server] and [calls]
    stand for the client library, [processors] counts the goroutines
    started with [go o.processReceivedNotifications()]. *)
Record subscribeClient := {
  OpcUAInputClient : input.OpcUAInputClient;     (* embedded *)
  Config : subscribeClientConfig;
  sub : option Z;                                (* *opcua.Subscription *)
  monitoredItemsReqs : list ua.MonitoredItemCreateRequest;
  eventItemsReqs : list ua.MonitoredItemCreateRequest;
  metrics : list telegraf.Metric;
  eventMetrics : option (list telegraf.Metric);
  cancelled : bool;                              (* ctx *)
  server : Server;
  calls : list call;
  processors : nat;
}.

Definition set_OpcUAInputClient (c : input.OpcUAInputClient) (o : subscribeClient) :=
  {| OpcUAInputClient := c; Config := Config o; sub := sub o;
     monitoredItemsReqs := monitoredItemsReqs o;
     eventItemsReqs := eventItemsReqs o; metrics := metrics o;
     eventMetrics := eventMetrics o; cancelled := cancelled o;
     server := server o; calls := calls o; processors := processors o |}.

Definition set_sub (x : option Z) (o : subscribeClient) :=
  {| OpcUAInputClient := OpcUAInputClient o; Config := Config o; sub := x;
     monitoredItemsReqs := monitoredItemsReqs o;
     eventItemsReqs := eventItemsReqs o; metrics := metrics o;
     eventMetrics := eventMetrics o; cancelled := cancelled o;
     server := server o; calls := calls o; processors := processors o |}.

Definition set_metrics (x : list telegraf.Metric) (o : subscribeClient) :=
  {| OpcUAInputClient := OpcUAInputClient o; Config := Config o; sub := sub o;
     monitoredItemsReqs := monitoredItemsReqs o;
     eventItemsReqs := eventItemsReqs o; metrics := x;
     eventMetrics := eventMetrics o; cancelled := cancelled o;
     server := server o; calls := calls o; processors := processors o |}.

Definition set_eventMetrics (x : option (list telegraf.Metric)) (o : subscribeClient) :=
  {| OpcUAInputClient := OpcUAInputClient o; Config := Config o; sub := sub o;
     monitoredItemsReqs := monitoredItemsReqs o;
     eventItemsReqs := eventItemsReqs o; metrics := metrics o;
     eventMetrics := x; cancelled := cancelled o;
     server := server o; calls := calls o; processors := processors o |}.

Definition set_calls (x : list call) (o : subscribeClient) :=
  {| OpcUAInputClient := OpcUAInputClient o; Config := Config o; sub := sub o;
     monitoredItemsReqs := monitoredItemsReqs o;
     eventItemsReqs := eventItemsReqs o; metrics := metrics o;
     eventMetrics := eventMetrics o; cancelled := cancelled o;
     server := server o; calls := x; processors := processors o |}.

Definition set_processors (x : nat) (o : subscribeClient) :=
  {| OpcUAInputClient := OpcUAInputClient o; Config := Config o; sub := sub o;
     monitoredItemsReqs := monitoredItemsReqs o;
     eventItemsReqs := eventItemsReqs o; metrics := metrics o;
     eventMetrics := eventMetrics o; cancelled := cancelled o;
     server := server o; calls := calls o; processors := x |}.

(** A method of the embedded [*input.OpcUAInputClient]. *)
Definition embedded {A} (m : M input.OpcUAInputClient A) : M subscribeClient A :=
  fun o =>
    match m (OpcUAInputClient o) with
    | (r, c) => (r, set_OpcUAInputClient c o)
    end.

Definition log (lvl : telegraf.level) (format : string)
    (args : list telegraf.arg) : M subscribeClient unit :=
  embedded (input.log lvl format args).

Definition called (c : call) : M subscribeClient unit :=
  modify (fun o => set_calls (calls o ++ [c])%list o).

Section with_external.
Context `{External}.

(** [err.Error()] *)
Fixpoint Error (e : error) : option string :=
  match e with
  | ErrText text => text
  | ErrWrap pre cause => String.append pre <$> Error cause
  | ErrStatus code => Some (StatusCode_Error code)
  | ErrLibrary text => Some text
  end.

Definition checkDataChangeFilterParameters (params : input.DataChangeFilter)
    : option error :=
  if decide (input.dcf_Trigger params ≠ input.Status
             ∧ input.dcf_Trigger params ≠ input.StatusValue
             ∧ input.dcf_Trigger params ≠ input.StatusValueTimestamp)
  then Some (ErrText (Go.Sprintf "trigger '%s' not supported"
               [ {| Go.o_type := "input.Trigger";
                    Go.o_text := input.dcf_Trigger params |} ]))
  else if decide (input.dcf_DeadbandType params ≠ input.Absolute
                  ∧ input.dcf_DeadbandType params ≠ input.Percent)
  then Some (ErrText (Go.Sprintf "deadband_type '%s' not supported"
               [ {| Go.o_type := "input.DeadbandType";
                    Go.o_text := input.dcf_DeadbandType params |} ]))
  else match input.dcf_DeadbandValue params with
       | None => Some (ErrText (Some "deadband_value was not set"))
       | Some v =>
           if PrimFloat.ltb v 0%float
           then Some (ErrText (Some "negative deadband_value not supported"))
           else None
       end.

Definition set_rp_SamplingInterval (x : Z) (p : ua.MonitoringParameters) :=
  {| ua.rp_ClientHandle := ua.rp_ClientHandle p; ua.rp_SamplingInterval := x;
     ua.rp_Filter := ua.rp_Filter p; ua.rp_QueueSize := ua.rp_QueueSize p;
     ua.rp_DiscardOldest := ua.rp_DiscardOldest p |}.

Definition set_rp_QueueSize (x : Z) (p : ua.MonitoringParameters) :=
  {| ua.rp_ClientHandle := ua.rp_ClientHandle p;
     ua.rp_SamplingInterval := ua.rp_SamplingInterval p;
     ua.rp_Filter := ua.rp_Filter p; ua.rp_QueueSize := x;
     ua.rp_DiscardOldest := ua.rp_DiscardOldest p |}.

Definition set_rp_DiscardOldest (x : bool) (p : ua.MonitoringParameters) :=
  {| ua.rp_ClientHandle := ua.rp_ClientHandle p;
     ua.rp_SamplingInterval := ua.rp_SamplingInterval p;
     ua.rp_Filter := ua.rp_Filter p; ua.rp_QueueSize := ua.rp_QueueSize p;
     ua.rp_DiscardOldest := x |}.

Definition set_rp_Filter (x : option ua.DataChangeFilter) (p : ua.MonitoringParameters) :=
  {| ua.rp_ClientHandle := ua.rp_ClientHandle p;
     ua.rp_SamplingInterval := ua.rp_SamplingInterval p;
     ua.rp_Filter := x; ua.rp_QueueSize := ua.rp_QueueSize p;
     ua.rp_DiscardOldest := ua.rp_DiscardOldest p |}.

Definition with_params (f : ua.MonitoringParameters -> ua.MonitoringParameters)
    : M ua.MonitoredItemCreateRequest unit :=
  modify (fun req =>
    {| ua.ItemToMonitor := ua.ItemToMonitor req;
       ua.RequestedParameters := f (ua.RequestedParameters req) |}).

Definition Millisecond : Z := 1000000.

(** [assignConfigValuesToRequest]: the request is the state, the result
    is the [error] returned. *)
Definition assignConfigValuesToRequest (monParams : input.MonitoringParameters)
    : M ua.MonitoredItemCreateRequest (option error) :=
  with_params (set_rp_SamplingInterval
    (Z.quot (input.SamplingInterval monParams) Millisecond)) ;;;
  (match input.QueueSize monParams with
   | Some q => with_params (set_rp_QueueSize q)
   | None => ret tt
   end) ;;;
  (match input.DiscardOldest monParams with
   | Some d => with_params (set_rp_DiscardOldest d)
   | None => ret tt
   end) ;;;
  match input.mp_DataChangeFilter monParams with
  | Some filter =>
      match checkDataChangeFilterParameters filter with
      | Some err =>
          req <~ get ;;
          ret (Some (ErrText
            (text ← Error err;
             Go.Sprintf (text +:+ ", node '%s'")
               [ {| Go.o_type := "*ua.NodeID";
                    Go.o_text := ua.NodeID_String (ua.ItemToMonitor req) |} ])))
      | None =>
          match input.dcf_DeadbandValue filter with
          | Some v =>
              with_params (set_rp_Filter (Some
                {| ua.f_Trigger :=
                     ua.DataChangeTriggerFromString (input.dcf_Trigger filter);
                   ua.f_DeadbandType :=
                     ua.DeadbandTypeFromString (input.dcf_DeadbandType filter);
                   ua.f_DeadbandValue := v |})) ;;;
              ret None
          | None => panic "nil pointer dereference"
          end
      end
  | None => ret None
  end.

Definition connect : M subscribeClient (option error) :=
  o <~ get ;;
  called CallConnect ;;;
  embedded (modify (fun c =>
    input.set_Log (input.Log c ++ srv_ConnectLog (server o))%list c)) ;;;
  match srv_Connect (server o) with
  | Some err => ret (Some err)
  | None =>
      log telegraf.LDebug "Creating OPC UA subscription" [] ;;;
      called (CallSubscribe (SubscriptionInterval (Config o))) ;;;
      match srv_Subscribe (server o) with
      | Err err =>
          modify (set_sub None) ;;;
          log telegraf.LError "Failed to create subscription" [] ;;;
          ret (Some err)
      | Ok id =>
          modify (set_sub (Some id)) ;;;
          log telegraf.LDebug "Subscribed with subscription ID %d" [telegraf.AInt id] ;;;
          ret None
      end
  end.

(** [o.sub.Monitor(ctx, ua.TimestampsToReturnBoth, reqs...)] *)
Definition Monitor (reqs : list ua.MonitoredItemCreateRequest)
    : M subscribeClient (result error (list ua.StatusCode)) :=
  o <~ get ;;
  match sub o with
  | None => panic "nil pointer dereference"
  | Some _ =>
      called (CallMonitor reqs) ;;;
      ret (srv_Monitor (server o) reqs)
  end.

(** [go o.processReceivedNotifications()] *)
Definition go_processReceivedNotifications : M subscribeClient unit :=
  modify (fun o => set_processors (S (processors o)) o).

(** The [switch o.Config.ConnectFailBehavior] after a failed connect. *)
Definition connectFailed (err : error)
    : M subscribeClient (option chan * option error) :=
  o <~ get ;;
  let endpoint := input.Endpoint (input.ClientConfig (InputClientConfig (Config o))) in
  if decide (ConnectFailBehavior (Config o) = "retry") then
    log telegraf.LWarn
      "Failed to connect to OPC UA server %s. Will attempt to connect again at the next interval: %s"
      [telegraf.AStr endpoint; telegraf.AErr (Error err)] ;;;
    ret (None, None)
  else if decide (ConnectFailBehavior (Config o) = "ignore") then
    log telegraf.LError
      "Failed to connect to OPC UA server %s. Will not retry: %s"
      [telegraf.AStr endpoint; telegraf.AErr (Error err)] ;;;
    ret (None, None)
  else ret (None, Some err).

(** The loop of [startStreamValues] over [resp.Results], from index
    [idx]: [Some err] when it returns from the function. *)
Fixpoint checkResults (idx : nat) (results : list ua.StatusCode)
    : M subscribeClient (option error) :=
  match results with
  | [] => ret None
  | res :: rest =>
      o <~ get ;;
      if negb (input.StatusCodeOK (OpcUAInputClient o) res) then
        (* Verify NodeIDs array has been built before trying to get item;
           otherwise show '?' for node id *)
        (if decide (idx < length (input.NodeIDs (OpcUAInputClient o)))%nat then
           nmm <~ index (input.NodeMetricMappings (OpcUAInputClient o)) idx ;;
           nid <~ index (input.NodeIDs (OpcUAInputClient o)) idx ;;
           log telegraf.LDebug "Failed to create monitored item for node %v (%v)"
             [telegraf.AStr (input.FieldName (input.Tag nmm));
              telegraf.AStr (ua.NodeID_String nid)]
         else
           nmm <~ index (input.NodeMetricMappings (OpcUAInputClient o)) idx ;;
           log telegraf.LDebug "Failed to create monitored item for node %v (%v)"
             [telegraf.AStr (input.FieldName (input.Tag nmm));
              telegraf.ARune 63]) ;;;
        ret (Some (ErrWrap "creating monitored item failed with status code: "
                     (ErrStatus res)))
      else checkResults (S idx) rest
  end.

Definition startStreamValues : M subscribeClient (option chan * option error) :=
  o <~ get ;;
  if decide (length (monitoredItemsReqs o) = 0%nat) then ret (None, None)
  else
    (* fixme: Two connection attempts are made if both values and events
       are streamed *)
    err <~ connect ;;
    match err with
    | Some err => connectFailed err
    | None =>
        resp <~ Monitor (monitoredItemsReqs o) ;;
        match resp with
        | Err err =>
            ret (None, Some (ErrWrap "failed to start monitoring items: " err))
        | Ok results =>
            log telegraf.LDebug "Monitoring items" [] ;;;
            bad <~ checkResults 0 results ;;
            match bad with
            | Some err => ret (None, Some err)
            | None =>
                go_processReceivedNotifications ;;;
                ret (Some ChMetrics, None)
            end
        end
    end.

(** The loop of [startStreamEvents] over [resp.Results]. *)
Fixpoint checkEventResults (results : list ua.StatusCode)
    : M subscribeClient (option error) :=
  match results with
  | [] => ret None
  | res :: rest =>
      o <~ get ;;
      if negb (input.StatusCodeOK (OpcUAInputClient o) res) then
        ret (Some (ErrWrap
          "creating monitored event streaming item failed with status code: "
          (ErrStatus res)))
      else checkEventResults rest
  end.

Definition startStreamEvents : M subscribeClient (option chan * option error) :=
  o <~ get ;;
  if decide (length (eventItemsReqs o) = 0%nat) then ret (None, None)
  else
    err <~ connect ;;
    match err with
    | Some err => connectFailed err
    | None =>
        resp <~ Monitor (eventItemsReqs o) ;;
        match resp with
        | Err err =>
            ret (None, Some (ErrWrap "failed to start monitoring event stream: " err))
        | Ok results =>
            log telegraf.LDebug "Monitoring events" [] ;;;
            bad <~ checkEventResults results ;;
            match bad with
            | Some err => ret (None, Some err)
            | None =>
                modify (set_eventMetrics (Some [])) ;;;
                go_processReceivedNotifications ;;;
                ret (Some ChEventMetrics, None)
            end
        end
    end.

(** [o.metrics <- m]; the buffer is taken to have room. *)
Definition send_metrics (m : telegraf.Metric) : M subscribeClient unit :=
  modify (fun o => set_metrics (metrics o ++ [m])%list o).

(** [o.eventMetrics <- m]; a send on a nil channel never proceeds. *)
Definition send_eventMetrics (m : telegraf.Metric) : M subscribeClient unit :=
  o <~ get ;;
  match eventMetrics o with
  | None => block
  | Some q => modify (set_eventMetrics (Some (q ++ [m])%list))
  end.

(** The body of the loop over [notif.MonitoredItems]. *)
Definition dataChangeItem (monitoredItemNotif : ua.MonitoredItemNotification)
    : M subscribeClient unit :=
  let i := ua.min_ClientHandle monitoredItemNotif in
  o <~ get ;;
  old <~ index (input.LastReceivedData (OpcUAInputClient o)) i ;;
  let oldValue := input.Value old in
  embedded (input.UpdateNodeValue i (ua.min_Value monitoredItemNotif)) ;;;
  o <~ get ;;
  nid <~ index (input.NodeIDs (OpcUAInputClient o)) i ;;
  new <~ index (input.LastReceivedData (OpcUAInputClient o)) i ;;
  log telegraf.LDebug
    "Data change notification: node %q value changed from %v to %v"
    [telegraf.AStr (ua.NodeID_String nid); telegraf.AValue oldValue;
     telegraf.AValue (input.Value new)] ;;;
  m <~ embedded (input.MetricForNode i) ;;
  send_metrics m.

(** The loop over [event.EventFields], from index [i]; [names] is
    [node.Fields]. *)
Fixpoint eventFields (i : nat) (names : list string) (fs : list ua.Variant)
    (fields : gmap string ua.value) : M subscribeClient (gmap string ua.value) :=
  match fs with
  | [] => ret fields
  | field :: rest =>
      fieldName <~ index names i ;;
      let value := ua.v_Value field in
      match value with
      | ua.VNil =>
          log telegraf.LWarn "Field %s has nil value" [telegraf.AStr fieldName] ;;;
          eventFields (S i) names rest fields
      | _ =>
          if decide (fieldName = "Message") then
            match value with
            | ua.VLocalizedText localizedText =>
                eventFields (S i) names rest
                  (<[ "Message" := ua.VString (ua.Text localizedText) ]> fields)
            | _ =>
                log telegraf.LWarn
                  "Message field is not of type *ua.LocalizedText: %T"
                  [telegraf.ATypeOf value] ;;;
                eventFields (S i) names rest fields
            end
          else eventFields (S i) names rest (<[ fieldName := value ]> fields)
      end
  end.

(** The body of the loop over [notif.Events].  A handle that is not in
    [EventClientHandle] gives the zero mapping: no field names and a nil
    node ID, whose [String()] is the empty text. *)
Definition processEvent (event : ua.EventFieldList) : M subscribeClient unit :=
  o <~ get ;;
  let node := input.EventClientHandle (OpcUAInputClient o)
                !! ua.efl_ClientHandle event in
  let names := match node with Some n => input.ev_Fields n | None => [] end in
  fields <~ eventFields 0 names (ua.EventFields event) ∅ ;;
  let node_id := match node with
                 | Some n => ua.NodeID_String (input.ev_NodeID n)
                 | None => ""
                 end in
  let tags : gmap string string :=
    <[ "source" := input.Endpoint
                     (input.ClientConfig (InputClientConfig (Config o))) ]>
      {[ "node_id" := node_id ]} in
  send_eventMetrics (telegraf.New "opcua_event" tags fields time_Now).

Inductive control := Continue | Return.

(** One received item of [o.dataNotifications]. *)
Definition processNotification (res : PublishNotificationData)
    : M subscribeClient control :=
  match pn_Error res with
  | Some err =>
      log telegraf.LError "" [telegraf.AErr (Error err)] ;;;
      ret Continue
  | None =>
      match pn_Value res with
      | ua.NilNotification =>
          log telegraf.LError "Received nil notification" [] ;;;
          ret Return
      | ua.DataChangeNotification items =>
          log telegraf.LDebug "Received data change notification with %d items"
            [telegraf.AInt (Z.of_nat (length items))] ;;;
          (* It is assumed the notifications are ordered chronologically *)
          range_each items dataChangeItem ;;;
          ret Continue
      | ua.EventNotificationList events =>
          log telegraf.LDebug "Processing event notification with %d events"
            [telegraf.AInt (Z.of_nat (length events))] ;;;
          range_each events processEvent ;;;
          ret Continue
      | ua.OtherNotification typeName =>
          log telegraf.LWarn "Received notification has unexpected type %s"
            [telegraf.AStr typeName] ;;;
          ret Continue
      end
  end.

(** [processReceivedNotifications] on the items [incoming] the channel
    delivers before it is closed.  Of the runs of the [select], which is
    free to take either case when the context is done and an item is
    waiting, this is the one that takes the done context first. *)
Fixpoint processReceivedNotifications (incoming : list PublishNotificationData)
    : M subscribeClient unit :=
  o <~ get ;;
  if cancelled o then
    log telegraf.LDebug "Processing received notifications stopped" []
  else
    match incoming with
    | [] =>
        log telegraf.LDebug
          "Data notification channel closed. Processing of received notifications stopped" []
    | res :: rest =>
        c <~ processNotification res ;;
        match c with
        | Continue => processReceivedNotifications rest
        | Return => ret tt
        end
    end.

End with_external.

Definition set_cancelled (x : bool) (o : subscribeClient) :=
  {| OpcUAInputClient := OpcUAInputClient o; Config := Config o; sub := sub o;
     monitoredItemsReqs := monitoredItemsReqs o;
     eventItemsReqs := eventItemsReqs o; metrics := metrics o;
     eventMetrics := eventMetrics o; cancelled := x;
     server := server o; calls := calls o; processors := processors o |}.

Section with_library.
Context `{External}.

(** [stop]; [connected] tells whether [o.State()] is
    [opcuaclient.Connected], [cancel] is what [o.sub.Cancel] returns and
    [disconnect] what [Disconnect] returns.  The result is the channel
    returned: [None] for nil. *)
Definition stop (connected : bool) (cancel : option error)
    (disconnect : option string) : M subscribeClient (option input.closedChan) :=
  log telegraf.LDebug "Stopping OPC subscription..." [] ;;;
  if negb connected then ret None
  else
    o <~ get ;;
    (match sub o with
     | Some _ =>
         match cancel with
         | Some err =>
             log telegraf.LWarn ""
               [telegraf.AStr "Cancelling OPC UA subscription failed with error ";
                telegraf.AErr (Error err)]
         | None => ret tt
         end
     | None => ret tt
     end) ;;;
    closing <~ embedded (input.Stop disconnect) ;;
    modify (set_cancelled true) ;;;
    ret (Some closing).

(** [opcua.NewMonitoredItemCreateRequestWithDefaults(nodeID,
    ua.AttributeIDValue, handle)] of the client library. *)
Context (NewMonitoredItemCreateRequestWithDefaults :
           ua.NodeID -> ua.AttributeID -> nat -> ua.MonitoredItemCreateRequest).

(** The loop of [createSubscribeClient] over [client.NodeIDs], from the
    index [i]: the requests for the monitored items, or the error the
    function returns with.  [reqs] holds the requests made so far; the
    source writes them, in this order, into a slice of the length of
    [client.NodeIDs]. *)
Fixpoint createMonitoredItems (i : nat) (nodeIDs : list ua.NodeID)
    (client : input.OpcUAInputClient) (reqs : list ua.MonitoredItemCreateRequest)
    : outcome (result error (list ua.MonitoredItemCreateRequest)) :=
  match nodeIDs with
  | [] => Done (Ok reqs)
  | nodeID :: rest =>
      (* The node id index (i) is used as the handle for the monitored item *)
      let req := NewMonitoredItemCreateRequestWithDefaults nodeID ua.AttributeIDValue i in
      match input.NodeMetricMappings client !! i with
      | None => Fault (Panic "index out of range")
      | Some nmm =>
          match assignConfigValuesToRequest
                  (input.MonitoringParams (input.Tag nmm)) req with
          | (Done (Some err), _) => Done (Err err)
          | (Done None, req) => createMonitoredItems (S i) rest client (reqs ++ [req])
          | (Fault f, _) => Fault f
          end
      end
  end.

End with_library.

End opcua_listener.

(** ** Package [opcua_listener]: the filter of an event subscription *)

Module event_filter.

(** [input.EventNodeMetricMapping], as the construction of the event filter
    reads it; [EventType] is not nil. *)
Record EventNodeMetricMapping := {
  EventType : ua.NodeIDValue;
  SourceNames : list string;
  Fields : list string;
}.

Inductive error :=
  | ErrTwoByteRange (id : N).
      (* "twoByte EventType requires a value in the range 0-255, got %d" *)

Definition uint8 (n : N) : N := (n mod 256)%N.
Definition uint16 (n : N) : N := (n mod 65536)%N.

(** [determineNodeIDType].  In the default case the argument of
    [fmt.Errorf] is [node.EventType.String()], which panics for a node ID
    of no known type, so that no error is returned there. *)
Definition determineNodeIDType (node : EventNodeMetricMapping)
    : outcome (result error ua.NewNodeID) :=
  let eventType := EventType node in
  match ua.nid_Type eventType with
  | ua.NodeIDTypeGUID =>
      Done (Ok (ua.NewGUIDNodeID (ua.nid_Namespace eventType)
                  (ua.nid_StringID eventType)))
  | ua.NodeIDTypeString =>
      Done (Ok (ua.NewStringNodeID (ua.nid_Namespace eventType)
                  (ua.nid_StringID eventType)))
  | ua.NodeIDTypeByteString =>
      Done (Ok (ua.NewByteStringNodeID (ua.nid_Namespace eventType)
                  (ua.nid_StringID eventType)))
  | ua.NodeIDTypeTwoByte =>
      let id := ua.nid_IntID eventType in
      if decide (255 < id)%N then Done (Err (ErrTwoByteRange id))
      else Done (Ok (ua.NewTwoByteNodeID (uint8 (ua.nid_IntID eventType))))
  | ua.NodeIDTypeFourByte =>
      Done (Ok (ua.NewFourByteNodeID (uint8 (ua.nid_Namespace eventType))
                  (uint16 (ua.nid_IntID eventType))))
  | ua.NodeIDTypeNumeric =>
      Done (Ok (ua.NewNumericNodeID (ua.nid_Namespace eventType)
                  (ua.nid_IntID eventType)))
  | ua.NodeIDTypeOther => Fault (Panic "invalid node id type")
  end.

(** The loop of [createSelectClauses] over the field names [names]. *)
Fixpoint selectClauses (node : EventNodeMetricMapping) (names : list string)
    : outcome (result error (list ua.SimpleAttributeOperand)) :=
  match names with
  | [] => Done (Ok [])
  | name :: rest =>
      match determineNodeIDType node with
      | Fault f => Fault f
      | Done (Err err) => Done (Err err)
      | Done (Ok typeDefinition) =>
          match selectClauses node rest with
          | Done (Ok selects) =>
              Done (Ok ({| ua.TypeDefinitionID := typeDefinition;
                           ua.BrowsePath :=
                             [ {| ua.NamespaceIndex := 0; ua.qn_Name := name |} ];
                           ua.sao_AttributeID := ua.AttributeIDValue |} :: selects))
          | stopped => stopped
          end
      end
  end.

Definition createSelectClauses (node : EventNodeMetricMapping)
    : outcome (result error (list ua.SimpleAttributeOperand)) :=
  selectClauses node (Fields node).

Definition literalOperand (sourceName : string) : ua.ExtensionObject ua.filterOperand :=
  {| ua.EncodingMask := ua.Mask 1;
     ua.eo_TypeID := ua.LiteralOperand_Encoding_DefaultBinary;
     ua.eo_Value := ua.LiteralOperand sourceName |}.

Definition createWhereClauses (node : EventNodeMetricMapping)
    : outcome (result error ua.ContentFilter) :=
  if decide (length (SourceNames node) = 0%nat) then Done (Ok {| ua.Elements := [] |})
  else
    let operands := literalOperand <$> SourceNames node in
    match determineNodeIDType node with
    | Fault f => Fault f
    | Done (Err err) => Done (Err err)
    | Done (Ok typeDefinition) =>
        let attributeOperand :=
          {| ua.EncodingMask := ua.ExtensionObjectBinary;
             ua.eo_TypeID := ua.SimpleAttributeOperand_Encoding_DefaultBinary;
             ua.eo_Value := ua.AttributeOperand
               {| ua.TypeDefinitionID := typeDefinition;
                  ua.BrowsePath :=
                    [ {| ua.NamespaceIndex := 0; ua.qn_Name := "SourceName" |} ];
                  ua.sao_AttributeID := ua.AttributeIDValue |} |} in
        let filterElement :=
          {| ua.cfe_FilterOperator := ua.FilterOperatorInList;
             ua.FilterOperands := attributeOperand :: operands |} in
        Done (Ok {| ua.Elements := [filterElement] |})
    end.

(** Creation of event filter for event streaming. *)
Definition createEventFilter (node : EventNodeMetricMapping)
    : outcome (result error (ua.ExtensionObject ua.EventFilter)) :=
  match createSelectClauses node with
  | Fault f => Fault f
  | Done (Err err) => Done (Err err)
  | Done (Ok selects) =>
      match createWhereClauses node with
      | Fault f => Fault f
      | Done (Err err) => Done (Err err)
      | Done (Ok wheres) =>
          Done (Ok {| ua.EncodingMask := ua.ExtensionObjectBinary;
                      ua.eo_TypeID := ua.EventFilter_Encoding_DefaultBinary;
                      ua.eo_Value := {| ua.SelectClauses := selects;
                                        ua.WhereClause := wheres |} |})
      end
  end.

End event_filter.

(** ** Package [testutil] *)

Module testutil.

(** [DefaultDelta = 0.001], as the [float64] nearest to it. *)
Definition DefaultDelta : float := 0x1.0624dd2f1a9fcp-10.

Definition WithinDefaultDelta (dt : float) : bool :=
  if PrimFloat.ltb dt (- DefaultDelta) || PrimFloat.ltb DefaultDelta dt
  then false
  else true.

End testutil.

(** * Vocabulary of the statements *)

Section input_vocabulary.
Import input.

(** The identifier type is one of i, s, g, b, and an identifier of type i
    parses as an integer. *)
Definition identifierTypeOK (n : NodeSettings) : Prop :=
  (IdentifierType n = "i" ∧ is_Some (Go.Atoi (Identifier n)))
  ∨ IdentifierType n ∈ ["s"; "g"; "b"].

Definition structurallyValid (n : NodeSettings) : Prop :=
  FieldName n ≠ "" ∧ Namespace n ≠ "" ∧ Identifier n ≠ "" ∧ identifierTypeOK n.

(** The point definitions of a configuration, in the order of the build:
    the root points, then the points of each group with the group's
    defaults. *)
Definition groupPoints (g : NodeGroupSettings) : list NodeSettings :=
  withGroupDefaults g <$> g_Nodes g.

Definition configPoints (cfg : InputClientConfig) : list NodeSettings :=
  (RootNodes cfg ++ concat (fmap groupPoints (Groups cfg)))%list.

Fixpoint has_byte (c : ascii) (s : string) : bool :=
  match s with
  | EmptyString => false
  | String x s' => bool_decide (x = c) || has_byte c s'
  end.

(** No tag value contains a comma. *)
Definition comma_free (tags : gmap string string) : Prop :=
  ∀ k v, tags !! k = Some v -> has_byte "," v = false.

Definition starts_sep (r : string) : Prop :=
  r = "" ∨ ∃ r', r = String "," r'.

(** The text [writeTags] appends for the keys from index [i] on. *)
Fixpoint tagText (i : nat) (keys : list string) (tags : gmap string string) : string :=
  match keys with
  | [] => ""
  | key :: rest =>
      (if decide (i ≠ 0%nat) then ", " else "") +:+ key +:+ "=" +:+
      default "" (tags !! key) +:+ tagText (S i) rest tags
  end.

(** The keys of the accepted mappings. *)
Definition keysOf (ms : list NodeMetricMapping) : gset metricParts :=
  list_to_set (newMP <$> ms).

(** The invariant of the build: [existing] holds the keys of the mappings
    accepted so far, which are pairwise different and structurally valid. *)
Definition Inv (existing : gset metricParts) (o : OpcUAInputClient) : Prop :=
  existing = keysOf (NodeMetricMappings o)
  ∧ NoDup (newMP <$> NodeMetricMappings o)
  ∧ Forall structurallyValid (Tag <$> NodeMetricMappings o).

(** A duplicate error names the key of a mapping accepted before. *)
Definition ErrInv (e : error) (o : OpcUAInputClient) : Prop :=
  ∀ f m t, e = ErrDuplicated f m t ->
    ∃ a, a ∈ NodeMetricMappings o
         ∧ newMP a = {| mp_metricName := m; mp_fieldName := f; mp_tags := t |}.

(** The state of the build after the points [pts]. *)
Definition Built (cfg : InputClientConfig) (pts : list NodeSettings)
    (existing : gset metricParts) (o : OpcUAInputClient) : Prop :=
  Inv existing o ∧ Tag <$> NodeMetricMappings o = pts ∧ Config o = cfg.

(** [o'] differs from [o] at most in the logger's output and in the cache. *)
Definition same_mappings (o o' : OpcUAInputClient) : Prop :=
  StatusCodeOK o' = StatusCodeOK o
  ∧ Config o' = Config o
  ∧ NodeMetricMappings o' = NodeMetricMappings o
  ∧ NodeIDs o' = NodeIDs o
  ∧ EventClientHandle o' = EventClientHandle o.

(** The tags of the measurement of a mapping. *)
Definition tagsOf (nmm : NodeMetricMapping) : gmap string string :=
  MetricTags nmm ∪ {[ "id" := idStr nmm ]}.

(** The handle of an item indexes the mappings, the node IDs and the cache. *)
Definition validHandle (c : OpcUAInputClient) (item : ua.MonitoredItemNotification)
    : Prop :=
  (ua.min_ClientHandle item < length (NodeMetricMappings c))%nat
  ∧ (ua.min_ClientHandle item < length (NodeIDs c))%nat
  ∧ (ua.min_ClientHandle item < length (LastReceivedData c))%nat.

Context `{External}.

(** The value cached for a variant: a date/time is kept as the text of
    [Format]. *)
Definition cachedValue (format : string) (variant : ua.Variant) : ua.value :=
  match ua.v_Value variant with
  | ua.VTime t =>
      if decide (ua.v_Type variant = ua.TypeIDDateTime)
      then ua.VString (time_Format t format) else ua.VTime t
  | v => v
  end.

(** The fields [MetricForNode] hands to [metric.New] for a mapping whose
    cache slot is [last]. *)
Definition fieldsGiven (optionalFields : list string)
    (nmm : NodeMetricMapping) (last : NodeValue) : gmap string ua.value :=
  let fields : gmap string ua.value :=
    <[ "Quality" := ua.VString (strings_TrimSpace (StatusCode_Error (Quality last))) ]>
      (<[ FieldName (Tag nmm) := Value last ]> ∅) in
  if Go.Contains "DataType" optionalFields
  then <[ "DataType" :=
            ua.VString (Go.Replace_first (TypeID_String (DataType last)) "TypeID" "") ]>
         fields
  else fields.

(** The fields of the measurement of a mapping whose cache slot is [last]:
    of the fields given, those a metric stores. *)
Definition fieldsOf (optionalFields : list string)
    (nmm : NodeMetricMapping) (last : NodeValue) : gmap string ua.value :=
  omap telegraf.convertField (fieldsGiven optionalFields nmm last).

(** What a data change [d] makes of the cache slot [old]: the quality is
    always taken; the value, its type and the two timestamps only when the
    status is good ([ok]). *)
Definition slotUpdated (ok : bool) (format : string) (d : ua.DataValue)
    (old new : NodeValue) : Prop :=
  Quality new = ua.dv_Status d ∧ TagName new = TagName old ∧
  if ok then
    ServerTime new = ua.ServerTimestamp d ∧ SourceTime new = ua.SourceTimestamp d ∧
    match ua.dv_Value d with
    | Some variant =>
        DataType new = ua.v_Type variant ∧ Value new = cachedValue format variant
    | None => Value new = Value old ∧ DataType new = DataType old
    end
  else
    Value new = Value old ∧ DataType new = DataType old
    ∧ ServerTime new = ServerTime old ∧ SourceTime new = SourceTime old.

End input_vocabulary.

Section listener_vocabulary.
Import input.
Import opcua_listener.

(** [o'] differs from [o] at most in the logger's output, the subscription
    and the calls made. *)
Definition same_client (o o' : subscribeClient) : Prop :=
  Config o' = Config o
  ∧ monitoredItemsReqs o' = monitoredItemsReqs o
  ∧ eventItemsReqs o' = eventItemsReqs o
  ∧ metrics o' = metrics o
  ∧ eventMetrics o' = eventMetrics o
  ∧ server o' = server o
  ∧ processors o' = processors o
  ∧ StatusCodeOK (OpcUAInputClient o') = StatusCodeOK (OpcUAInputClient o)
  ∧ NodeMetricMappings (OpcUAInputClient o') = NodeMetricMappings (OpcUAInputClient o)
  ∧ NodeIDs (OpcUAInputClient o') = NodeIDs (OpcUAInputClient o)
  ∧ LastReceivedData (OpcUAInputClient o') = LastReceivedData (OpcUAInputClient o).

(** The first result whose status is not good, with its index. *)
Definition firstBad (ok : ua.StatusCode -> bool) (results : list ua.StatusCode)
    : option (nat * ua.StatusCode) :=
  list_find (fun c => ok c = false) results.

(** The debug entry of [startStreamValues] for a failed item: its field
    name, and its node ID [nid] when the list of node IDs has one for it,
    the rune of a question mark otherwise. *)
Definition failedItemEntry (fieldName : string) (nid : option ua.NodeID)
    : telegraf.entry :=
  {| telegraf.e_level := telegraf.LDebug;
     telegraf.e_format := "Failed to create monitored item for node %v (%v)";
     telegraf.e_args :=
       [telegraf.AStr fieldName;
        match nid with
        | Some nid => telegraf.AStr (ua.NodeID_String nid)
        | None => telegraf.ARune 63
        end] |}.

(** The two debug entries of a connect that succeeds with the subscription
    [id]. *)
Definition connectEntries (id : Z) : list telegraf.entry :=
  [ {| telegraf.e_level := telegraf.LDebug;
       telegraf.e_format := "Creating OPC UA subscription";
       telegraf.e_args := [] |};
    {| telegraf.e_level := telegraf.LDebug;
       telegraf.e_format := "Subscribed with subscription ID %d";
       telegraf.e_args := [telegraf.AInt id] |} ].

(** The log of [o] after a connect that succeeds with the subscription
    [id]: what the library writes, then the two entries of [connect]. *)
Definition connectedLog (o : subscribeClient) (id : Z) : list telegraf.entry :=
  (Log (OpcUAInputClient o) ++ srv_ConnectLog (server o) ++ connectEntries id)%list.

(** The debug entry a start operation writes after the registration. *)
Definition monitoringEntry (what : string) : telegraf.entry :=
  {| telegraf.e_level := telegraf.LDebug;
     telegraf.e_format := what; telegraf.e_args := [] |}.

(** What one event field contributes to the field map. *)
Definition emitted (name : string) (value : ua.value) : option (string * ua.value) :=
  match value with
  | ua.VNil => None
  | ua.VLocalizedText lt =>
      if decide (name = "Message") then Some ("Message", ua.VString (ua.Text lt))
      else Some (name, value)
  | _ => if decide (name = "Message") then None else Some (name, value)
  end.

Definition nilWarning (name : string) : telegraf.entry :=
  {| telegraf.e_level := telegraf.LWarn;
     telegraf.e_format := "Field %s has nil value";
     telegraf.e_args := [telegraf.AStr name] |}.

Definition messageWarning (value : ua.value) : telegraf.entry :=
  {| telegraf.e_level := telegraf.LWarn;
     telegraf.e_format := "Message field is not of type *ua.LocalizedText: %T";
     telegraf.e_args := [telegraf.ATypeOf value] |}.

(** The warning one event field causes. *)
Definition warned (name : string) (value : ua.value) : list telegraf.entry :=
  match value with
  | ua.VNil => [nilWarning name]
  | ua.VLocalizedText _ => []
  | _ => if decide (name = "Message") then [messageWarning value] else []
  end.

Fixpoint eventFieldsOf (names : list string) (fs : list ua.Variant)
    (fields : gmap string ua.value) : gmap string ua.value :=
  match names, fs with
  | name :: names', f :: fs' =>
      eventFieldsOf names' fs'
        (match emitted name (ua.v_Value f) with
         | Some (k, v) => <[k := v]> fields
         | None => fields
         end)
  | _, _ => fields
  end.

Fixpoint eventWarnings (names : list string) (fs : list ua.Variant)
    : list telegraf.entry :=
  match names, fs with
  | name :: names', f :: fs' => (warned name (ua.v_Value f) ++ eventWarnings names' fs')%list
  | _, _ => []
  end.

(** [o] with the entries [ws] added to the logger's output. *)
Definition logged (ws : list telegraf.entry) (o : subscribeClient) : subscribeClient :=
  set_OpcUAInputClient
    (set_Log (Log (OpcUAInputClient o) ++ ws)%list (OpcUAInputClient o)) o.

End listener_vocabulary.

(** ** More vocabulary: what the functions accept, build and log *)

Section more_input_vocabulary.
Import input.

(** A tag of the deprecated [tags] option is a pair of a non-empty name and
    a non-empty value. *)
Definition wellFormedTag (tag : list string) : Prop :=
  ∃ name value, tag = [name; value] ∧ name ≠ "" ∧ value ≠ "".

(** The name of a tag: its first entry. *)
Definition tagName (tag : list string) : string := default "" (head tag).

(** The pairs of a list of tags. *)
Definition tagPairs (tags : list (list string)) : list (string * string) :=
  omap (fun tag => match tag with [name; value] => Some (name, value) | _ => None end) tags.

(** The error for the tag [bad] at the 1-based position [i]. *)
Definition tagError (i : nat) (bad : list string) : error :=
  match bad with
  | [name; value] =>
      if decide (name = "") then ErrTagEmptyName i
      else if decide (value = "") then ErrTagEmptyValue i
      else ErrTagDuplicateKey i name
  | _ => ErrTagNeeds2 i (length bad) bad
  end.

End more_input_vocabulary.

Section configuration_vocabulary.
Import input.

(** What [Validate] asks of a configuration. *)
Definition validConfig (cfg : InputClientConfig) : Prop :=
  MetricName cfg ≠ ""
  ∧ Timestamp cfg ∈ [""; "gather"; "server"; "source"]
  ∧ ¬ (Groups cfg = [] ∧ RootNodes cfg = [] ∧ cfg_EventStreamingInput cfg = None)
  ∧ Forall (fun g => g_Nodes g ≠ []) (Groups cfg).

(** The timestamp format after [Validate]. *)
Definition formatOrDefault (cfg : InputClientConfig) : string :=
  if decide (TimestampFormat cfg = "") then RFC3339Nano else TimestampFormat cfg.

End configuration_vocabulary.

Section build_vocabulary.
Import input.

(** [o'] differs from [o] at most in the mappings and in the logger's
    output, which has only grown. *)
Definition mapping_frame (o o' : OpcUAInputClient) : Prop :=
  StatusCodeOK o' = StatusCodeOK o
  ∧ Config o' = Config o
  ∧ NodeIDs o' = NodeIDs o
  ∧ LastReceivedData o' = LastReceivedData o
  ∧ EventStreamingInput o' = EventStreamingInput o
  ∧ EventClientHandle o' = EventClientHandle o
  ∧ Log o `prefix_of` Log o'.

(** What a mapping is built from: a measurement name, the tags of the
    group and the settings of the node. *)
Record pointSource := {
  ps_name : string;
  ps_groupTags : gmap string string;
  ps_node : NodeSettings;
}.

Definition groupName (cfg : InputClientConfig) (g : NodeGroupSettings) : string :=
  if decide (g_MetricName g = "") then MetricName cfg else g_MetricName g.

Definition groupSources (cfg : InputClientConfig) (g : NodeGroupSettings)
    : list pointSource :=
  (fun node => {| ps_name := groupName cfg g;
                  ps_groupTags := match groupTags g with Ok t => t | Err _ => ∅ end;
                  ps_node := withGroupDefaults g node |}) <$> g_Nodes g.

(** The points of a configuration in the order of the build: the root
    nodes under the name of the plugin and without group tags, then the
    nodes of each group. *)
Definition pointSources (cfg : InputClientConfig) : list pointSource :=
  ((fun node => {| ps_name := MetricName cfg; ps_groupTags := ∅; ps_node := node |})
     <$> RootNodes cfg)
  ++ concat (groupSources cfg <$> Groups cfg).

Definition builtFrom (src : pointSource) (a : NodeMetricMapping) : Prop :=
  NewNodeMetricMapping (ps_name src) (ps_node src) (ps_groupTags src) = Ok a.

(** The state of the build after the sources [srcs], started from [o]. *)
Definition BuiltFrom (o : OpcUAInputClient) (srcs : list pointSource)
    (s : OpcUAInputClient) : Prop :=
  ∃ built, NodeMetricMappings s = (NodeMetricMappings o ++ built)%list
           ∧ Forall2 builtFrom srcs built.

(** The steps of the build that can fail, in the order of the build: the
    making of the tags of a group, and the mapping of a point. *)
Inductive buildStep :=
  | GroupTags (g : NodeGroupSettings)
  | Point (src : pointSource).

(** What a step makes of the keys accepted so far.  The tags of a group are
    made, and nothing is kept of them here; a point is mapped by
    [NewNodeMetricMapping] and its mapping validated by [validateNodeToAdd]
    against the keys, which gives the mapping to append and the keys with
    its key. *)
Definition stepResult (existing : gset metricParts) (step : buildStep)
    : result error (list NodeMetricMapping * gset metricParts) :=
  match step with
  | GroupTags g => _ <- groupTags g ;; Ok ([], existing)
  | Point src =>
      nmm <- NewNodeMetricMapping (ps_name src) (ps_node src) (ps_groupTags src) ;;
      existing' <- validateNodeToAdd existing nmm ;;
      Ok ([nmm], existing')
  end.

(** The steps [steps] from the keys [existing], up to the first step that
    fails: the mappings of the steps that passed, with the keys after the
    last step or the error of the step that failed. *)
Fixpoint runSteps (existing : gset metricParts) (steps : list buildStep)
    : list NodeMetricMapping * result error (gset metricParts) :=
  match steps with
  | [] => ([], Ok existing)
  | step :: rest =>
      match stepResult existing step with
      | Err e => ([], Err e)
      | Ok (built, existing') =>
          let (more, r) := runSteps existing' rest in ((built ++ more)%list, r)
      end
  end.

(** The steps of a group: its tags, then its points. *)
Definition groupSteps (cfg : InputClientConfig) (g : NodeGroupSettings)
    : list buildStep :=
  GroupTags g :: (Point <$> groupSources cfg g).

(** The steps of the build of a configuration: the root points, then the
    steps of each group. *)
Definition buildSteps (cfg : InputClientConfig) : list buildStep :=
  (Point <$> ((fun node => {| ps_name := MetricName cfg; ps_groupTags := ∅;
                              ps_node := node |}) <$> RootNodes cfg))
  ++ concat (groupSteps cfg <$> Groups cfg).

End build_vocabulary.

Section create_vocabulary.
Import input.

(** The cache slot of a mapping before any value was received. *)
Definition emptySlot (nmm : NodeMetricMapping) : NodeValue :=
  {| TagName := FieldName (Tag nmm); Value := ua.VNil; Quality := ua.StatusOK;
     ServerTime := 0; SourceTime := 0; DataType := 0 |}.

(** The event streaming input a client keeps: the one of the configuration
    when any of its options is set. *)
Definition keptEventInput (cfg : InputClientConfig) : option OpcUAEventStreamingInput :=
  if IsSet (cfg_EventStreamingInput cfg) then cfg_EventStreamingInput cfg else None.

End create_vocabulary.

Section measurement_vocabulary.
Import input.

(** The debug entry of [MetricForNode] for a mapping whose cached status is
    not good. *)
Definition statusTrace (nmm : NodeMetricMapping) : telegraf.entry :=
  {| telegraf.e_level := telegraf.LDebug;
     telegraf.e_format := "status not OK for node %q(metric name %q, tags %q)";
     telegraf.e_args := [telegraf.AStr (FieldName (Tag nmm));
                         telegraf.AStr (metricName nmm);
                         telegraf.AStr (mp_tags (newMP nmm))] |}.

End measurement_vocabulary.

Section start_vocabulary.
Import input.
Import opcua_listener.

(** The calls to the client library a start operation with the requests
    [reqs] makes: none without requests; otherwise a connect, then, when
    that succeeds, a subscribe, then, when that succeeds, the registration
    of the requests. *)
Definition startCalls (reqs : list ua.MonitoredItemCreateRequest)
    (o : subscribeClient) : list call :=
  if decide (reqs = []) then []
  else CallConnect ::
       match srv_Connect (server o) with
       | Some _ => []
       | None =>
           CallSubscribe (SubscriptionInterval (Config o)) ::
           match srv_Subscribe (server o) with
           | Ok _ => [CallMonitor reqs]
           | Err _ => []
           end
       end.

(** [o'] has the configuration, the requests and the server of [o]. *)
Definition same_setup (o o' : subscribeClient) : Prop :=
  Config o' = Config o
  ∧ monitoredItemsReqs o' = monitoredItemsReqs o
  ∧ eventItemsReqs o' = eventItemsReqs o
  ∧ server o' = server o.

End start_vocabulary.

Section notification_vocabulary.
Import input.
Import opcua_listener.

(** A notification with a nil payload and no error. *)
Definition nilNotification : PublishNotificationData :=
  {| pn_Error := None; pn_Value := ua.NilNotification |}.

(** The field names known for the handle of an event: none when the handle
    is not registered. *)
Definition eventNames (o : subscribeClient) (event : ua.EventFieldList) : list string :=
  match EventClientHandle (OpcUAInputClient o) !! ua.efl_ClientHandle event with
  | Some node => ev_Fields node
  | None => []
  end.

End notification_vocabulary.

Section node_id_vocabulary.
Import input.

(** [nid] is the node ID parsed from the settings of the mapping [nmm]. *)
Definition parsedFrom (ParseNodeID : string -> result error ua.NodeID)
    (nmm : NodeMetricMapping) (nid : ua.NodeID) : Prop :=
  ParseNodeID (NodeID (Tag nmm)) = Ok nid.

End node_id_vocabulary.

Section request_vocabulary.
Import input.
Import opcua_listener.
Context `{External}.
Context (New : ua.NodeID -> ua.AttributeID -> nat -> ua.MonitoredItemCreateRequest).

(** What the loop makes of the node ID at the index [i]. *)
Definition requestFor (client : input.OpcUAInputClient) (i : nat)
    (nodeID : ua.NodeID) (req : ua.MonitoredItemCreateRequest) : Prop :=
  ∃ nmm, NodeMetricMappings client !! i = Some nmm
    ∧ assignConfigValuesToRequest (MonitoringParams (Tag nmm))
        (New nodeID ua.AttributeIDValue i) = (Done None, req).

End request_vocabulary.

Section stop_vocabulary.
Import input.
Import opcua_listener.
Context `{External}.

(** The entries [stop] logs: the debug entry of every call and, for a
    connected client, the warnings for a failed cancel of the subscription
    and for a failed disconnect. *)
Definition stopEntries (o : subscribeClient) (connected : bool)
    (cancel : option error) (disconnect : option string) : list telegraf.entry :=
  {| telegraf.e_level := telegraf.LDebug;
     telegraf.e_format := "Stopping OPC subscription...";
     telegraf.e_args := [] |} ::
  if connected then
    (match sub o, cancel with
     | Some _, Some err =>
         [ {| telegraf.e_level := telegraf.LWarn; telegraf.e_format := "";
              telegraf.e_args :=
                [telegraf.AStr "Cancelling OPC UA subscription failed with error ";
                 telegraf.AErr (Error err)] |} ]
     | _, _ => []
     end)
    ++ (match disconnect with
        | Some text =>
            [ {| telegraf.e_level := telegraf.LWarn; telegraf.e_format := "";
                 telegraf.e_args :=
                   [telegraf.AStr "Disconnecting from server failed with error ";
                    telegraf.AErr (Some text)] |} ]
        | None => []
        end)
  else [].

End stop_vocabulary.

Section event_filter_vocabulary.
Import event_filter.

(** The call [r] is the one for the node ID [t]: the constructor of the
    type of [t], with the namespace of [t] and with the number [IntID()]
    or the text [StringID()] of [t] as identifier; for a four-byte node ID
    the namespace is cut to 8 bits and the number to 16 bits. *)
Definition asNodeID (t : ua.NodeIDValue) (r : ua.NewNodeID) : Prop :=
  match r with
  | ua.NewGUIDNodeID ns id =>
      ua.nid_Type t = ua.NodeIDTypeGUID ∧ ns = ua.nid_Namespace t
      ∧ id = ua.nid_StringID t
  | ua.NewStringNodeID ns id =>
      ua.nid_Type t = ua.NodeIDTypeString ∧ ns = ua.nid_Namespace t
      ∧ id = ua.nid_StringID t
  | ua.NewByteStringNodeID ns id =>
      ua.nid_Type t = ua.NodeIDTypeByteString ∧ ns = ua.nid_Namespace t
      ∧ id = ua.nid_StringID t
  | ua.NewTwoByteNodeID id =>
      ua.nid_Type t = ua.NodeIDTypeTwoByte ∧ id = ua.nid_IntID t ∧ (id <= 255)%N
  | ua.NewFourByteNodeID ns id =>
      ua.nid_Type t = ua.NodeIDTypeFourByte
      ∧ ns = (ua.nid_Namespace t mod 256)%N ∧ id = (ua.nid_IntID t mod 65536)%N
  | ua.NewNumericNodeID ns id =>
      ua.nid_Type t = ua.NodeIDTypeNumeric ∧ ns = ua.nid_Namespace t
      ∧ id = ua.nid_IntID t
  end.

(** The event type of a mapping is a two-byte node ID with an identifier
    above 255. *)
Definition twoByteOutOfRange (node : EventNodeMetricMapping) : Prop :=
  ua.nid_Type (EventType node) = ua.NodeIDTypeTwoByte
  ∧ (255 < ua.nid_IntID (EventType node))%N.

(** The event type of a mapping has none of the six types of a node ID. *)
Definition unknownEventType (node : EventNodeMetricMapping) : Prop :=
  ua.nid_Type (EventType node) = ua.NodeIDTypeOther.

(** The operand that selects the value of the attribute [name] of the type
    [t]. *)
Definition valueOf (t : ua.NewNodeID) (name : string) : ua.SimpleAttributeOperand :=
  {| ua.TypeDefinitionID := t;
     ua.BrowsePath := [ {| ua.NamespaceIndex := 0; ua.qn_Name := name |} ];
     ua.sao_AttributeID := ua.AttributeIDValue |}.

End event_filter_vocabulary.

Section loop_vocabulary.
Import input.
Import opcua_listener.

(** A notification with the data changes [items]. *)
Definition dataChange (items : list ua.MonitoredItemNotification)
    : PublishNotificationData :=
  {| pn_Error := None; pn_Value := ua.DataChangeNotification items |}.

End loop_vocabulary.

(** * Sample configurations and clients

    Concrete inputs on which the statements below are evaluated. *)

Section samples.
Import input.

(** Sample texts for what the sources take from outside; the status texts
    are those of the protocol library for the codes 0 and 0x80000000. *)
Definition sample_External : External :=
  {| StatusCode_Error :=
       fun c => if decide (c = 0) then "The operation succeeded. StatusGood (0x0)"
                else "The operation failed. StatusBad (0x80000000)";
     TypeID_String := fun t => if decide (t = 11) then "TypeIDDouble" else "TypeIDNull";
     time_Format := fun t layout => layout;
     strings_TrimSpace := fun s => s;
     time_Now := 0 |}.

Definition sample_params : MonitoringParameters :=
  {| SamplingInterval := 0; QueueSize := None; DiscardOldest := None;
     mp_DataChangeFilter := None |}.

Definition sample_node (name ns ty id : string) (tags : gmap string string)
    : NodeSettings :=
  {| FieldName := name; Namespace := ns; IdentifierType := ty; Identifier := id;
     TagsSlice := []; DefaultTags := tags; MonitoringParams := sample_params |}.

Definition sample_config (nodes : list NodeSettings) (optionalFields : list string)
    : InputClientConfig :=
  {| ClientConfig := {| Endpoint := "opc.tcp://localhost:4840";
                        OptionalFields := optionalFields |};
     MetricName := "opcua"; Timestamp := ""; TimestampFormat := RFC3339Nano;
     RootNodes := nodes; Groups := []; cfg_EventStreamingInput := None |}.

(** Only the status 0 is good. *)
Definition sample_ok (c : ua.StatusCode) : bool := bool_decide (c = 0).

Definition bad_status : ua.StatusCode := 2147483648.

(** A client before [InitNodeMetricMapping]. *)
Definition sample_new_client (nodes : list NodeSettings) : OpcUAInputClient :=
  {| StatusCodeOK := sample_ok; Config := sample_config nodes [];
     Log := []; NodeMetricMappings := []; NodeIDs := []; LastReceivedData := [];
     EventStreamingInput := None; EventClientHandle := ∅ |}.

Definition temp_node : NodeSettings := sample_node "temp" "3" "s" "Temperature" ∅.
Definition pressure_node : NodeSettings := sample_node "pressure" "3" "s" "Pressure" ∅.

Definition mapping_of (node : NodeSettings) : NodeMetricMapping :=
  {| Tag := node; idStr := NodeID node; metricName := "opcua"; MetricTags := ∅ |}.

Definition slot (name : string) (v : ua.value) (t : Go.time_Time) : NodeValue :=
  {| TagName := name; Value := v; Quality := 0; ServerTime := t; SourceTime := t;
     DataType := 11 |}.

(** A client with the mappings of [temp_node] and [pressure_node] and the
    cache [cache]. *)
Definition sample_client (optionalFields : list string) (cache : list NodeValue)
    : OpcUAInputClient :=
  {| StatusCodeOK := sample_ok;
     Config := sample_config [temp_node; pressure_node] optionalFields;
     Log := [];
     NodeMetricMappings := [mapping_of temp_node; mapping_of pressure_node];
     NodeIDs := [ {| ua.NodeID_String := NodeID temp_node |};
                  {| ua.NodeID_String := NodeID pressure_node |} ];
     LastReceivedData := cache;
     EventStreamingInput := None;
     EventClientHandle :=
       {[ 0%nat := {| ev_NodeID := {| ua.NodeID_String := "ns=1;i=2253" |};
                      ev_Fields := ["Severity"; "Message"] |} ]} |}.

Definition sample_cache : list NodeValue :=
  [slot "temp" (ua.VFloat 1) 5; slot "pressure" ua.VNil 0].

Definition sample_request (id : string) (handle : nat) : ua.MonitoredItemCreateRequest :=
  {| ua.ItemToMonitor := {| ua.NodeID_String := id |};
     ua.RequestedParameters :=
       {| ua.rp_ClientHandle := handle; ua.rp_SamplingInterval := 0;
          ua.rp_Filter := None; ua.rp_QueueSize := 10; ua.rp_DiscardOldest := true |} |}.

Definition sample_filter (trigger : string) : MonitoringParameters :=
  {| SamplingInterval := 0; QueueSize := None; DiscardOldest := None;
     mp_DataChangeFilter :=
       Some {| dcf_Trigger := trigger; dcf_DeadbandType := "Absolute";
               dcf_DeadbandValue := Some 1%float |} |}.

(** A data change of the temperature: value [v] with status [status] at
    time [t]. *)
Definition temp_change (v : float) (status : ua.StatusCode) (t : Go.time_Time)
    : ua.MonitoredItemNotification :=
  {| ua.min_ClientHandle := 0;
     ua.min_Value := {| ua.dv_Value := Some {| ua.v_Type := 11; ua.v_Value := ua.VFloat v |};
                        ua.dv_Status := status;
                        ua.SourceTimestamp := t; ua.ServerTimestamp := t |} |}.

End samples.

Section listener_samples.
Import input.
Import opcua_listener.

(** A subscribe client for the two sample points and one event item, with
    the given answers of the server and connect-fail-behavior. *)
Definition sample_subscriber (srv : Server) (policy : string) : subscribeClient :=
  {| OpcUAInputClient := sample_client [] sample_cache;
     Config := {| InputClientConfig := sample_config [temp_node; pressure_node] [];
                  SubscriptionInterval := 100000000;
                  ConnectFailBehavior := policy |};
     sub := None;
     monitoredItemsReqs := [sample_request (NodeID temp_node) 0;
                            sample_request (NodeID pressure_node) 1];
     eventItemsReqs := [sample_request "ns=1;i=2253" 0];
     metrics := [];
     eventMetrics := None;
     cancelled := false;
     server := srv;
     calls := [];
     processors := 0 |}.

(** The entry the library writes when it starts to connect. *)
Definition connecting_entry : telegraf.entry :=
  {| telegraf.e_level := telegraf.LDebug;
     telegraf.e_format := "Connecting OPC UA Client to server";
     telegraf.e_args := [] |}.

(** A server that refuses the connection. *)
Definition refusing_server : Server :=
  {| srv_Connect := Some (ErrLibrary "connection refused");
     srv_ConnectLog := [connecting_entry];
     srv_Subscribe := Ok 1;
     srv_Monitor := fun _ => Ok [] |}.

(** A server that answers the registration with [results]. *)
Definition answering_server (results : list ua.StatusCode) : Server :=
  {| srv_Connect := None;
     srv_ConnectLog := [connecting_entry];
     srv_Subscribe := Ok 1;
     srv_Monitor := fun _ => Ok results |}.

(** An event with a severity and a message that is plain text. *)
Definition sample_event : ua.EventFieldList :=
  {| ua.efl_ClientHandle := 0;
     ua.EventFields := [ {| ua.v_Type := 5; ua.v_Value := ua.VInt 700 |};
                         {| ua.v_Type := 12; ua.v_Value := ua.VString "overheated" |} ] |}.

End listener_samples.

Section more_samples.
Import input.
Import opcua_listener.

(** A cache slot of the temperature with a status that is not good. *)
Definition bad_slot : NodeValue :=
  {| TagName := "temp"; Value := ua.VFloat 1; Quality := bad_status;
     ServerTime := 5; SourceTime := 7; DataType := 11 |}.

(** A parser that accepts every text. *)
Definition sample_parser (text : string) : result input.error ua.NodeID :=
  Ok {| ua.NodeID_String := text |}.

(** A server that refuses the registration. *)
Definition unwilling_server : Server :=
  {| srv_Connect := None;
     srv_ConnectLog := [connecting_entry];
     srv_Subscribe := Ok 1;
     srv_Monitor := fun _ => Err (ErrLibrary "too many monitored items") |}.

(** A notification that carries an error. *)
Definition error_notification : PublishNotificationData :=
  {| pn_Error := Some (ErrLibrary "timeout"); pn_Value := ua.NilNotification |}.

(** An event with one field more than the two names of its handle. *)
Definition long_event : ua.EventFieldList :=
  {| ua.efl_ClientHandle := 0;
     ua.EventFields := [ {| ua.v_Type := 5; ua.v_Value := ua.VInt 700 |};
                         {| ua.v_Type := 12; ua.v_Value := ua.VString "overheated" |};
                         {| ua.v_Type := 12; ua.v_Value := ua.VString "boiler" |} ] |}.

(** The client of the two sample points whose event item has the field
    names [fields]. *)
Definition event_client (fields : list string) : input.OpcUAInputClient :=
  {| StatusCodeOK := sample_ok;
     input.Config := sample_config [temp_node; pressure_node] [];
     Log := [];
     NodeMetricMappings := [mapping_of temp_node; mapping_of pressure_node];
     NodeIDs := [ {| ua.NodeID_String := NodeID temp_node |};
                  {| ua.NodeID_String := NodeID pressure_node |} ];
     LastReceivedData := sample_cache;
     EventStreamingInput := None;
     EventClientHandle :=
       {[ 0%nat := {| ev_NodeID := {| ua.NodeID_String := "ns=1;i=2253" |};
                      ev_Fields := fields |} ]} |}.

(** A subscribe client that asks for the time and the severity of an
    event, with its event channel made. *)
Definition timed_subscriber : subscribeClient :=
  set_eventMetrics (Some [])
    (set_OpcUAInputClient (event_client ["Time"; "Severity"])
       (sample_subscriber (answering_server []) "error")).

(** An event with its time and its severity. *)
Definition timed_event : ua.EventFieldList :=
  {| ua.efl_ClientHandle := 0;
     ua.EventFields := [ {| ua.v_Type := 13; ua.v_Value := ua.VTime 1700000000 |};
                         {| ua.v_Type := 5; ua.v_Value := ua.VInt 700 |} ] |}.

(** A client with one point that has a tag named id. *)
Definition tagged_client : input.OpcUAInputClient :=
  {| StatusCodeOK := sample_ok;
     input.Config := sample_config [sample_node "temp" "3" "s" "Temperature"
                                      {[ "id" := "boiler" ]}] [];
     Log := [];
     NodeMetricMappings :=
       [ {| Tag := sample_node "temp" "3" "s" "Temperature" {[ "id" := "boiler" ]};
            idStr := "ns=3;s=Temperature"; metricName := "opcua";
            MetricTags := {[ "id" := "boiler" ]} |} ];
     NodeIDs := [ {| ua.NodeID_String := "ns=3;s=Temperature" |} ];
     LastReceivedData := [slot "temp" (ua.VFloat 79) 5];
     EventStreamingInput := None;
     EventClientHandle := ∅ |}.

(** A group of three points that take their namespace and identifier type
    from the group; the second has no identifier. *)
Definition sample_group : NodeGroupSettings :=
  {| g_MetricName := "boiler"; g_Namespace := "3"; g_IdentifierType := "s";
     g_Nodes := [sample_node "level" "" "" "Level" ∅;
                 sample_node "flow" "" "" "" ∅;
                 sample_node "heat" "" "" "Heat" ∅];
     g_TagsSlice := []; g_DefaultTags := {[ "site" := "north" ]};
     g_SamplingInterval := 0 |}.

(** A client before [InitNodeMetricMapping], with the temperature as root
    point and the sample group. *)
Definition grouped_client : input.OpcUAInputClient :=
  {| StatusCodeOK := sample_ok;
     input.Config :=
       {| ClientConfig := {| Endpoint := "opc.tcp://localhost:4840";
                             OptionalFields := [] |};
          MetricName := "opcua"; Timestamp := ""; TimestampFormat := RFC3339Nano;
          RootNodes := [temp_node]; Groups := [sample_group];
          cfg_EventStreamingInput := None |};
     Log := []; NodeMetricMappings := []; NodeIDs := []; LastReceivedData := [];
     EventStreamingInput := None; EventClientHandle := ∅ |}.

(** The default request for a node ID and a handle. *)
Definition sample_new_request (nodeID : ua.NodeID) (_ : ua.AttributeID) (handle : nat)
    : ua.MonitoredItemCreateRequest :=
  {| ua.ItemToMonitor := nodeID;
     ua.RequestedParameters := ua.RequestedParameters (sample_request "" handle) |}.

End more_samples.

(** * Proofs *)

Ltac run := unfold bind, ret, get, modify, panic, block in *; simpl in *.

Ltac run_sc :=
  unfold opcua_listener.log, opcua_listener.embedded, input.log,
    opcua_listener.called, bind, ret, get, modify, panic, block,
    opcua_listener.set_calls, opcua_listener.set_sub,
    opcua_listener.set_OpcUAInputClient, input.set_Log,
    opcua_listener.set_processors, opcua_listener.set_eventMetrics,
    opcua_listener.set_metrics in *; simpl in *.

(** ** The monad *)

Lemma bind_eq {S A B} (m : M S A) (k : A -> M S B) (s s' : S) (a : A) :
  m s = (Done a, s') -> bind m k s = k a s'.
Proof. intros Hm. unfold bind. by rewrite Hm. Qed.

Lemma bind_get {S B} (k : S -> M S B) (s : S) : bind get k s = k s s.
Proof. reflexivity. Qed.

Lemma bind_ret {S A B} (a : A) (k : A -> M S B) (s : S) : bind (ret a) k s = k a s.
Proof. reflexivity. Qed.

Lemma bind_assoc {S A B C} (m : M S A) (k1 : A -> M S B) (k2 : B -> M S C) (s : S) :
  bind (bind m k1) k2 s = bind m (fun a => bind (k1 a) k2) s.
Proof. unfold bind. by destruct (m s) as [[a|f] s']. Qed.

(** One step of a run on a state whose cache slot is singled out; [slot_at]
    is the equation of a write to that slot. *)
Ltac slot_step slot_at :=
  first [ rewrite bind_assoc
        | rewrite bind_get; cbv beta
        | rewrite bind_ret
        | erewrite bind_eq by (apply slot_at; eassumption)
        | rewrite slot_at by eassumption ].

(** A loop keeps an invariant [P] of the elements done, the local variable
    and the state; it ends with [Q] at the first error. *)
Lemma range_until_inv {S X A E} (P : list X -> A -> S -> Prop) (Q : E -> S -> Prop)
    (body : A -> X -> M S (result E A)) :
  (∀ pre a x s, P pre a s ->
     match body a x s with
     | (Done (Ok a'), s') => P (pre ++ [x])%list a' s'
     | (Done (Err e), s') => Q e s'
     | (Fault _, _) => False
     end) ->
  ∀ xs pre a s, P pre a s ->
    match range_until xs a body s with
    | (Done (Ok a'), s') => P (pre ++ xs)%list a' s'
    | (Done (Err e), s') => Q e s'
    | (Fault _, _) => False
    end.
Proof.
  intros Hstep xs. induction xs as [|x xs IH]; intros pre a s HP; simpl.
  - by rewrite app_nil_r.
  - unfold bind. specialize (Hstep pre a x s HP).
    destruct (body a x s) as [[[a'|e]|f] s']; try done.
    specialize (IH _ _ _ Hstep). by rewrite <- app_assoc in IH.
Qed.

(** The first error ends a loop: the elements after it are not looked at. *)
Lemma range_until_abort {S X A E} (body : A -> X -> M S (result E A))
    (pre post : list X) (x : X) (a a1 : A) (s s1 s2 : S) (e : E) :
  range_until pre a body s = (Done (Ok a1), s1) ->
  body a1 x s1 = (Done (Err e), s2) ->
  range_until (pre ++ x :: post) a body s = (Done (Err e), s2).
Proof.
  revert a s. induction pre as [|y pre IH]; intros a s Hpre Hx; simpl in *.
  - unfold ret in Hpre. injection Hpre as -> ->. unfold bind. by rewrite Hx.
  - unfold bind in *. destruct (body a y s) as [[[a'|e']|f] s']; try done.
    by apply IH.
Qed.

(** ** Strings *)

Lemma app_cons (c : ascii) (a b : string) : String c a +:+ b = String c (a +:+ b).
Proof. reflexivity. Qed.

Lemma app_nil_l_s (b : string) : "" +:+ b = b.
Proof. reflexivity. Qed.

Lemma app_assoc_s (a b c : string) : (a +:+ b) +:+ c = a +:+ (b +:+ c).
Proof. induction a as [|x a IH]; [done|]. by rewrite !app_cons, IH. Qed.

Lemma app_empty_r (a : string) : a +:+ "" = a.
Proof. induction a as [|x a IH]; [done|]. by rewrite app_cons, IH. Qed.

Lemma length_zero_empty (s : string) : String.length s = 0%nat <-> s = "".
Proof. by destruct s. Qed.

Lemma has_byte_app (c : ascii) (s t : string) :
  has_byte c (s +:+ t) = has_byte c s || has_byte c t.
Proof.
  induction s as [|x s IH]; [done|]. rewrite app_cons. simpl.
  by rewrite IH, orb_assoc.
Qed.

(** Text without a percent sign is copied by [Sprintf]. *)
Lemma doPrintf_literal (s rest : string) (args : list Go.operand) :
  has_byte "%" s = false ->
  Go.doPrintf Go.Lit (s +:+ rest) args = String.append s <$> Go.doPrintf Go.Lit rest args.
Proof.
  induction s as [|x s IH]; intros Hs.
  - rewrite app_nil_l_s. destruct (Go.doPrintf Go.Lit rest args); reflexivity.
  - simpl in Hs. apply orb_false_iff in Hs as [Hx Hs]. apply bool_decide_eq_false in Hx.
    rewrite app_cons. simpl. rewrite decide_False by done. rewrite (IH Hs).
    destruct (Go.doPrintf Go.Lit rest args); reflexivity.
Qed.

Lemma Sprintf_node (text id ty : string) :
  has_byte "%" text = false ->
  Go.Sprintf (text +:+ ", node '%s'") [ {| Go.o_type := ty; Go.o_text := id |} ]
  = Some (text +:+ ", node '" +:+ id +:+ "'").
Proof.
  intros Ht. unfold Go.Sprintf. rewrite (doPrintf_literal _ _ _ Ht). reflexivity.
Qed.

(** Two splits of one text at a comma, after comma-free values, agree. *)
Lemma split_unique (v1 v2 r1 r2 : string) :
  has_byte "," v1 = false -> has_byte "," v2 = false ->
  starts_sep r1 -> starts_sep r2 ->
  v1 +:+ r1 = v2 +:+ r2 -> v1 = v2 ∧ r1 = r2.
Proof.
  revert v2. induction v1 as [|c v1 IH]; intros [|d v2] H1 H2 S1 S2 E.
  - done.
  - rewrite app_nil_l_s, app_cons in E. simpl in H2.
    apply orb_false_iff in H2 as [Hd _]. apply bool_decide_eq_false in Hd.
    destruct S1 as [->|[r' ->]]; [done|]. by simplify_eq.
  - rewrite app_nil_l_s, app_cons in E. simpl in H1.
    apply orb_false_iff in H1 as [Hc _]. apply bool_decide_eq_false in Hc.
    destruct S2 as [->|[r' ->]]; [done|]. by simplify_eq.
  - rewrite !app_cons in E. simpl in H1, H2.
    apply orb_false_iff in H1 as [_ H1]. apply orb_false_iff in H2 as [_ H2].
    injection E as Ec E. subst d. destruct (IH v2 H1 H2 S1 S2 E) as [Ev Er].
    subst. by split.
Qed.

(** ** The mapping build *)

Section mapping_build.
Import input.

Lemma copy_into_union (src dst : gmap string string) :
  copy_into src dst = src ∪ dst.
Proof.
  unfold copy_into.
  apply (map_fold_weak_ind (fun r m => r = m ∪ dst)).
  - by rewrite (left_id_L ∅ (∪)).
  - intros k v m r Hk ->. by rewrite insert_union_l.
Qed.

Lemma sort_Strings_Permutation (ks ks' : list string) :
  ks ≡ₚ ks' -> Go.sort_Strings ks = Go.sort_Strings ks'.
Proof.
  intros Hp. unfold Go.sort_Strings.
  apply (Sorted_unique String.le).
  - apply Sorted_merge_sort; apply _.
  - apply Sorted_merge_sort; apply _.
  - by rewrite !merge_sort_Permutation.
Qed.

(** The key does not depend on the order in which the map is enumerated. *)
Lemma newMP_from_order (n : NodeMetricMapping) (keys : list string) :
  keys ≡ₚ (map_to_list (MetricTags n)).*1 -> newMP_from keys n = newMP n.
Proof.
  intros Hp. unfold newMP, newMP_from.
  by rewrite (sort_Strings_Permutation _ _ Hp).
Qed.

Lemma writeTags_tagText i keys tags sb :
  writeTags i keys tags sb = sb +:+ tagText i keys tags.
Proof.
  revert i sb. induction keys as [|k ks IH]; intros i sb; simpl.
  - by rewrite app_empty_r.
  - rewrite IH. destruct (decide (i ≠ 0%nat)); by rewrite ?app_assoc_s, ?app_nil_l_s.
Qed.

Lemma tagText_starts_sep i keys tags : starts_sep (tagText (S i) keys tags).
Proof.
  destruct keys as [|k ks]; [by left|right]. simpl.
  destruct (decide (S i ≠ 0%nat)) as [_|Hn]; [|by destruct Hn].
  eexists. reflexivity.
Qed.

Lemma tagText_inj keys i (t1 t2 : gmap string string) :
  (∀ k, k ∈ keys -> has_byte "," (default "" (t1 !! k)) = false) ->
  (∀ k, k ∈ keys -> has_byte "," (default "" (t2 !! k)) = false) ->
  tagText i keys t1 = tagText i keys t2 ->
  ∀ k, k ∈ keys -> default "" (t1 !! k) = default "" (t2 !! k).
Proof.
  revert i. induction keys as [|key ks IH]; intros i H1 H2 E k Hk.
  - by apply elem_of_nil in Hk.
  - simpl in E.
    apply (inj (String.append _)) in E.
    apply (inj (String.append _)) in E.
    apply (inj (String.append _)) in E.
    apply split_unique in E as [Ev Er];
      [| apply H1; left | apply H2; left | apply tagText_starts_sep ..].
    apply elem_of_cons in Hk as [->|Hk]; [done|].
    eapply IH; eauto; intros; [apply H1|apply H2]; by right.
Qed.

Lemma keys_Permutation (t1 t2 : gmap string string) :
  dom t1 = dom t2 -> (map_to_list t1).*1 ≡ₚ (map_to_list t2).*1.
Proof.
  intros Hd. apply NoDup_Permutation; [apply NoDup_fst_map_to_list ..|].
  intros k. rewrite !list_elem_of_fmap.
  assert (∀ t : gmap string string,
    (∃ y : string * string, k = y.1 ∧ y ∈ map_to_list t) ↔ k ∈ dom t) as Hk.
  { intros t. rewrite elem_of_dom. split.
    - intros [[k' v] [-> Hin]]. apply elem_of_map_to_list in Hin. by eexists.
    - intros [v Hv]. exists (k, v). split; [done|]. by apply elem_of_map_to_list. }
  by rewrite !Hk, Hd.
Qed.

Lemma elem_of_sorted_keys (t : gmap string string) (k : string) :
  k ∈ Go.sort_Strings (map_to_list t).*1 ↔ is_Some (t !! k).
Proof.
  unfold Go.sort_Strings. rewrite merge_sort_Permutation, list_elem_of_fmap. split.
  - intros [[k' v] [-> Hin]]. apply elem_of_map_to_list in Hin. by eexists.
  - intros [v Hv]. exists (k, v). split; [done|]. by apply elem_of_map_to_list.
Qed.

(** With the same tag names and comma-free values, the tag string fixes
    the tag values. *)
Lemma newMP_tags_inj (a b : NodeMetricMapping) :
  dom (MetricTags a) = dom (MetricTags b) ->
  comma_free (MetricTags a) -> comma_free (MetricTags b) ->
  mp_tags (newMP a) = mp_tags (newMP b) -> MetricTags a = MetricTags b.
Proof.
  intros Hd Ca Cb E. unfold newMP, newMP_from in E. simpl in E.
  rewrite (sort_Strings_Permutation _ _ (keys_Permutation _ _ Hd)) in E.
  rewrite !writeTags_tagText, !app_nil_l_s in E.
  assert (∀ (t : gmap string string) (keys : list string), comma_free t ->
    ∀ k, k ∈ keys -> has_byte "," (default "" (t !! k)) = false) as Hc.
  { intros t keys Ct k _. destruct (t !! k) eqn:Hk; [by eapply Ct|done]. }
  pose proof (tagText_inj _ _ _ _ (Hc _ _ Ca) (Hc _ _ Cb) E) as Hv.
  apply map_eq. intros k.
  destruct (MetricTags b !! k) as [vb|] eqn:Hb.
  - assert (is_Some (MetricTags a !! k)) as [va Ha].
    { apply elem_of_dom. rewrite Hd. apply elem_of_dom. by eexists. }
    specialize (Hv k). rewrite Ha, Hb in Hv. simpl in Hv. rewrite Ha.
    f_equal. apply Hv. apply elem_of_sorted_keys. by eexists.
  - apply not_elem_of_dom. rewrite Hd. by apply not_elem_of_dom.
Qed.

(** *** [validateNodeToAdd] *)

Lemma validate_Ok existing nmm existing' :
  validateNodeToAdd existing nmm = Ok existing' ->
  existing' = {[ newMP nmm ]} ∪ existing ∧ (newMP nmm ∉ existing)
  ∧ structurallyValid (Tag nmm).
Proof.
  unfold validateNodeToAdd, structurallyValid, identifierTypeOK.
  repeat case_decide; try discriminate; rewrite ?length_zero_empty in *.
  - destruct (Go.Atoi _) eqn:Ha; [|discriminate]. simpl. intros [= <-].
    repeat split; eauto.
  - simpl. intros [= <-]. repeat split; eauto.
Qed.

Lemma validate_duplicate existing nmm :
  FieldName (Tag nmm) ≠ "" -> Namespace (Tag nmm) ≠ "" ->
  Identifier (Tag nmm) ≠ "" -> newMP nmm ∈ existing ->
  validateNodeToAdd existing nmm =
    Err (ErrDuplicated (FieldName (Tag nmm)) (metricName nmm) (mp_tags (newMP nmm))).
Proof.
  intros. unfold validateNodeToAdd.
  repeat case_decide; rewrite ?length_zero_empty in *; done.
Qed.

Lemma validate_fresh existing nmm :
  structurallyValid (Tag nmm) -> newMP nmm ∉ existing ->
  validateNodeToAdd existing nmm = Ok ({[ newMP nmm ]} ∪ existing).
Proof.
  intros (Hf & Hn & Hi & Hid) Hfresh. unfold validateNodeToAdd.
  rewrite !decide_False by (by rewrite ?length_zero_empty).
  destruct Hid as [[Ht [z Hz]]|Hin].
  - rewrite decide_True by done. by rewrite Hz.
  - rewrite decide_False by (intros Ht; rewrite Ht in Hin; set_solver).
    by rewrite decide_True.
Qed.

Lemma validate_Err_duplicated existing nmm f m t :
  validateNodeToAdd existing nmm = Err (ErrDuplicated f m t) ->
  newMP nmm ∈ existing
  ∧ newMP nmm = {| mp_metricName := m; mp_fieldName := f; mp_tags := t |}.
Proof.
  unfold validateNodeToAdd.
  repeat case_decide; rewrite ?length_zero_empty in *; try discriminate.
  - intros [= <- <- <-]. split; [done|reflexivity].
  - destruct (Go.Atoi _); discriminate.
Qed.

Lemma tagsSliceToMap_from_not_dup i tags m f mn t :
  tagsSliceToMap_from i tags m ≠ Err (ErrDuplicated f mn t).
Proof.
  revert i m. induction tags as [|tag rest IH]; intros i m; simpl; [done|].
  destruct tag as [|a [|b [|c l]]]; try done.
  repeat case_decide; solve [done | apply IH].
Qed.

Lemma NewNodeMetricMapping_not_dup mn node gt f m t :
  NewNodeMetricMapping mn node gt ≠ Err (ErrDuplicated f m t).
Proof.
  unfold NewNodeMetricMapping. destruct (nodeTags node) as [|e] eqn:Ht; [done|].
  simpl. intros [= ->]. unfold nodeTags in Ht. repeat case_decide; try done.
  by apply tagsSliceToMap_from_not_dup in Ht.
Qed.

(** *** The loops of [InitNodeMetricMapping] *)

Lemma addNode_step mn gt existing node o :
  Inv existing o ->
  match addNode mn gt existing node o with
  | (Done (Ok existing'), o') =>
      Inv existing' o'
      ∧ Tag <$> NodeMetricMappings o' = ((Tag <$> NodeMetricMappings o) ++ [node])%list
      ∧ Config o' = Config o
  | (Done (Err e), o') => o' = o ∧ ErrInv e o
  | (Fault _, _) => False
  end.
Proof.
  intros (He & Hnd & Hval). unfold addNode.
  destruct (NewNodeMetricMapping mn node gt) as [nmm|e] eqn:Hn; run.
  2:{ split; [done|]. intros f m t ->. by apply NewNodeMetricMapping_not_dup in Hn. }
  destruct (validateNodeToAdd existing nmm) as [existing'|e] eqn:Hv; run.
  - apply validate_Ok in Hv as (-> & Hfresh & Hvalid).
    assert (Tag nmm = node) as Htag.
    { unfold NewNodeMetricMapping in Hn. destruct (nodeTags node); [|done].
      by injection Hn as <-. }
    unfold Inv, keysOf, set_NodeMetricMappings; simpl.
    split; [split; [|split]|split; [|done]].
    + rewrite fmap_app, list_to_set_app_L. simpl. subst existing.
      unfold keysOf. set_solver.
    + rewrite fmap_app. apply NoDup_app. split; [done|]. split.
      * intros x Hx ->%list_elem_of_singleton. apply Hfresh.
        subst existing. unfold keysOf. by apply elem_of_list_to_set.
      * apply NoDup_singleton.
    + rewrite fmap_app. apply Forall_app. split; [done|]. by apply Forall_singleton.
    + by rewrite fmap_app, <- Htag.
  - split; [done|]. intros f m t ->.
    apply validate_Err_duplicated in Hv as (Hin & Hk).
    subst existing. unfold keysOf in Hin. apply elem_of_list_to_set in Hin.
    apply list_elem_of_fmap in Hin as (a & Ha & Hin). exists a. split; [done|]. congruence.
Qed.

Lemma root_step cfg mn pre existing node o :
  Built cfg pre existing o ->
  match addNode mn ∅ existing node o with
  | (Done (Ok existing'), o') => Built cfg (pre ++ [node])%list existing' o'
  | (Done (Err e), o') => ErrInv e o'
  | (Fault _, _) => False
  end.
Proof.
  intros (HI & HT & HC).
  pose proof (addNode_step mn ∅ existing node o HI) as Hs.
  destruct (addNode _ _ _ _ _) as [[[a'|e]|f] s']; try done.
  - destruct Hs as (HI' & HT' & HC'). split; [done|]. split; [|congruence].
    by rewrite HT', HT.
  - by destruct Hs as [-> ?].
Qed.

Lemma addGroup_step cfg mn pts existing group o :
  Built cfg pts existing o ->
  match addGroup mn existing group o with
  | (Done (Ok existing'), o') => Built cfg (pts ++ groupPoints group)%list existing' o'
  | (Done (Err e), o') => ErrInv e o'
  | (Fault _, _) => False
  end.
Proof.
  intros HB. unfold addGroup.
  set (name := if decide (g_MetricName group = "") then mn else g_MetricName group).
  set (warn := if decide _ then _ else _).
  assert (∃ o1, warn o = (Done tt, o1) ∧ Built cfg pts existing o1) as (o1 & Hw & HB1).
  { subst warn. case_decide; [|by eexists]. eexists. split; [reflexivity|]. done. }
  unfold bind at 1. rewrite Hw.
  destruct (groupTags group) as [gt|e] eqn:Hg.
  2:{ unfold ret. intros f m t ->. unfold groupTags in Hg.
      repeat case_decide; try done. by apply tagsSliceToMap_from_not_dup in Hg. }
  pose proof (range_until_inv
    (fun pre ex s => Built cfg (pts ++ (withGroupDefaults group <$> pre))%list ex s)
    ErrInv
    (fun existing node => addNode name gt existing (withGroupDefaults group node))) as Hr.
  unfold groupPoints.
  specialize (fun H => Hr H (g_Nodes group) [] existing o1) as Hr. simpl in Hr. apply Hr.
  - intros pre a x s (HI & HT & HC).
    pose proof (addNode_step name gt a (withGroupDefaults group x) s HI) as Hs.
    destruct (addNode _ _ _ _ _) as [[[a'|e]|f] s']; try done.
    + destruct Hs as (HI' & HT' & HC'). split; [done|]. split; [|congruence].
      by rewrite HT', HT, fmap_app, app_assoc.
    + by destruct Hs as [-> ?].
  - by rewrite app_nil_r.
Qed.

Lemma group_step cfg mn roots pre existing group o :
  Built cfg (roots ++ concat (groupPoints <$> pre))%list existing o ->
  match addGroup mn existing group o with
  | (Done (Ok existing'), o') =>
      Built cfg (roots ++ concat (groupPoints <$> (pre ++ [group])))%list existing' o'
  | (Done (Err e), o') => ErrInv e o'
  | (Fault _, _) => False
  end.
Proof.
  intros HB. pose proof (addGroup_step _ mn _ existing group o HB) as Hs.
  destruct (addGroup _ _ _ _) as [[[a'|e]|f] s']; try done.
  by rewrite fmap_app, concat_app, app_assoc; simpl; rewrite app_nil_r.
Qed.

(** The build either accepts every point of the configuration, in order and
    with pairwise different keys, or ends with an error; a duplicate error
    names the key of a mapping accepted before. *)
Lemma InitNodeMetricMapping_spec o :
  NodeMetricMappings o = [] ->
  match InitNodeMetricMapping o with
  | (Done None, o') =>
      Tag <$> NodeMetricMappings o' = configPoints (Config o)
      ∧ NoDup (newMP <$> NodeMetricMappings o')
      ∧ Forall structurallyValid (Tag <$> NodeMetricMappings o')
      ∧ Config o' = Config o
  | (Done (Some e), o') => ErrInv e o'
  | (Fault _, _) => False
  end.
Proof.
  intros H0. unfold InitNodeMetricMapping. rewrite bind_get.
  pose proof (range_until_inv (Built (Config o)) ErrInv
    (fun existing node => addNode (MetricName (Config o)) ∅ existing node)
    (fun pre a x s => root_step (Config o) _ pre a x s)
    (RootNodes (Config o)) [] ∅ o) as Hroots.
  unfold bind at 1.
  destruct (range_until (RootNodes (Config o)) _ _ o) as [[[ex|e]|f] o1];
    [| apply Hroots | apply Hroots];
    try (unfold Built, Inv, keysOf; rewrite H0; simpl; repeat split; try done;
         apply NoDup_nil_2).
  assert (Built (Config o) (RootNodes (Config o)) ex o1) as HB.
  { apply Hroots. unfold Built, Inv, keysOf. rewrite H0. simpl.
    repeat split; try done. apply NoDup_nil_2. }
  pose proof (range_until_inv
    (fun pre => Built (Config o) (RootNodes (Config o) ++ concat (groupPoints <$> pre))%list)
    ErrInv (addGroup (MetricName (Config o)))
    (fun pre a x s => group_step (Config o) _ _ pre a x s)
    (Groups (Config o)) [] ex o1) as Hgroups.
  simpl in Hgroups. rewrite app_nil_r in Hgroups. specialize (Hgroups HB).
  unfold bind at 1.
  destruct (range_until (Groups (Config o)) _ _ o1) as [[[ex2|e]|f] o2]; try done.
  destruct Hgroups as ((_ & Hnd & Hval) & HT & HC). by repeat split.
Qed.

(** A client is created with all the points of its configuration mapped, or
    not at all. *)
Lemma CreateInputClient_spec (cfg : InputClientConfig)
    (opcClient : result error (ua.StatusCode -> bool)) (log0 : list telegraf.entry) :
  match CreateInputClient cfg opcClient log0 with
  | (Done (Ok c), _) =>
      Tag <$> NodeMetricMappings c = configPoints (Config c)
      ∧ NoDup (newMP <$> NodeMetricMappings c)
      ∧ Forall structurallyValid (Tag <$> NodeMetricMappings c)
      ∧ length (LastReceivedData c) = length (NodeMetricMappings c)
  | (Done (Err _), _) => True
  | (Fault _, _) => False
  end.
Proof.
  unfold CreateInputClient.
  destruct (Validate cfg) as [[[e|]|f] cfg'] eqn:Hv; try done.
  2:{ unfold Validate in Hv. run. repeat case_match; simplify_eq. }
  destruct (if IsSet _ then _ else _) as [ev|e]; [|done].
  destruct opcClient as [ok|e]; [|done].
  match goal with
  | |- context [InitNodeMetricMapping ?c] =>
      pose proof (InitNodeMetricMapping_spec c eq_refl) as Hi;
      destruct (InitNodeMetricMapping c) as [[[e|]|f] c1]; try done
  end.
  destruct Hi as (HT & Hnd & Hval & HC). unfold initLastReceivedValues, modify. simpl.
  split; [by rewrite HT, HC|]. split; [done|]. split; [done|]. by rewrite length_fmap.
Qed.

End mapping_build.

(** ** The merge of the tags *)

Section mapping_claims.
Import input.

(** C3.  The merged tags of a mapping are the group tags overridden by the
    node tags: every key of the node tags has the node's value, every other
    key has what the group tags give it, and there is no other key. *)
Theorem C3_tag_merge (metricName : string) (node : NodeSettings)
    (G N : gmap string string) (HN : nodeTags node = Ok N) :
  ∃ m, NewNodeMetricMapping metricName node G = Ok m
       ∧ MetricTags m = N ∪ G
       ∧ (∀ k v, N !! k = Some v -> MetricTags m !! k = Some v)
       ∧ (∀ k, N !! k = None -> MetricTags m !! k = G !! k).
Proof.
  unfold NewNodeMetricMapping. rewrite HN. simpl. eexists. split; [reflexivity|].
  simpl. rewrite !copy_into_union, (right_id_L ∅ (∪)).
  split; [done|]. split.
  - intros k v Hk. by apply lookup_union_Some_l.
  - intros k Hk. by apply lookup_union_r.
Qed.

(** Group tags [{a:1}] with node tags [{a:2, b:3}] give [{a:2, b:3}]. *)
Lemma C3_tag_merge_witness :
  ∃ m, NewNodeMetricMapping "opcua"
         (sample_node "temp" "3" "s" "Temperature" (<["a" := "2"]> {["b" := "3"]}))
         {["a" := "1"]} = Ok m
       ∧ MetricTags m = <["a" := "2"]> {["b" := "3"]}.
Proof.
  assert (nodeTags
            (sample_node "temp" "3" "s" "Temperature" (<["a" := "2"]> {["b" := "3"]}))
          = Ok (<["a" := "2"]> {["b" := "3"]})) as HN by (vm_compute; reflexivity).
  destruct (C3_tag_merge "opcua" _ {["a" := "1"]} _ HN) as (m & Hm & Ht & _).
  exists m. split; [exact Hm|]. rewrite Ht. vm_compute. reflexivity.
Defined.

End mapping_claims.

(** ** The cache of last values and the measurement of a node *)

Section cache.
Import input.
Context `{External}.

(** A write to the cache slot [i] of a state whose slot [i] is singled out. *)
Lemma set_nth_at (f : NodeValue -> NodeValue) (i : nat) (l : list NodeValue)
    (v : NodeValue) (o : OpcUAInputClient) :
  (i < length l)%nat ->
  set_nth_LastReceivedData i f (set_LastReceivedData (<[i := v]> l) o) =
    (Done tt, set_LastReceivedData (<[i := f v]> l) o).
Proof.
  intros Hi. unfold set_nth_LastReceivedData, bind, get, index. simpl.
  rewrite list_lookup_insert_eq by done. unfold ret, modify. simpl.
  by rewrite list_insert_insert_eq.
Qed.

Lemma client_as_slot (o : OpcUAInputClient) (i : nat) (old : NodeValue) :
  LastReceivedData o !! i = Some old ->
  o = set_LastReceivedData (<[i := old]> (LastReceivedData o)) o.
Proof. intros Ho. rewrite list_insert_id by done. by destruct o. Qed.

(** [UpdateNodeValue] writes the slot [i] and nothing else of the cache:
    the quality always, the rest only for a good status. *)
Lemma UpdateNodeValue_spec (o : OpcUAInputClient) (i : nat) (d : ua.DataValue)
    (old : NodeValue) (nmm : NodeMetricMapping) :
  LastReceivedData o !! i = Some old ->
  NodeMetricMappings o !! i = Some nmm ->
  ∃ new o', UpdateNodeValue i d o = (Done tt, o')
    ∧ same_mappings o o'
    ∧ LastReceivedData o' = <[i := new]> (LastReceivedData o)
    ∧ slotUpdated (StatusCodeOK o (ua.dv_Status d)) (TimestampFormat (Config o))
        d old new
    ∧ (StatusCodeOK o (ua.dv_Status d) = true -> Log o' = Log o).
Proof.
  intros Hold Hm.
  assert (i < length (LastReceivedData o))%nat as Hi by by eapply lookup_lt_Some.
  replace (UpdateNodeValue i d o) with
    (UpdateNodeValue i d
       (set_LastReceivedData (<[i := old]> (LastReceivedData o)) o))
    by (by rewrite <- client_as_slot).
  unfold UpdateNodeValue, slotUpdated, cachedValue.
  destruct (StatusCodeOK o (ua.dv_Status d)) eqn:Hok.
  - destruct (ua.dv_Value d) as [variant|] eqn:Hv.
    + destruct (decide (ua.v_Type variant = ua.TypeIDDateTime)) as [Ht|Ht];
        destruct (ua.v_Value variant) eqn:Hvv;
        (eexists _, _; split;
         [ repeat slot_step set_nth_at;
           change (StatusCodeOK (set_LastReceivedData _ o)) with (StatusCodeOK o);
           rewrite Hok; cbv [negb];
           rewrite ?decide_True by done; rewrite ?decide_False by done;
           rewrite ?Hvv;
           repeat slot_step set_nth_at; reflexivity
         | split; [by unfold same_mappings|]; simpl; repeat split; done ]).
    + eexists _, _. split.
      * repeat slot_step set_nth_at.
        change (StatusCodeOK (set_LastReceivedData _ o)) with (StatusCodeOK o).
        rewrite Hok. cbv [negb]. repeat slot_step set_nth_at. reflexivity.
      * split; [by unfold same_mappings|]. simpl. repeat split; done.
  - assert (∃ entry,
      (if decide (i < length (NodeIDs o))%nat
       then nmm <~ index (NodeMetricMappings o) i ;;
            nid <~ index (NodeIDs o) i ;;
            log telegraf.LError "status not OK for node %v (%v): %v"
              [telegraf.AStr (FieldName (Tag nmm));
               telegraf.AStr (ua.NodeID_String nid);
               telegraf.AStatus (ua.dv_Status d)]
       else nmm <~ index (NodeMetricMappings o) i ;;
            log telegraf.LError "status not OK for node %v (%v): %v"
              [telegraf.AStr (FieldName (Tag nmm)); telegraf.ARune 63;
               telegraf.AStatus (ua.dv_Status d)])
        (set_LastReceivedData
           (<[i := set_Quality (ua.dv_Status d) old]> (LastReceivedData o)) o)
      = (Done tt,
         set_Log (Log o ++ [entry])%list
           (set_LastReceivedData
              (<[i := set_Quality (ua.dv_Status d) old]> (LastReceivedData o)) o)))
      as [entry Hentry].
    { unfold index. rewrite Hm. case_decide as Hn.
      - destruct (NodeIDs o !! i) as [nid|] eqn:Hid.
        2:{ apply lookup_ge_None in Hid. lia. }
        eexists. reflexivity.
      - eexists. reflexivity. }
    eexists _, _. split.
    * repeat slot_step set_nth_at.
      change (StatusCodeOK (set_LastReceivedData _ o)) with (StatusCodeOK o).
      rewrite Hok. cbv [negb].
      change (NodeIDs (set_LastReceivedData _ o)) with (NodeIDs o).
      change (NodeMetricMappings (set_LastReceivedData _ o))
        with (NodeMetricMappings o).
      exact Hentry.
    * split; [by unfold same_mappings|]. simpl. repeat split; done.
Qed.

Lemma MetricForNode_spec (o : OpcUAInputClient) (i : nat)
    (nmm : NodeMetricMapping) (last : NodeValue) :
  NodeMetricMappings o !! i = Some nmm ->
  LastReceivedData o !! i = Some last ->
  ∃ m o', MetricForNode i o = (Done m, o')
    ∧ telegraf.Name m = metricName nmm
    ∧ telegraf.Tags m = tagsOf nmm
    ∧ telegraf.Fields m =
        fieldsOf (OptionalFields (ClientConfig (Config o))) nmm last
    ∧ same_mappings o o'
    ∧ LastReceivedData o' = LastReceivedData o.
Proof.
  intros Hm Hl. unfold MetricForNode.
  rewrite bind_get. unfold index. rewrite Hm, Hl. rewrite !bind_ret.
  destruct (StatusCodeOK o (Quality last)) eqn:Hok; cbv [negb].
  - rewrite bind_ret. eexists _, _. split; [reflexivity|]. simpl.
    rewrite copy_into_union. unfold tagsOf, fieldsOf, fieldsGiven, same_mappings.
    by destruct (Go.Contains _ _).
  - unfold bind, input.log, modify, ret.
    eexists _, _. split; [reflexivity|]. simpl.
    rewrite copy_into_union. unfold tagsOf, fieldsOf, fieldsGiven, same_mappings.
    by destruct (Go.Contains _ _).
Qed.


End cache.

(** ** The subscribe client *)

Section subscribe_client.
Import input.
Import opcua_listener.
Context `{External}.

Lemma embedded_eq {A} (m : M input.OpcUAInputClient A) (o : subscribeClient)
    (r : outcome A) (c' : input.OpcUAInputClient) :
  m (OpcUAInputClient o) = (r, c') ->
  embedded m o = (r, set_OpcUAInputClient c' o).
Proof. intros Hm. unfold embedded. by rewrite Hm. Qed.

Lemma log_spec lvl format args (o : subscribeClient) :
  opcua_listener.log lvl format args o =
    (Done tt, logged [ {| telegraf.e_level := lvl; telegraf.e_format := format;
                          telegraf.e_args := args |} ] o).
Proof. reflexivity. Qed.

Lemma logged_nil (o : subscribeClient) : logged [] o = o.
Proof.
  unfold logged, set_OpcUAInputClient, set_Log. rewrite app_nil_r.
  destruct o as [c ? ? ? ? ? ? ? ? ? ?]. destruct c. reflexivity.
Qed.

Lemma logged_logged (ws ws' : list telegraf.entry) (o : subscribeClient) :
  logged ws' (logged ws o) = logged (ws ++ ws') o.
Proof. unfold logged, set_OpcUAInputClient, set_Log. simpl. by rewrite app_assoc. Qed.

(** *** The change filter *)

Lemma check_None_iff (params : input.DataChangeFilter) :
  checkDataChangeFilterParameters params = None ↔
    dcf_Trigger params ∈ [input.Status; input.StatusValue; input.StatusValueTimestamp]
    ∧ dcf_DeadbandType params ∈ [input.Absolute; input.Percent]
    ∧ ∃ v, dcf_DeadbandValue params = Some v ∧ PrimFloat.ltb v 0 = false.
Proof.
  unfold checkDataChangeFilterParameters.
  rewrite !elem_of_cons, !elem_of_nil.
  destruct (decide (_ ∧ _ ∧ _)) as [HT|HT].
  { split; [done|]. intros (Hin & _). destruct HT as (? & ? & ?). naive_solver. }
  destruct (decide (_ ∧ _)) as [HD|HD].
  { split; [done|]. intros (_ & Hin & _). destruct HD as (? & ?). naive_solver. }
  assert (dcf_Trigger params = input.Status ∨ dcf_Trigger params = input.StatusValue
          ∨ dcf_Trigger params = input.StatusValueTimestamp ∨ False) as HT'.
  { destruct (decide (dcf_Trigger params = input.Status)); [tauto|].
    destruct (decide (dcf_Trigger params = input.StatusValue)); [tauto|].
    destruct (decide (dcf_Trigger params = input.StatusValueTimestamp)); tauto. }
  assert (dcf_DeadbandType params = input.Absolute
          ∨ dcf_DeadbandType params = input.Percent ∨ False) as HD'.
  { destruct (decide (dcf_DeadbandType params = input.Absolute)); [tauto|].
    destruct (decide (dcf_DeadbandType params = input.Percent)); tauto. }
  destruct (dcf_DeadbandValue params) as [v|].
  - destruct (PrimFloat.ltb v 0) eqn:Hlt.
    + split; [done|]. intros (_ & _ & v' & [= <-] & Hf). congruence.
    + split; [|done]. intros _. split; [done|]. split; [done|]. by exists v.
  - split; [done|]. by intros (_ & _ & v' & ? & _).
Qed.

(** The translation of a configuration with a change filter fails exactly
    when the trigger or the deadband kind is not one of the enumerated
    values, or the deadband value is nil or below zero. *)
Lemma assign_error_iff (monParams : input.MonitoringParameters)
    (filter : input.DataChangeFilter) (req : ua.MonitoredItemCreateRequest) :
  mp_DataChangeFilter monParams = Some filter ->
  (∃ err req', assignConfigValuesToRequest monParams req = (Done (Some err), req'))
  ↔ (dcf_Trigger filter ∉ [input.Status; input.StatusValue; input.StatusValueTimestamp]
     ∨ dcf_DeadbandType filter ∉ [input.Absolute; input.Percent]
     ∨ dcf_DeadbandValue filter = None
     ∨ ∃ v, dcf_DeadbandValue filter = Some v ∧ PrimFloat.ltb v 0 = true).
Proof.
  intros Hf. unfold assignConfigValuesToRequest. rewrite Hf.
  pose proof (check_None_iff filter) as Hc.
  destruct (checkDataChangeFilterParameters filter) as [e|] eqn:He.
  - split.
    + intros _.
      destruct (decide (dcf_Trigger filter ∈
        [input.Status; input.StatusValue; input.StatusValueTimestamp])); [|tauto].
      destruct (decide (dcf_DeadbandType filter ∈ [input.Absolute; input.Percent]));
        [|tauto].
      destruct (dcf_DeadbandValue filter) as [v|]; [|tauto].
      destruct (PrimFloat.ltb v 0) eqn:Hlt; [by eauto 10|].
      assert (Some e = None) by (apply Hc; eauto). done.
    + intros _. run.
      destruct (QueueSize monParams), (DiscardOldest monParams); run; by eauto.
  - destruct (proj1 Hc eq_refl) as (HT & HD & v & Hv & Hlt). split.
    + intros (err & req' & Hrun). exfalso. rewrite Hv in Hrun. run.
      destruct (QueueSize monParams), (DiscardOldest monParams); run; done.
    + intros [?|[?|[?|(v' & ? & ?)]]]; try done; congruence.
Qed.

(** A valid filter is attached to the request as a typed payload with its
    trigger, deadband kind and deadband value. *)
Lemma assign_valid_filter (monParams : input.MonitoringParameters)
    (filter : input.DataChangeFilter) (req : ua.MonitoredItemCreateRequest) :
  mp_DataChangeFilter monParams = Some filter ->
  checkDataChangeFilterParameters filter = None ->
  ∃ v req', dcf_DeadbandValue filter = Some v
    ∧ assignConfigValuesToRequest monParams req = (Done None, req')
    ∧ ua.rp_Filter (ua.RequestedParameters req') =
        Some {| ua.f_Trigger := ua.DataChangeTriggerFromString (dcf_Trigger filter);
                ua.f_DeadbandType := ua.DeadbandTypeFromString (dcf_DeadbandType filter);
                ua.f_DeadbandValue := v |}
    ∧ ua.ItemToMonitor req' = ua.ItemToMonitor req.
Proof.
  intros Hf Hc. destruct (proj1 (check_None_iff filter) Hc) as (_ & _ & v & Hv & _).
  exists v. unfold assignConfigValuesToRequest. rewrite Hf, Hc, Hv.
  destruct (QueueSize monParams), (DiscardOldest monParams); run; by eauto.
Qed.

Lemma check_error_text (filter : input.DataChangeFilter) (err : error) :
  checkDataChangeFilterParameters filter = Some err ->
  has_byte "%" (dcf_Trigger filter) = false ->
  has_byte "%" (dcf_DeadbandType filter) = false ->
  ∃ text, Error err = Some text ∧ has_byte "%" text = false.
Proof.
  unfold checkDataChangeFilterParameters. intros He Ht Hd.
  repeat case_decide.
  - injection He as <-. eexists. split; [reflexivity|].
    change (has_byte "%" ("trigger '" +:+ dcf_Trigger filter +:+ "' not supported") = false).
    by rewrite !has_byte_app, Ht.
  - injection He as <-. eexists. split; [reflexivity|].
    change (has_byte "%"
      ("deadband_type '" +:+ dcf_DeadbandType filter +:+ "' not supported") = false).
    by rewrite !has_byte_app, Hd.
  - destruct (dcf_DeadbandValue filter) as [v|].
    + destruct (PrimFloat.ltb v 0); [|done]. injection He as <-. by eexists.
    + injection He as <-. by eexists.
Qed.

(** When neither the trigger nor the deadband kind contains a percent sign,
    the message of a rejected filter ends with the node ID of the request. *)
Lemma assign_error_names_node (monParams : input.MonitoringParameters)
    (filter : input.DataChangeFilter) (req req' : ua.MonitoredItemCreateRequest)
    (err : error) :
  mp_DataChangeFilter monParams = Some filter ->
  has_byte "%" (dcf_Trigger filter) = false ->
  has_byte "%" (dcf_DeadbandType filter) = false ->
  assignConfigValuesToRequest monParams req = (Done (Some err), req') ->
  ∃ text, Error err =
    Some (text +:+ ", node '" +:+ ua.NodeID_String (ua.ItemToMonitor req) +:+ "'").
Proof.
  intros Hf Ht Hd. unfold assignConfigValuesToRequest. rewrite Hf.
  destruct (checkDataChangeFilterParameters filter) as [e|] eqn:He.
  - destruct (check_error_text _ _ He Ht Hd) as (text & Htext & Hp).
    destruct (QueueSize monParams), (DiscardOldest monParams); run;
      intros [= <- <-]; simpl; rewrite Htext; simpl;
      exists text; by rewrite Sprintf_node.
  - destruct (dcf_DeadbandValue filter);
      destruct (QueueSize monParams), (DiscardOldest monParams); run; done.
Qed.

(** *** Connecting and registering *)

Lemma connect_spec (o : subscribeClient) :
  ∃ o1, connect o =
          (Done (match srv_Connect (server o) with
                 | Some err => Some err
                 | None => match srv_Subscribe (server o) with
                           | Err err => Some err
                           | Ok _ => None
                           end
                 end), o1)
        ∧ same_client o o1
        ∧ (srv_Connect (server o) = None ->
           ∀ id, srv_Subscribe (server o) = Ok id -> sub o1 = Some id).
Proof.
  unfold connect. run_sc.
  destruct (srv_Connect (server o)) as [err|]; run_sc.
  - eexists. split; [reflexivity|]. unfold same_client. simpl. by repeat split.
  - destruct (srv_Subscribe (server o)) as [id|err]; run_sc;
      (eexists; split; [reflexivity|]); unfold same_client; simpl;
      repeat split; try done; by intros; simplify_eq.
Qed.

Lemma Monitor_spec (reqs : list ua.MonitoredItemCreateRequest) (o : subscribeClient) id :
  sub o = Some id ->
  ∃ o', Monitor reqs o = (Done (srv_Monitor (server o) reqs), o')
        ∧ same_client o o' ∧ Log (OpcUAInputClient o') = Log (OpcUAInputClient o).
Proof.
  intros Hs. unfold Monitor. run_sc. rewrite Hs. run_sc.
  eexists. split; [reflexivity|]. by unfold same_client.
Qed.

Lemma checkResults_good (res : ua.StatusCode) rest idx (o : subscribeClient) :
  StatusCodeOK (OpcUAInputClient o) res = true ->
  checkResults idx (res :: rest) o = checkResults (S idx) rest o.
Proof. intros Hok. simpl. unfold bind at 1, get. by rewrite Hok. Qed.

Lemma checkEventResults_good (res : ua.StatusCode) rest (o : subscribeClient) :
  StatusCodeOK (OpcUAInputClient o) res = true ->
  checkEventResults (res :: rest) o = checkEventResults rest o.
Proof. intros Hok. simpl. unfold bind at 1, get. by rewrite Hok. Qed.

(** The loop over the results always ends: without a result that is not
    good it returns nothing and changes nothing; at the first such result it
    returns the wrapped status code after one debug entry for the item, or
    panics when the item has no mapping. *)
Lemma checkResults_spec (results : list ua.StatusCode) (idx : nat) (o : subscribeClient) :
  checkResults idx results o =
    match firstBad (StatusCodeOK (OpcUAInputClient o)) results with
    | None => (Done None, o)
    | Some (k, code) =>
        match NodeMetricMappings (OpcUAInputClient o) !! (idx + k)%nat with
        | Some nmm =>
            (Done (Some (ErrWrap "creating monitored item failed with status code: "
                           (ErrStatus code))),
             logged [failedItemEntry (FieldName (Tag nmm))
                       (NodeIDs (OpcUAInputClient o) !! (idx + k)%nat)] o)
        | None => (Fault (Panic "index out of range"), o)
        end
    end.
Proof.
  revert idx. unfold firstBad.
  induction results as [|res rest IH]; intros idx; [done|].
  destruct (StatusCodeOK (OpcUAInputClient o) res) eqn:Hok.
  - rewrite checkResults_good by done. simpl. rewrite Hok. simpl.
    rewrite (IH (S idx)).
    destruct (list_find _ rest) as [[k code]|]; simpl; [|done].
    by rewrite Nat.add_succ_r.
  - simpl. rewrite Hok. simpl. unfold bind at 1, get. rewrite Hok. simpl.
    rewrite Nat.add_0_r.
    destruct (NodeMetricMappings (OpcUAInputClient o) !! idx) as [nmm|] eqn:Hm.
    + case_decide as Hn.
      * destruct (NodeIDs (OpcUAInputClient o) !! idx) as [nid|] eqn:Hi.
        2:{ apply lookup_ge_None in Hi. lia. }
        unfold index. rewrite Hm, Hi. reflexivity.
      * apply Nat.nlt_ge, lookup_ge_None in Hn. rewrite Hn.
        unfold index. rewrite Hm. reflexivity.
    + case_decide; unfold index; by rewrite Hm.
Qed.

(** The log after a connect that succeeds. *)
Lemma connect_log (o o1 : subscribeClient) (id : Z) r :
  srv_Connect (server o) = None -> srv_Subscribe (server o) = Ok id ->
  connect o = (r, o1) ->
  Log (OpcUAInputClient o1) = connectedLog o id.
Proof.
  intros Hc Hs. unfold connect, connectedLog. run_sc. rewrite Hc. run_sc.
  rewrite Hs. run_sc. intros [= _ <-]. simpl. by rewrite <- !app_assoc.
Qed.

Lemma checkEventResults_spec (results : list ua.StatusCode) (o : subscribeClient) :
  checkEventResults results o =
    (Done (match firstBad (StatusCodeOK (OpcUAInputClient o)) results with
           | None => None
           | Some (_, code) =>
               Some (ErrWrap
                 "creating monitored event streaming item failed with status code: "
                 (ErrStatus code))
           end), o).
Proof.
  unfold firstBad. induction results as [|res rest IH]; [done|].
  destruct (StatusCodeOK (OpcUAInputClient o) res) eqn:Hok.
  - rewrite checkEventResults_good by done. simpl. rewrite Hok. simpl. rewrite IH.
    by destruct (list_find _ rest) as [[k code]|].
  - simpl. rewrite Hok. simpl. unfold bind at 1, get. by rewrite Hok.
Qed.

End subscribe_client.

(** ** The claims on the subscribe client *)

Section subscribe_claims.
Import input.
Import opcua_listener.
Context `{External}.

(** C5.  When the connect attempt of a start operation fails with [err]:
    with connect-fail-behavior retry or ignore the operation returns a nil
    channel and a nil error, with any other setting a nil channel and
    [err]. *)
Theorem C5_connect_failure (o : subscribeClient) (err : error)
    (Hfail : (connect o).1 = Done (Some err)) :
  let policy := ConnectFailBehavior (Config o) in
  let expected :=
    if decide (policy = "retry" ∨ policy = "ignore")
    then (None, None) else (None, Some err) in
  (length (monitoredItemsReqs o) ≠ 0%nat -> (startStreamValues o).1 = Done expected)
  ∧ (length (eventItemsReqs o) ≠ 0%nat -> (startStreamEvents o).1 = Done expected).
Proof.
  destruct (connect_spec o) as (o1 & Hc & Hs & _). rewrite Hc in Hfail.
  simpl in Hfail. injection Hfail as Hfail.
  destruct Hs as (HC & _).
  assert ((connectFailed err o1).1 =
    Done (if decide (ConnectFailBehavior (Config o) = "retry"
                     ∨ ConnectFailBehavior (Config o) = "ignore")
          then (None, None) else (None, Some err))) as Hcf.
  { unfold connectFailed. run_sc. rewrite HC.
    destruct (decide (ConnectFailBehavior (Config o) = "retry")) as [Hr|Hr]; run_sc.
    { by rewrite decide_True by tauto. }
    destruct (decide (ConnectFailBehavior (Config o) = "ignore")) as [Hi|Hi]; run_sc.
    { by rewrite decide_True by tauto. }
    by rewrite decide_False by tauto. }
  split; intros Hlen.
  - unfold startStreamValues. rewrite bind_get.
    rewrite decide_False by done. rewrite (bind_eq _ _ _ _ _ Hc), Hfail. exact Hcf.
  - unfold startStreamEvents. rewrite bind_get.
    rewrite decide_False by done. rewrite (bind_eq _ _ _ _ _ Hc), Hfail. exact Hcf.
Qed.

(** C6, as the code has it.  After a successful connect, when the
    registration answers with [results]: if a result has a status that is
    not good, the start operation returns a nil channel and an error that
    wraps the status code of the first such result and says nothing else,
    and starts no processing.  Before it returns, the data stream writes one
    debug entry with the field name of the failed item and its node ID, or
    a question mark when the list of node IDs has no entry at that index;
    when the item has no mapping either, the operation panics.  The event
    stream writes nothing about the item.  If every result is good, the
    operation returns its metric channel and no error. *)
Theorem C6_registration_results (o : subscribeClient) (id : Z)
    (results : list ua.StatusCode)
    (Hconnect : srv_Connect (server o) = None)
    (Hsubscribe : srv_Subscribe (server o) = Ok id) :
  let c := OpcUAInputClient o in
  (length (monitoredItemsReqs o) ≠ 0%nat ->
   srv_Monitor (server o) (monitoredItemsReqs o) = Ok results ->
   match firstBad (StatusCodeOK c) results with
   | Some (idx, code) =>
       let err := ErrWrap "creating monitored item failed with status code: "
                    (ErrStatus code) in
       Error err = Some ("creating monitored item failed with status code: "
                         +:+ StatusCode_Error code)
       ∧ match NodeMetricMappings c !! idx with
         | Some nmm =>
             ∃ o', startStreamValues o = (Done (None, Some err), o')
               ∧ processors o' = processors o
               ∧ Log (OpcUAInputClient o')
                 = (connectedLog o id
                    ++ [monitoringEntry "Monitoring items";
                        failedItemEntry (FieldName (Tag nmm)) (NodeIDs c !! idx)])%list
         | None =>
             ∃ o', startStreamValues o = (Fault (Panic "index out of range"), o')
               ∧ processors o' = processors o
         end
   | None =>
       ∃ o', startStreamValues o = (Done (Some ChMetrics, None), o')
             ∧ processors o' = S (processors o)
   end)
  ∧ (length (eventItemsReqs o) ≠ 0%nat ->
     srv_Monitor (server o) (eventItemsReqs o) = Ok results ->
     match firstBad (StatusCodeOK c) results with
     | Some (idx, code) =>
         let err := ErrWrap
                      "creating monitored event streaming item failed with status code: "
                      (ErrStatus code) in
         Error err
         = Some ("creating monitored event streaming item failed with status code: "
                 +:+ StatusCode_Error code)
         ∧ ∃ o', startStreamEvents o = (Done (None, Some err), o')
             ∧ processors o' = processors o
             ∧ eventMetrics o' = eventMetrics o
             ∧ Log (OpcUAInputClient o')
               = (connectedLog o id ++ [monitoringEntry "Monitoring events"])%list
     | None =>
         ∃ o', startStreamEvents o = (Done (Some ChEventMetrics, None), o')
               ∧ eventMetrics o' = Some []
               ∧ processors o' = S (processors o)
     end).
Proof.
  intros c.
  destruct (connect_spec o) as (o1 & Hc & Hs1 & Hsub).
  pose proof (connect_log o o1 id _ Hconnect Hsubscribe Hc) as Hlog1.
  rewrite Hconnect, Hsubscribe in Hc. specialize (Hsub Hconnect id Hsubscribe).
  destruct Hs1 as (HC1 & HR1 & HE1 & HM1 & HEM1 & HS1 & HP1 & HO1 & HN1 & HI1 & HL1).
  split.
  - intros Hlen Hmon.
    destruct (Monitor_spec (monitoredItemsReqs o) o1 id Hsub) as (o2 & Hm & Hs2 & Hl2).
    destruct Hs2 as (HC2 & HR2 & HE2 & HM2 & HEM2 & HS2 & HP2 & HO2 & HN2 & HI2 & HL2).
    rewrite HS1, Hmon in Hm.
    unfold startStreamValues. rewrite bind_get.
    rewrite decide_False by done.
    rewrite (bind_eq _ _ _ _ _ Hc), (bind_eq _ _ _ _ _ Hm).
    rewrite (bind_eq _ _ _ _ _ (log_spec _ _ _ _)).
    set (o3 := logged _ o2).
    assert (StatusCodeOK (OpcUAInputClient o3) = StatusCodeOK c) as Hok.
    { subst o3 c. simpl. congruence. }
    assert (NodeMetricMappings (OpcUAInputClient o3) = NodeMetricMappings c) as Hmaps.
    { subst o3 c. simpl. congruence. }
    assert (NodeIDs (OpcUAInputClient o3) = NodeIDs c) as Hids.
    { subst o3 c. simpl. congruence. }
    assert (processors o3 = processors o) as Hprocs.
    { subst o3. simpl. congruence. }
    assert (Log (OpcUAInputClient o3)
            = (connectedLog o id ++ [monitoringEntry "Monitoring items"])%list) as Hlog3.
    { subst o3. simpl. by rewrite Hl2, Hlog1. }
    pose proof (checkResults_spec results 0 o3) as Hchk.
    rewrite Hok, Hmaps, Hids in Hchk. clearbody o3.
    destruct (firstBad (StatusCodeOK c) results) as [[idx code]|];
      cbn [Nat.add] in Hchk.
    + split; [done|].
      destruct (NodeMetricMappings c !! idx) as [nmm|].
      * rewrite (bind_eq _ _ _ _ _ Hchk).
        eexists. split; [reflexivity|]. split; [done|].
        simpl. rewrite Hlog3, <- app_assoc. done.
      * unfold bind at 1. rewrite Hchk. eexists. split; [reflexivity|]. done.
    + rewrite (bind_eq _ _ _ _ _ Hchk).
      eexists. split; [reflexivity|]. simpl. congruence.
  - intros Hlen Hmon.
    destruct (Monitor_spec (eventItemsReqs o) o1 id Hsub) as (o2 & Hm & Hs2 & Hl2).
    destruct Hs2 as (HC2 & HR2 & HE2 & HM2 & HEM2 & HS2 & HP2 & HO2 & HN2 & HI2 & HL2).
    rewrite HS1, Hmon in Hm.
    unfold startStreamEvents. rewrite bind_get.
    rewrite decide_False by done.
    rewrite (bind_eq _ _ _ _ _ Hc), (bind_eq _ _ _ _ _ Hm).
    rewrite (bind_eq _ _ _ _ _ (log_spec _ _ _ _)).
    set (o3 := logged _ o2).
    assert (StatusCodeOK (OpcUAInputClient o3) = StatusCodeOK c) as Hok.
    { subst o3 c. simpl. congruence. }
    assert (processors o3 = processors o) as Hprocs.
    { subst o3. simpl. congruence. }
    assert (eventMetrics o3 = eventMetrics o) as Hev.
    { subst o3. simpl. congruence. }
    assert (Log (OpcUAInputClient o3)
            = (connectedLog o id ++ [monitoringEntry "Monitoring events"])%list) as Hlog3.
    { subst o3. simpl. by rewrite Hl2, Hlog1. }
    rewrite (bind_eq _ _ _ _ _ (checkEventResults_spec _ _)), Hok.
    destruct (firstBad (StatusCodeOK c) results) as [[idx code]|].
    + split; [done|]. eexists. split; [reflexivity|]. done.
    + eexists. split; [reflexivity|]. split; [done|]. simpl. congruence.
Qed.

(** C10.  With no monitored-item request of its kind, a start operation
    returns a nil channel and a nil error and leaves the client as it was:
    no call to the server, no log entry, no subscription. *)
Theorem C10_nothing_to_monitor (o : subscribeClient) :
  (length (monitoredItemsReqs o) = 0%nat -> startStreamValues o = (Done (None, None), o))
  ∧ (length (eventItemsReqs o) = 0%nat -> startStreamEvents o = (Done (None, None), o)).
Proof.
  split; intros Hlen.
  - unfold startStreamValues. rewrite bind_get. by rewrite decide_True.
  - unfold startStreamEvents. rewrite bind_get. by rewrite decide_True.
Qed.

(** *** Data changes *)

Lemma dataChangeItem_spec (o : subscribeClient) (item : ua.MonitoredItemNotification)
    (old : NodeValue) (nmm : NodeMetricMapping) (nid : ua.NodeID) :
  let i := ua.min_ClientHandle item in
  let d := ua.min_Value item in
  let c := OpcUAInputClient o in
  LastReceivedData c !! i = Some old ->
  NodeMetricMappings c !! i = Some nmm ->
  NodeIDs c !! i = Some nid ->
  ∃ new m o', dataChangeItem item o = (Done tt, o')
    ∧ LastReceivedData (OpcUAInputClient o') = <[i := new]> (LastReceivedData c)
    ∧ slotUpdated (StatusCodeOK c (ua.dv_Status d)) (TimestampFormat (input.Config c))
        d old new
    ∧ metrics o' = (metrics o ++ [m])%list
    ∧ telegraf.Name m = metricName nmm
    ∧ telegraf.Tags m = tagsOf nmm
    ∧ telegraf.Fields m
      = fieldsOf (OptionalFields (ClientConfig (input.Config c))) nmm new
    ∧ same_mappings c (OpcUAInputClient o')
    ∧ eventMetrics o' = eventMetrics o.
Proof.
  intros i d c Hold Hm Hid.
  destruct (UpdateNodeValue_spec c i d old nmm Hold Hm)
    as (new & c1 & Hup & Hs1 & Hl1 & Hslot & _).
  assert (i < length (LastReceivedData c))%nat as Hi by by eapply lookup_lt_Some.
  destruct Hs1 as (HO1 & HC1 & HM1 & HI1 & HE1).
  set (entry := {| telegraf.e_level := telegraf.LDebug;
                   telegraf.e_format :=
                     "Data change notification: node %q value changed from %v to %v";
                   telegraf.e_args :=
                     [telegraf.AStr (ua.NodeID_String nid);
                      telegraf.AValue (Value old); telegraf.AValue (Value new)] |}).
  set (c2 := set_Log (Log c1 ++ [entry])%list c1).
  destruct (MetricForNode_spec c2 i nmm new)
    as (m & c3 & Hmet & Hname & Htags & Hfields & Hs3 & Hl3).
  { subst c2. simpl. congruence. }
  { subst c2. simpl. rewrite Hl1. by apply list_lookup_insert_eq. }
  exists new, m. eexists. split.
  { unfold dataChangeItem. cbv zeta. fold i. fold d.
    rewrite bind_get. fold c. unfold index at 1. rewrite Hold, bind_ret.
    rewrite (bind_eq _ _ _ _ _ (embedded_eq (UpdateNodeValue i d) o _ _ Hup)).
    rewrite bind_get.
    change (OpcUAInputClient (set_OpcUAInputClient c1 o)) with c1.
    unfold index. rewrite HI1, Hid, bind_ret, Hl1.
    rewrite list_lookup_insert_eq by done. rewrite bind_ret.
    rewrite (bind_eq _ _ _ _ _ (log_spec _ _ _ _)).
    unfold logged.
    change (OpcUAInputClient (set_OpcUAInputClient c1 o)) with c1.
    fold entry. fold c2.
    rewrite (bind_eq _ _ _ _ _
      (embedded_eq (MetricForNode i) (set_OpcUAInputClient c2 (set_OpcUAInputClient c1 o))
         _ _ Hmet)).
    reflexivity. }
  simpl. destruct Hs3 as (HO3 & HC3 & HM3 & HI3 & HE3).
  split; [by rewrite Hl3|]. split; [done|].
  split; [done|]. split; [done|]. split; [done|]. split.
  { rewrite Hfields. subst c2. simpl. by rewrite HC1. }
  split; [|done].
  unfold same_mappings. subst c2. simpl in *. repeat split; congruence.
Qed.

Lemma dataChangeItems_spec (items : list ua.MonitoredItemNotification)
    (o : subscribeClient) :
  Forall (validHandle (OpcUAInputClient o)) items ->
  ∃ ms o', range_each items dataChangeItem o = (Done tt, o')
    ∧ metrics o' = (metrics o ++ ms)%list
    ∧ Forall2 (fun item m =>
         ∃ nmm, NodeMetricMappings (OpcUAInputClient o) !! ua.min_ClientHandle item
                  = Some nmm
                ∧ telegraf.Name m = metricName nmm
                ∧ telegraf.Tags m = tagsOf nmm) items ms.
Proof.
  revert o. induction items as [|item rest IH]; intros o Hvalid.
  - exists [], o. split; [done|]. split; [by rewrite app_nil_r|constructor].
  - apply Forall_cons in Hvalid as [(Hm & Hi & Hl) Hrest].
    apply lookup_lt_is_Some in Hm as [nmm Hm].
    apply lookup_lt_is_Some in Hi as [nid Hi].
    apply lookup_lt_is_Some in Hl as [old Hl].
    destruct (dataChangeItem_spec o item old nmm nid Hl Hm Hi)
      as (new & m & o1 & Hrun & Hcache & _ & Hmet & Hname & Htags & _ & Hsame & _).
    destruct Hsame as (HO & HC & HM & HI & HE).
    destruct (IH o1) as (ms & o2 & Hrun2 & Hmet2 & Hall).
    { eapply Forall_impl; [exact Hrest|]. intros x (? & ? & ?).
      unfold validHandle. rewrite HM, HI, Hcache, length_insert. done. }
    exists (m :: ms), o2. split.
    { simpl. by rewrite (bind_eq _ _ _ _ _ Hrun). }
    split; [by rewrite Hmet2, Hmet, <- app_assoc|].
    constructor; [by exists nmm|].
    eapply Forall2_impl; [exact Hall|]. intros x y (n & ? & ? & ?).
    exists n. by rewrite <- HM.
Qed.

(** C7, as the code has it.  Processing an item of a data-change
    notification writes the cache slot at the item's handle and no other:
    the quality of the notification always; and, only when that status is
    good, both timestamps and, when a value is present, its type and the
    value itself, a date/time value as the text of the configured format;
    with a status that is not good the cached value, type and timestamps
    stay as they were.  Then it emits exactly one measurement, of that
    mapping and built from the new slot.  The items of a notification are
    processed in order: one measurement each, in the order of the items. *)
Theorem C7_data_change (o : subscribeClient) (item : ua.MonitoredItemNotification)
    (old : NodeValue) (nmm : NodeMetricMapping) (nid : ua.NodeID)
    (Hcache : LastReceivedData (OpcUAInputClient o) !! ua.min_ClientHandle item = Some old)
    (Hmapping : NodeMetricMappings (OpcUAInputClient o) !! ua.min_ClientHandle item
                = Some nmm)
    (Hnode : NodeIDs (OpcUAInputClient o) !! ua.min_ClientHandle item = Some nid) :
  let i := ua.min_ClientHandle item in
  let d := ua.min_Value item in
  let c := OpcUAInputClient o in
  (∃ new m o', dataChangeItem item o = (Done tt, o')
     ∧ LastReceivedData (OpcUAInputClient o') = <[i := new]> (LastReceivedData c)
     ∧ slotUpdated (StatusCodeOK c (ua.dv_Status d)) (TimestampFormat (input.Config c))
         d old new
     ∧ metrics o' = (metrics o ++ [m])%list
     ∧ telegraf.Name m = metricName nmm
     ∧ telegraf.Tags m = tagsOf nmm
     ∧ telegraf.Fields m
       = fieldsOf (OptionalFields (ClientConfig (input.Config c))) nmm new)
  ∧ (∀ items, Forall (validHandle c) items ->
       ∃ ms o', range_each items dataChangeItem o = (Done tt, o')
         ∧ metrics o' = (metrics o ++ ms)%list
         ∧ Forall2 (fun item m =>
              ∃ nmm, NodeMetricMappings c !! ua.min_ClientHandle item = Some nmm
                     ∧ telegraf.Name m = metricName nmm
                     ∧ telegraf.Tags m = tagsOf nmm) items ms).
Proof.
  intros i d c. split.
  - destruct (dataChangeItem_spec o item old nmm nid Hcache Hmapping Hnode)
      as (new & m & o' & ? & ? & ? & ? & ? & ? & ? & _).
    by exists new, m, o'.
  - intros items Hvalid. by apply dataChangeItems_spec.
Qed.

End subscribe_claims.

(** ** Events *)

Section event_claims.
Import input.
Import opcua_listener.

Lemma emitted_key name value k v :
  emitted name value = Some (k, v) ->
  (k = name ∧ (name ≠ "Message" -> v = value) ∧ value ≠ ua.VNil)
  ∧ (name = "Message" -> ∃ lt, value = ua.VLocalizedText lt).
Proof.
  unfold emitted. destruct value; try done; case_decide; intros [= <- <-];
    subst; repeat split; try done; eauto.
Qed.

Lemma eventFieldsOf_Message names fs (fields : gmap string ua.value) :
  fields !! "Message" = None ->
  (∀ i f, names !! i = Some "Message" -> fs !! i = Some f ->
          ∀ lt, ua.v_Value f ≠ ua.VLocalizedText lt) ->
  eventFieldsOf names fs fields !! "Message" = None.
Proof.
  revert fs fields. induction names as [|name names IH]; intros [|f fs] fields Hf Hm;
    try done.
  simpl. apply IH.
  - destruct (emitted name (ua.v_Value f)) as [[k v]|] eqn:He; [|done].
    apply emitted_key in He as ((-> & _) & Hlt).
    destruct (decide (name = "Message")) as [->|Hne].
    + destruct (Hlt eq_refl) as [lt Hv]. by destruct (Hm 0%nat f eq_refl eq_refl lt).
    + by rewrite lookup_insert_ne.
  - intros i f' Hi Hf'. by apply (Hm (S i) f').
Qed.

Lemma eventFieldsOf_untouched names fs (fields : gmap string ua.value) k :
  k ≠ "Message" ->
  (∀ j f, names !! j = Some k -> fs !! j = Some f -> ua.v_Value f = ua.VNil) ->
  eventFieldsOf names fs fields !! k = fields !! k.
Proof.
  revert fs fields. induction names as [|name names IH]; intros [|f fs] fields Hk Hnil;
    try done.
  simpl. rewrite IH; [|done|intros j f' ? ?; by apply (Hnil (S j) f')].
  destruct (emitted name (ua.v_Value f)) as [[k' v]|] eqn:He; [|done].
  apply emitted_key in He as ((-> & _ & Hv) & _).
  destruct (decide (name = k)) as [->|Hne]; [|by rewrite lookup_insert_ne].
  by destruct (Hv (Hnil 0%nat f eq_refl eq_refl)).
Qed.

Lemma eventFieldsOf_kept names fs (fields : gmap string ua.value) i name f :
  names !! i = Some name -> fs !! i = Some f ->
  name ≠ "Message" -> ua.v_Value f ≠ ua.VNil ->
  (∀ j f', (i < j)%nat -> names !! j = Some name -> fs !! j = Some f' ->
           ua.v_Value f' = ua.VNil) ->
  eventFieldsOf names fs fields !! name = Some (ua.v_Value f).
Proof.
  revert fs fields i. induction names as [|n names IH]; intros [|f0 fs] fields i;
    try done.
  destruct i as [|i]; simpl.
  - intros [= ->] [= ->] Hne Hv Hlater.
    rewrite eventFieldsOf_untouched;
      [|done|intros j f' ? ?; apply (Hlater (S j) f'); [lia|done..]].
    unfold emitted. destruct (ua.v_Value f) eqn:Hvf; try done;
      rewrite decide_False by done; by rewrite lookup_insert_eq.
  - intros Hn Hf Hne Hv Hlater. eapply IH; eauto.
    intros j f' ? ? ?. apply (Hlater (S j) f'); [lia|done..].
Qed.

Lemma eventFieldsOf_no_nil names fs (fields : gmap string ua.value) :
  (∀ k, fields !! k ≠ Some ua.VNil) ->
  ∀ k, eventFieldsOf names fs fields !! k ≠ Some ua.VNil.
Proof.
  revert fs fields. induction names as [|name names IH]; intros [|f fs] fields Hf;
    try done.
  simpl. apply IH. intros k.
  destruct (emitted name (ua.v_Value f)) as [[k' v]|] eqn:He; [|done].
  destruct (decide (k' = k)) as [->|Hne]; [|by rewrite lookup_insert_ne].
  rewrite lookup_insert_eq. intros [= ->].
  unfold emitted in He. destruct (ua.v_Value f); try done; by case_decide.
Qed.

(** A field named Message that is no localized text leaves the entry of
    Message as it is. *)
Lemma eventFieldsOf_Message_same names fs (fields : gmap string ua.value) :
  (∀ i f, names !! i = Some "Message" -> fs !! i = Some f ->
          ∀ lt, ua.v_Value f ≠ ua.VLocalizedText lt) ->
  eventFieldsOf names fs fields !! "Message" = fields !! "Message".
Proof.
  revert fs fields. induction names as [|name names IH]; intros [|f fs] fields Hm;
    try done.
  simpl. rewrite IH; [|intros i f' Hi Hf'; by apply (Hm (S i) f')].
  destruct (emitted name (ua.v_Value f)) as [[k v]|] eqn:He; [|done].
  apply emitted_key in He as ((-> & _) & Hlt).
  destruct (decide (name = "Message")) as [->|Hne].
  - destruct (Hlt eq_refl) as [lt Hv]. by destruct (Hm 0%nat f eq_refl eq_refl lt).
  - by rewrite lookup_insert_ne.
Qed.

(** The last localized text under the name Message gives its text. *)
Lemma eventFieldsOf_Message_text names fs (fields : gmap string ua.value) i f lt :
  names !! i = Some "Message" -> fs !! i = Some f ->
  ua.v_Value f = ua.VLocalizedText lt ->
  (∀ j f', (i < j)%nat -> names !! j = Some "Message" -> fs !! j = Some f' ->
           ∀ lt', ua.v_Value f' ≠ ua.VLocalizedText lt') ->
  eventFieldsOf names fs fields !! "Message" = Some (ua.VString (ua.Text lt)).
Proof.
  revert fs fields i. induction names as [|n names IH]; intros [|f0 fs] fields i;
    try done.
  destruct i as [|i]; simpl.
  - intros [= ->] [= ->] Hv Hlater.
    rewrite eventFieldsOf_Message_same;
      [|intros j f' ? ?; apply (Hlater (S j) f'); [lia|done..]].
    unfold emitted. rewrite Hv. rewrite decide_True by done.
    by rewrite lookup_insert_eq.
  - intros Hn Hf Hv Hlater. eapply IH; eauto.
    intros j f' ? ? ?. apply (Hlater (S j) f'); [lia|done..].
Qed.

Lemma eventWarnings_elem names fs i name f w :
  names !! i = Some name -> fs !! i = Some f ->
  w ∈ warned name (ua.v_Value f) -> w ∈ eventWarnings names fs.
Proof.
  revert fs i. induction names as [|n names IH]; intros [|f0 fs] i; try done.
  destruct i as [|i]; simpl.
  - intros [= ->] [= ->] Hw. apply elem_of_app. by left.
  - intros Hn Hf Hw. apply elem_of_app. right. by eapply IH.
Qed.

Context `{External}.

Lemma eventFields_spec (fs : list ua.Variant) (i : nat) (names : list string)
    (fields : gmap string ua.value) (o : subscribeClient) :
  (i + length fs <= length names)%nat ->
  eventFields i names fs fields o =
    (Done (eventFieldsOf (drop i names) fs fields),
     logged (eventWarnings (drop i names) fs) o).
Proof.
  revert i fields o. induction fs as [|f rest IH]; intros i fields o Hlen.
  - destruct (drop i names); simpl; by rewrite logged_nil.
  - simpl in Hlen.
    destruct (names !! i) as [name|] eqn:Hn.
    2:{ apply lookup_ge_None in Hn. lia. }
    rewrite (drop_S _ _ _ Hn). simpl.
    unfold index. rewrite Hn, bind_ret.
    assert (∀ fields' ws, eventFields (S i) names rest fields' (logged ws o) =
              (Done (eventFieldsOf (drop (S i) names) rest fields'),
               logged (ws ++ eventWarnings (drop (S i) names) rest) o)) as Hrest.
    { intros fields' ws. rewrite IH by lia. by rewrite logged_logged. }
    destruct (ua.v_Value f) eqn:Hv; unfold emitted, warned;
      try (case_decide;
           [ try (rewrite (bind_eq _ _ _ _ _ (log_spec _ _ _ _));
                  apply (Hrest _ [_]));
             try (rewrite <- (logged_nil o) at 1; apply (Hrest _ []))
           | rewrite <- (logged_nil o) at 1; apply (Hrest _ []) ]).
    rewrite (bind_eq _ _ _ _ _ (log_spec _ _ _ _)). apply (Hrest _ [_]).
Qed.

End event_claims.

(** ** The claims on the sample plant *)

Section scenarios.
Import input.
Import opcua_listener.
#[local] Existing Instance sample_External.

(** C4 fails in the code.  The text of the check's error is used as the
    format of the final message, so a verb in the configured trigger takes
    the node ID for itself: with the trigger [%.0s] the translation fails, as
    it should, but its message does not name the node. *)
Theorem C4_format_trigger_drops_node :
  ∃ err req',
    assignConfigValuesToRequest (sample_filter "%.0s")
      (sample_request "ns=3;s=Temperature" 0) = (Done (Some err), req')
    ∧ Error err = Some "trigger '' not supported, node '%!s(MISSING)'".
Proof. eexists _, _. split; reflexivity. Qed.

(** The server refuses the connection: nothing is returned with the policy
    retry, the error of the connect with the policy error. *)
Lemma C5_connect_failure_witness :
  let refused := ErrLibrary "connection refused" in
  (connect (sample_subscriber refusing_server "retry")).1 = Done (Some refused)
  ∧ (connect (sample_subscriber refusing_server "error")).1 = Done (Some refused)
  ∧ (startStreamValues (sample_subscriber refusing_server "retry")).1
    = Done (None, None)
  ∧ (startStreamEvents (sample_subscriber refusing_server "error")).1
    = Done (None, Some refused).
Proof.
  intros refused.
  assert ((connect (sample_subscriber refusing_server "retry")).1
          = Done (Some refused)) as Hretry by (vm_compute; reflexivity).
  assert ((connect (sample_subscriber refusing_server "error")).1
          = Done (Some refused)) as Herror by (vm_compute; reflexivity).
  split; [exact Hretry|]. split; [exact Herror|]. split.
  - apply (proj1 (C5_connect_failure _ _ Hretry)). discriminate.
  - apply (proj2 (C5_connect_failure _ _ Herror)). discriminate.
Defined.

(** The registration of the second item fails: the start returns the status
    code, and the last log entry names the pressure. *)
Lemma C6_registration_results_witness :
  let o := sample_subscriber (answering_server [0; bad_status]) "error" in
  srv_Connect (server o) = None
  ∧ srv_Subscribe (server o) = Ok 1
  ∧ ∃ o', startStreamValues o =
            (Done (None, Some (ErrWrap
               "creating monitored item failed with status code: "
               (ErrStatus bad_status))), o')
          ∧ last (Log (OpcUAInputClient o'))
            = Some (failedItemEntry "pressure"
                      (Some {| ua.NodeID_String := "ns=3;s=Pressure" |})).
Proof.
  intros o. split; [reflexivity|]. split; [reflexivity|].
  pose proof (proj1 (C6_registration_results o 1 [0; bad_status] eq_refl eq_refl)
                ltac:(discriminate) eq_refl) as Hstart.
  change (firstBad _ _) with (Some (1%nat, bad_status)) in Hstart.
  cbv zeta iota beta in Hstart. destruct Hstart as [_ Hstart].
  change (NodeMetricMappings (OpcUAInputClient o) !! 1%nat)
    with (Some (mapping_of pressure_node)) in Hstart.
  cbv iota beta in Hstart. destruct Hstart as (o' & Hrun & _ & Hlog).
  exists o'. split; [exact Hrun|]. rewrite Hlog. reflexivity.
Defined.

(** C6 as stated fails: whether the first or the second item is refused, the
    start operation returns the same error, which holds the status code and
    names no item; the event stream does not log the item either.  And a
    response with a result more than there are mappings, the last not good,
    does not return an error at all: the operation panics. *)
Lemma C6_registration_results_counterexample :
  let first := sample_subscriber (answering_server [bad_status; 0]) "error" in
  let second := sample_subscriber (answering_server [0; bad_status]) "error" in
  let third := sample_subscriber (answering_server [0; 0; bad_status]) "error" in
  let err := ErrWrap "creating monitored item failed with status code: "
               (ErrStatus bad_status) in
  (startStreamValues first).1 = Done (None, Some err)
  ∧ (startStreamValues second).1 = Done (None, Some err)
  ∧ (startStreamEvents first).1 = (startStreamEvents second).1
  ∧ last (Log (OpcUAInputClient (startStreamEvents first).2))
    = Some (monitoringEntry "Monitoring events")
  ∧ (startStreamValues third).1 = Fault (Panic "index out of range").
Proof. vm_compute. repeat split. Qed.

(** A good data change of the temperature: 79 at time 9. *)
Lemma C7_data_change_witness :
  let o := sample_subscriber (answering_server []) "error" in
  ∃ new m o', dataChangeItem (temp_change 79 0 9) o = (Done tt, o')
    ∧ LastReceivedData (OpcUAInputClient o') = [new; slot "pressure" ua.VNil 0]
    ∧ Quality new = 0 ∧ Value new = ua.VFloat 79
    ∧ ServerTime new = 9 ∧ SourceTime new = 9
    ∧ metrics o' = [m]
    ∧ telegraf.Name m = "opcua".
Proof.
  intros o.
  destruct (proj1 (C7_data_change o (temp_change 79 0 9)
                     (slot "temp" (ua.VFloat 1) 5) (mapping_of temp_node)
                     {| ua.NodeID_String := NodeID temp_node |}
                     eq_refl eq_refl eq_refl))
    as (new & m & o' & Hrun & Hcache & Hslot & Hmetrics & Hname & _).
  exists new, m, o'. split; [exact Hrun|]. split; [exact Hcache|].
  destruct Hslot as (Hq & _ & Ht1 & Ht2 & _ & Hv).
  split; [exact Hq|]. split; [exact Hv|]. split; [exact Ht1|]. split; [exact Ht2|].
  split; [exact Hmetrics|]. exact Hname.
Defined.

(** C7 as stated fails: a data change with a bad status carries the value 2
    and the time 9, and the cache keeps the value 1 and the time 5; only the
    quality is written. *)
Lemma C7_data_change_counterexample :
  let o := sample_subscriber (answering_server []) "error" in
  let item := temp_change 2 bad_status 9 in
  LastReceivedData (OpcUAInputClient o) !! 0%nat = Some (slot "temp" (ua.VFloat 1) 5)
  ∧ (dataChangeItem item o).1 = Done tt
  ∧ LastReceivedData (OpcUAInputClient (dataChangeItem item o).2) !! 0%nat
    = Some {| TagName := "temp"; Value := ua.VFloat 1; Quality := bad_status;
              ServerTime := 5; SourceTime := 5; DataType := 11 |}.
Proof. vm_compute. repeat split. Qed.





End scenarios.

(** * Further properties of the code *)

(** ** Tags of the deprecated option *)

Section tags.
Import input.

Lemma tagsSliceToMap_from_Ok i tags m0 m :
  tagsSliceToMap_from i tags m0 = Ok m ->
  Forall wellFormedTag tags
  ∧ NoDup (tagName <$> tags)
  ∧ (∀ tag, tag ∈ tags -> m0 !! tagName tag = None)
  ∧ m = list_to_map (tagPairs tags) ∪ m0.
Proof.
  revert i m0. induction tags as [|tag rest IH]; intros i m0; simpl.
  - intros [= <-]. split; [constructor|]. split; [constructor|].
    split; [by intros ? ?%elem_of_nil|]. by rewrite (left_id_L ∅ (∪)).
  - destruct tag as [|name [|value [|c l]]]; try done.
    repeat case_decide; try done. intros Hrest.
    apply IH in Hrest as (Hwf & Hnd & Hfresh & ->).
    assert (m0 !! name = None) as Hname by by apply eq_None_not_Some.
    split; [constructor; [by exists name, value|done]|].
    split.
    { simpl. constructor; [|done]. intros (tag & Ht & Hin)%list_elem_of_fmap.
      specialize (Hfresh tag Hin). rewrite <- Ht in Hfresh.
      by rewrite lookup_insert_eq in Hfresh. }
    split.
    { intros tag [->|Hin]%elem_of_cons; [done|].
      specialize (Hfresh tag Hin).
      destruct (decide (tagName tag = name)) as [Heq|Hne].
      - rewrite Heq, lookup_insert_eq in Hfresh. done.
      - by rewrite lookup_insert_ne in Hfresh. }
    simpl. apply map_eq. intros k.
    destruct (decide (k = name)) as [->|Hne].
    + rewrite lookup_union_r.
      * rewrite lookup_insert_eq. rewrite lookup_union_l'; [by rewrite lookup_insert_eq|].
        rewrite lookup_insert_eq. by eexists.
      * apply not_elem_of_list_to_map_1. intros ((k' & v') & Hk & Hin)%list_elem_of_fmap.
        simpl in Hk. subst k'.
        unfold tagPairs in Hin. apply list_elem_of_omap in Hin as (tag & Hin & Ht).
        specialize (Hfresh tag Hin).
        destruct tag as [|n' [|v'' [|? ?]]]; try done. injection Ht as -> ->.
        simpl in Hfresh. by rewrite lookup_insert_eq in Hfresh.
    + rewrite !lookup_union, lookup_insert_ne by done.
      by rewrite lookup_insert_ne by done.
Qed.

Lemma tagsSliceToMap_from_wf i tags m0 :
  Forall wellFormedTag tags ->
  NoDup (tagName <$> tags) ->
  (∀ tag, tag ∈ tags -> m0 !! tagName tag = None) ->
  ∃ m, tagsSliceToMap_from i tags m0 = Ok m.
Proof.
  revert i m0. induction tags as [|tag rest IH]; intros i m0 Hwf Hnd Hfresh; simpl.
  - by eexists.
  - apply Forall_cons in Hwf as [(name & value & -> & Hn & Hv) Hwf].
    simpl in Hnd. apply NoDup_cons in Hnd as [Hnotin Hnd].
    rewrite !decide_False; [apply IH; try done| |done|done].
    + intros tag Hin. rewrite lookup_insert_ne; [apply Hfresh; by right|].
      intros Heq. apply Hnotin. simpl. rewrite Heq. apply list_elem_of_fmap. by exists tag.
    + assert (m0 !! name = None) as Hf by (apply (Hfresh [name; value]); by left).
      rewrite Hf. by intros [? ?].
Qed.


Lemma tagPairs_names (tags : list (list string)) :
  Forall wellFormedTag tags -> (tagPairs tags).*1 = tagName <$> tags.
Proof.
  intros Hwf. induction Hwf as [|tag rest (n & v & -> & _) _ IH]; [done|].
  unfold tagPairs in *. simpl. unfold tagName at 1. simpl. by f_equal.
Qed.

Lemma tagsSliceToMap_Ok (tags : list (list string)) (m : gmap string string) :
  tagsSliceToMap tags = Ok m ->
  Forall wellFormedTag tags ∧ NoDup (tagName <$> tags)
  ∧ m = list_to_map (tagPairs tags)
  ∧ ∀ name, is_Some (m !! name) ↔ name ∈ tagName <$> tags.
Proof.
  intros (Hwf & Hnd & _ & ->)%tagsSliceToMap_from_Ok.
  rewrite (right_id_L ∅ (∪)). repeat split; try done.
  - rewrite <- tagPairs_names by done. rewrite <- elem_of_dom, dom_list_to_map_L.
    by rewrite elem_of_list_to_set.
  - rewrite <- tagPairs_names by done. rewrite <- elem_of_dom, dom_list_to_map_L.
    by rewrite elem_of_list_to_set.
Qed.

Lemma tagsSliceToMap_from_app i pre rest m0 m :
  tagsSliceToMap_from i pre m0 = Ok m ->
  tagsSliceToMap_from i (pre ++ rest) m0
  = tagsSliceToMap_from (i + length pre) rest m.
Proof.
  revert i m0. induction pre as [|tag pre IH]; intros i m0; simpl.
  - intros [= <-]. by rewrite Nat.add_0_r.
  - destruct tag as [|name [|value [|c l]]]; try done.
    repeat case_decide; try done. intros Hpre.
    rewrite (IH _ _ Hpre). f_equal. lia.
Qed.

(** X1.  [tagsSliceToMap] accepts exactly the lists of pairs of a non-empty
    name and a non-empty value with pairwise different names; it then gives
    the map of these pairs: each name is mapped to its value, and the map
    has no other key. *)
Theorem tagsSliceToMap_accepts (tags : list (list string)) (m : gmap string string) :
  (tagsSliceToMap tags = Ok m
   ↔ Forall wellFormedTag tags ∧ NoDup (tagName <$> tags)
     ∧ m = list_to_map (tagPairs tags))
  ∧ (tagsSliceToMap tags = Ok m ->
     (∀ name value, [name; value] ∈ tags -> m !! name = Some value)
     ∧ (∀ name, is_Some (m !! name) ↔ name ∈ tagName <$> tags)).
Proof.
  split; [split|].
  - intros (? & ? & ? & _)%tagsSliceToMap_Ok. done.
  - intros (Hwf & Hnd & ->).
    destruct (tagsSliceToMap_from_wf 0 tags ∅ Hwf Hnd) as [m' Hm']; [done|].
    unfold tagsSliceToMap. rewrite Hm'. f_equal.
    apply tagsSliceToMap_from_Ok in Hm' as (_ & _ & _ & ->).
    by rewrite (right_id_L ∅ (∪)).
  - intros (Hwf & Hnd & -> & Hdom)%tagsSliceToMap_Ok. split; [|done].
    intros name value Hin.
    apply elem_of_list_to_map_1; [by rewrite tagPairs_names|].
    unfold tagPairs. apply list_elem_of_omap. by exists [name; value].
Qed.

(** X2.  [tagsSliceToMap] stops at the first tag that is not a pair of a
    non-empty name and a non-empty value, or whose name was used by an
    earlier tag: the error carries the position of that tag, counted from
    1, and says what is wrong with it (the number of entries first, then
    the empty name, then the empty value, then the duplicate); the tags
    after it are not looked at. *)
Theorem tagsSliceToMap_first_error (pre post : list (list string))
    (bad : list string) (m : gmap string string)
    (Hpre : tagsSliceToMap pre = Ok m)
    (Hbad : ¬ wellFormedTag bad ∨ tagName bad ∈ tagName <$> pre) :
  tagsSliceToMap (pre ++ bad :: post) = Err (tagError (length pre + 1) bad).
Proof.
  unfold tagsSliceToMap. rewrite (tagsSliceToMap_from_app _ _ _ _ _ Hpre). simpl.
  apply tagsSliceToMap_Ok in Hpre as (_ & _ & _ & Hdom).
  destruct bad as [|name [|value [|c l]]]; try done. simpl.
  repeat case_decide; try done.
  destruct Hbad as [Hbad|Hbad].
  - destruct Hbad. by exists name, value.
  - apply Hdom in Hbad. done.
Qed.

End tags.

(** ** Tags and node IDs of a mapping *)

Section node_ids.
Import input.

Lemma size_pos_non_empty (m : gmap string string) : (0 < size m)%nat ↔ m ≠ ∅.
Proof.
  rewrite <- map_size_non_empty_iff. lia.
Qed.

(** X3.  The tags of a node come from [default_tags] when it has any, and
    only otherwise from the deprecated [tags] list: with [default_tags], the
    list is not read, so what is wrong in it is not reported; without, the
    mapping is built exactly when [tagsSliceToMap] accepts the list.  The
    tags of the group are overridden by those of the node. *)
Theorem NewNodeMetricMapping_tag_source (name : string) (node : NodeSettings)
    (groupTags : gmap string string) :
  let mapping tags :=
    {| Tag := node; idStr := NodeID node; metricName := name;
       MetricTags := tags ∪ groupTags |} in
  (DefaultTags node ≠ ∅ ->
   NewNodeMetricMapping name node groupTags = Ok (mapping (DefaultTags node)))
  ∧ (DefaultTags node = ∅ ->
     NewNodeMetricMapping name node groupTags =
       match tagsSliceToMap (TagsSlice node) with
       | Ok tags => Ok (mapping tags)
       | Err e => Err e
       end).
Proof.
  intros mapping. unfold NewNodeMetricMapping, nodeTags. split.
  - intros Hd. rewrite decide_True by by apply size_pos_non_empty. simpl.
    unfold mapping. by rewrite !copy_into_union, (right_id_L ∅ (∪)).
  - intros Hd. rewrite decide_False by (rewrite size_pos_non_empty; tauto).
    destruct (TagsSlice node) as [|tag rest] eqn:Hs.
    + simpl. unfold mapping. by rewrite !copy_into_union, (right_id_L ∅ (∪)).
    + rewrite decide_True by (simpl; lia).
      destruct (tagsSliceToMap (tag :: rest)) as [tags|e]; [|done]. simpl.
      unfold mapping. by rewrite !copy_into_union, (right_id_L ∅ (∪)).
Qed.

(** Two splits of one text at the byte [c], after texts without [c],
    agree. *)
Lemma split_at_byte (c : ascii) (v1 v2 r1 r2 : string) :
  has_byte c v1 = false -> has_byte c v2 = false ->
  v1 +:+ String c r1 = v2 +:+ String c r2 -> v1 = v2 ∧ r1 = r2.
Proof.
  revert v2. induction v1 as [|x v1 IH]; intros [|y v2] H1 H2 E.
  - rewrite !app_nil_l_s in E. by simplify_eq.
  - rewrite app_nil_l_s, app_cons in E. simpl in H2.
    apply orb_false_iff in H2 as [Hy _]. apply bool_decide_eq_false in Hy.
    by simplify_eq.
  - rewrite app_nil_l_s, app_cons in E. simpl in H1.
    apply orb_false_iff in H1 as [Hx _]. apply bool_decide_eq_false in Hx.
    by simplify_eq.
  - rewrite !app_cons in E. simpl in H1, H2.
    apply orb_false_iff in H1 as [_ H1]. apply orb_false_iff in H2 as [_ H2].
    injection E as Ec E. subst y. destruct (IH v2 H1 H2 E) as [-> ->]. done.
Qed.

(** X4.  The node ID text [ns=<namespace>;<type>=<identifier>] identifies
    the three settings it is made of, as long as the namespace has no
    semicolon and the identifier type no equals sign. *)
Theorem NodeID_injective (a b : NodeSettings)
    (Hns_a : has_byte ";" (Namespace a) = false)
    (Hns_b : has_byte ";" (Namespace b) = false)
    (Hty_a : has_byte "=" (IdentifierType a) = false)
    (Hty_b : has_byte "=" (IdentifierType b) = false)
    (Hid : NodeID a = NodeID b) :
  Namespace a = Namespace b ∧ IdentifierType a = IdentifierType b
  ∧ Identifier a = Identifier b.
Proof.
  unfold NodeID in Hid.
  apply (inj (String.append "ns=")) in Hid.
  apply split_at_byte in Hid as [Hns Hid]; [|done..].
  apply split_at_byte in Hid as [Hty Hid]; [|done..].
  done.
Qed.

End node_ids.

(** ** Validation of the configuration *)

Section configuration.
Import input.

(** [Validate] as a function of the configuration. *)
Lemma Validate_eq (cfg : InputClientConfig) :
  Validate cfg =
    if decide (MetricName cfg = "")
    then (Done (Some (ErrNew "metric name is empty")), cfg)
    else if decide (Timestamp cfg ∈ [""; "gather"; "server"; "source"])
    then
      let cfg' := set_TimestampFormat (formatOrDefault cfg) cfg in
      if decide (Groups cfg = [] ∧ RootNodes cfg = []
                 ∧ cfg_EventStreamingInput cfg = None)
      then (Done (Some (ErrNew
              "no groups or root nodes or event streaming input provided to gather from")),
            cfg')
      else if decide (Forall (fun g => g_Nodes g ≠ []) (Groups cfg))
      then (Done None, cfg')
      else (Done (Some (ErrNew "group has no nodes to collect from")), cfg')
    else (Done (Some (ErrChoice (Timestamp cfg))), cfg).
Proof.
  unfold Validate, formatOrDefault. rewrite bind_get.
  destruct (decide (MetricName cfg = "")) as [Hm|Hm]; [done|].
  unfold Go.Contains.
  destruct (decide (Timestamp cfg ∈ _)) as [Ht|Ht].
  2:{ by rewrite bool_decide_eq_false_2. }
  rewrite bool_decide_eq_true_2 by done. cbv [negb].
  assert ((if decide (TimestampFormat cfg = "")
           then modify (set_TimestampFormat RFC3339Nano) else ret tt) cfg
          = (Done tt, set_TimestampFormat
               (if decide (TimestampFormat cfg = "") then RFC3339Nano
                else TimestampFormat cfg) cfg)) as Hfmt.
  { destruct (decide (TimestampFormat cfg = "")); [done|]. by destruct cfg. }
  rewrite (bind_eq _ _ _ _ _ Hfmt). cbv zeta.
  destruct (decide (length (Groups cfg) = 0%nat ∧ _)) as [He|He];
    destruct (decide (Groups cfg = [] ∧ _)) as [He'|He']; [done| | |].
  { destruct He'.
    by destruct He as (?%length_zero_iff_nil & ?%length_zero_iff_nil & ?). }
  { destruct He. destruct He' as (Hg & Hr & ?). by rewrite Hg, Hr. }
  destruct (decide (Forall _ (Groups cfg))) as [Hall|Hall].
  - rewrite bool_decide_eq_false_2; [done|].
    intros (g & Hin & Hlen)%Exists_exists. rewrite Forall_forall in Hall.
    apply (Hall g Hin). by apply length_zero_iff_nil.
  - rewrite bool_decide_eq_true_2; [done|].
    apply not_Forall_Exists in Hall; [|apply _].
    eapply Exists_impl; [exact Hall|]. intros g Hg. simpl in Hg.
    destruct (g_Nodes g); [done|]. by destruct Hg.
Qed.

(** X5.  [Validate] accepts a configuration exactly when it has a metric
    name, a timestamp source that is empty or one of gather, server and
    source, something to gather from (a group, a root node or an event
    streaming input) and no group without nodes.  It changes nothing but
    the timestamp format: an accepted configuration has its own format, or
    RFC3339Nano when it had none; validating it again accepts it and
    changes nothing. *)
Theorem Validate_accepts (cfg : InputClientConfig) :
  ∃ r cfg', Validate cfg = (Done r, cfg')
    ∧ (r = None ↔ validConfig cfg)
    ∧ (cfg' = cfg ∨ cfg' = set_TimestampFormat (formatOrDefault cfg) cfg)
    ∧ (r = None ->
       cfg' = set_TimestampFormat (formatOrDefault cfg) cfg
       ∧ TimestampFormat cfg' ≠ ""
       ∧ Validate cfg' = (Done None, cfg')).
Proof.
  assert (∀ c, validConfig c ->
    Validate c = (Done None, set_TimestampFormat (formatOrDefault c) c)) as Hvalid.
  { intros c (Hm & Ht & He & Hg). rewrite Validate_eq.
    rewrite decide_False, decide_True by done. cbv zeta.
    by rewrite decide_False, decide_True by done. }
  rewrite Validate_eq. unfold validConfig.
  destruct (decide (MetricName cfg = "")) as [Hm|Hm].
  { eexists _, _. split; [reflexivity|]. split; [split; [done|tauto]|].
    split; [by left|done]. }
  destruct (decide (Timestamp cfg ∈ _)) as [Ht|Ht].
  2:{ eexists _, _. split; [reflexivity|]. split; [split; [done|tauto]|].
      split; [by left|done]. }
  cbv zeta.
  destruct (decide (Groups cfg = [] ∧ _)) as [He|He].
  { eexists _, _. split; [reflexivity|]. split; [split; [done|tauto]|].
    split; [by right|done]. }
  destruct (decide (Forall _ (Groups cfg))) as [Hg|Hg].
  2:{ eexists _, _. split; [reflexivity|]. split; [split; [done|tauto]|].
      split; [by right|done]. }
  eexists _, _. split; [reflexivity|]. split; [done|]. split; [by right|].
  intros _. split; [done|].
  assert (TimestampFormat (set_TimestampFormat (formatOrDefault cfg) cfg) ≠ "") as Hf.
  { simpl. unfold formatOrDefault. by case_decide. }
  split; [done|].
  rewrite Hvalid by done. f_equal. unfold formatOrDefault at 1.
  rewrite decide_False by done. done.
Qed.

End configuration.

(** ** The build keeps what it does not make *)

Section build.
Import input.

Global Instance mapping_frame_refl : Reflexive mapping_frame.
Proof. intros o. by repeat split. Qed.

Global Instance mapping_frame_trans : Transitive mapping_frame.
Proof.
  intros a b c (?&?&?&?&?&?&?) (?&?&?&?&?&?&?).
  repeat split; try congruence. by etrans.
Qed.

Lemma range_until_frame {S X A E} (R : S -> S -> Prop) `{!Reflexive R, !Transitive R}
    (body : A -> X -> M S (result E A)) :
  (∀ a x s, R s (body a x s).2) ->
  ∀ xs a s, R s (range_until xs a body s).2.
Proof.
  intros Hbody xs. induction xs as [|x xs IH]; intros a s; simpl; [done|].
  unfold bind. specialize (Hbody a x s).
  destruct (body a x s) as [[[a'|e]|f] s']; simpl in *; try done.
  etrans; [exact Hbody|apply IH].
Qed.

Lemma addNode_frame mn gt existing node o :
  mapping_frame o (addNode mn gt existing node o).2.
Proof.
  unfold addNode. destruct (NewNodeMetricMapping _ _ _) as [nmm|e]; [|done].
  destruct (validateNodeToAdd _ _) as [ex|e]; [|done]. run. by repeat split.
Qed.

Lemma addGroup_frame mn existing group o :
  mapping_frame o (addGroup mn existing group o).2.
Proof.
  unfold addGroup.
  set (warn := if decide _ then _ else _).
  assert (mapping_frame o (warn o).2 ∧ ∃ o1, warn o = (Done tt, o1)) as [Hw [o1 Ho1]].
  { subst warn. case_decide; [|split; [done|by eexists]].
    split; [|by eexists]. unfold input.log, modify. simpl.
    repeat split; try done. by apply prefix_app_r. }
  rewrite (bind_eq _ _ _ _ _ Ho1). rewrite Ho1 in Hw. simpl in Hw.
  destruct (groupTags group) as [gt|e]; [|done].
  etrans; [exact Hw|]. apply range_until_frame; [apply _..|].
  intros a x s. apply addNode_frame.
Qed.

Lemma InitNodeMetricMapping_frame o :
  mapping_frame o (InitNodeMetricMapping o).2.
Proof.
  unfold InitNodeMetricMapping. rewrite bind_get. unfold bind at 1.
  pose proof (range_until_frame mapping_frame
    (fun existing node => addNode (MetricName (Config o)) ∅ existing node)
    (fun a x s => addNode_frame _ _ a x s) (RootNodes (Config o)) ∅ o) as H1.
  destruct (range_until (RootNodes (Config o)) _ _ o) as [[[ex|e]|f] o1]; try done.
  unfold bind at 1.
  pose proof (range_until_frame mapping_frame (addGroup (MetricName (Config o)))
    (fun a x s => addGroup_frame _ a x s) (Groups (Config o)) ex o1) as H2.
  destruct (range_until (Groups (Config o)) _ _ o1) as [[[ex2|e]|f] o2]; simpl in *;
    by etrans.
Qed.


Lemma addNode_source o mn gt existing node srcs s :
  BuiltFrom o srcs s ->
  match addNode mn gt existing node s with
  | (Done (Ok _), s') =>
      BuiltFrom o (srcs ++ [ {| ps_name := mn; ps_groupTags := gt; ps_node := node |} ]) s'
  | (Done (Err _), _) => True
  | (Fault _, _) => False
  end.
Proof.
  intros (built & Hm & Hb). unfold addNode.
  destruct (NewNodeMetricMapping mn node gt) as [nmm|e] eqn:Hn; [|done].
  destruct (validateNodeToAdd existing nmm) as [ex|e]; [|done]. run.
  exists (built ++ [nmm])%list. split; [by rewrite Hm, app_assoc|].
  apply Forall2_app; [done|]. by constructor.
Qed.

Lemma addGroup_source o cfg existing group srcs s :
  BuiltFrom o srcs s ->
  match addGroup (MetricName cfg) existing group s with
  | (Done (Ok _), s') => BuiltFrom o (srcs ++ groupSources cfg group) s'
  | (Done (Err _), _) => True
  | (Fault _, _) => False
  end.
Proof.
  intros HB. unfold addGroup.
  set (warn := if decide _ then _ else _).
  assert (∃ s1, warn s = (Done tt, s1) ∧ BuiltFrom o srcs s1) as (s1 & Hw & HB1).
  { subst warn. case_decide; [|by eexists]. eexists. split; [reflexivity|]. done. }
  rewrite (bind_eq _ _ _ _ _ Hw).
  unfold groupSources, groupName.
  destruct (groupTags group) as [gt|e] eqn:Hg; [|done].
  pose proof (range_until_inv
    (fun pre (ex : gset metricParts) s' =>
       BuiltFrom o (srcs ++ ((fun node =>
         {| ps_name := if decide (g_MetricName group = "") then MetricName cfg
                       else g_MetricName group;
            ps_groupTags := gt;
            ps_node := withGroupDefaults group node |}) <$> pre)) s')
    (fun (_ : error) _ => True)
    (fun existing node =>
       addNode (if decide (g_MetricName group = "") then MetricName cfg
                else g_MetricName group) gt existing (withGroupDefaults group node))) as Hr.
  specialize (fun H => Hr H (g_Nodes group) [] existing s1) as Hr. simpl in Hr.
  apply Hr.
  - intros pre a x s' HB'.
    pose proof (addNode_source o
      (if decide (g_MetricName group = "") then MetricName cfg else g_MetricName group)
      gt a (withGroupDefaults group x) _ s' HB') as Hs.
    destruct (addNode _ _ _ _ _) as [[[a'|e]|f] s'']; try done.
    by rewrite fmap_app, app_assoc.
  - by rewrite app_nil_r.
Qed.

Lemma InitNodeMetricMapping_sources o :
  match InitNodeMetricMapping o with
  | (Done None, o') => BuiltFrom o (pointSources (Config o)) o'
  | (Done (Some _), _) => True
  | (Fault _, _) => False
  end.
Proof.
  unfold InitNodeMetricMapping. rewrite bind_get. unfold pointSources.
  pose proof (range_until_inv
    (fun pre (ex : gset metricParts) s' =>
       BuiltFrom o ((fun node => {| ps_name := MetricName (Config o);
                                    ps_groupTags := ∅; ps_node := node |}) <$> pre) s')
    (fun (_ : error) _ => True)
    (fun existing node => addNode (MetricName (Config o)) ∅ existing node)) as Hroots.
  specialize (fun H => Hroots H (RootNodes (Config o)) [] ∅ o) as Hroots. simpl in Hroots.
  unfold bind at 1.
  destruct (range_until (RootNodes (Config o)) _ _ o) as [[[ex|e]|f] o1] eqn:Hrun.
  2:{ done. }
  2:{ apply Hroots.
      - intros pre a x s' HB'.
        pose proof (addNode_source o (MetricName (Config o)) ∅ a x _ s' HB') as Hs.
        destruct (addNode _ _ _ _ _) as [[[a'|e]|f'] s'']; try done.
        by rewrite fmap_app.
      - exists []. by rewrite app_nil_r. }
  assert (BuiltFrom o ((fun node => {| ps_name := MetricName (Config o);
                                       ps_groupTags := ∅; ps_node := node |})
                         <$> RootNodes (Config o)) o1) as HB.
  { apply Hroots.
    - intros pre a x s' HB'.
      pose proof (addNode_source o (MetricName (Config o)) ∅ a x _ s' HB') as Hs.
      destruct (addNode _ _ _ _ _) as [[[a'|e]|f'] s'']; try done.
      by rewrite fmap_app.
    - exists []. by rewrite app_nil_r. }
  pose proof (range_until_inv
    (fun pre (ex : gset metricParts) s' =>
       BuiltFrom o (((fun node => {| ps_name := MetricName (Config o);
                                     ps_groupTags := ∅; ps_node := node |})
                       <$> RootNodes (Config o))
                    ++ concat (groupSources (Config o) <$> pre)) s')
    (fun (_ : error) _ => True)
    (addGroup (MetricName (Config o)))) as Hgroups.
  specialize (fun H => Hgroups H (Groups (Config o)) [] ex o1) as Hgroups.
  simpl in Hgroups. rewrite app_nil_r in Hgroups.
  unfold bind at 1.
  destruct (range_until (Groups (Config o)) _ _ o1) as [[[ex2|e]|f] o2];
    try done; apply Hgroups; try done;
    intros pre a x s' HB';
    pose proof (addGroup_source o (Config o) a x _ s' HB') as Hs;
    destruct (addGroup _ _ _ _) as [[[a'|e']|f'] s'']; try done;
    by rewrite fmap_app, concat_app, app_assoc; simpl; rewrite app_nil_r.
Qed.

End build.

(** ** Creation of the client *)

Section create.
Import input.

Lemma Validate_valid (cfg : InputClientConfig) :
  validConfig cfg ->
  Validate cfg = (Done None, set_TimestampFormat (formatOrDefault cfg) cfg).
Proof.
  intros (Hm & Ht & He & Hg). rewrite Validate_eq.
  rewrite decide_False, decide_True by done. cbv zeta.
  by rewrite decide_False, decide_True by done.
Qed.

Lemma Validate_invalid (cfg : InputClientConfig) :
  ¬ validConfig cfg -> ∃ err cfg', Validate cfg = (Done (Some err), cfg').
Proof.
  intros Hn. rewrite Validate_eq. unfold validConfig in Hn.
  repeat case_decide; try by eexists _, _. tauto.
Qed.

(** X6.  Built from a configuration, [InitNodeMetricMapping] appends one
    mapping per point, in the order of the configuration: the root nodes
    under the metric name of the plugin, then the nodes of each group under
    the name of the group, or of the plugin when the group has none, with
    the tags of the group as defaults; each mapping is what
    [NewNodeMetricMapping] makes of its point, and its id is the node ID of
    its settings.  Apart from the mappings and the log the client is left
    as it was, also when the build fails. *)
Theorem InitNodeMetricMapping_builds (o : OpcUAInputClient) :
  match InitNodeMetricMapping o with
  | (Done None, o') =>
      ∃ built,
        NodeMetricMappings o' = (NodeMetricMappings o ++ built)%list
        ∧ Forall2 builtFrom (pointSources (Config o)) built
        ∧ metricName <$> built = ps_name <$> pointSources (Config o)
        ∧ Forall (fun a => idStr a = NodeID (Tag a)) built
        ∧ mapping_frame o o'
  | (Done (Some _), o') => mapping_frame o o'
  | (Fault _, _) => False
  end.
Proof.
  pose proof (InitNodeMetricMapping_sources o) as Hs.
  pose proof (InitNodeMetricMapping_frame o) as Hf.
  destruct (InitNodeMetricMapping o) as [[[e|]|f] o']; try done.
  destruct Hs as (built & Hm & Hb). exists built.
  split; [done|]. split; [done|]. split; [|split; [|done]].
  - clear Hm. induction Hb as [|src a srcs ms Hsa _ IH]; [done|]. simpl. f_equal; [|done].
    unfold builtFrom, NewNodeMetricMapping in Hsa.
    destruct (nodeTags _); [|done]. by injection Hsa as <-.
  - clear Hm. induction Hb as [|src a srcs ms Hsa _ IH]; [done|]. constructor; [|done].
    unfold builtFrom, NewNodeMetricMapping in Hsa.
    destruct (nodeTags _); [|done]. by injection Hsa as <-.
Qed.

Lemma ValidateEvents_IsSet (e : OpcUAEventStreamingInput) :
  ValidateEvents e = None -> IsSet (Some e) = true.
Proof.
  unfold ValidateEvents. destruct (decide (Interval e <= 0)); [done|]. intros _.
  unfold IsSet. rewrite (bool_decide_eq_true_2 (0 < Interval e)) by lia. reflexivity.
Qed.

(** [CreateInputClient] on a valid configuration. *)
Lemma CreateInputClient_eq (cfg : InputClientConfig)
    (opcClient : result error (ua.StatusCode -> bool)) (log0 : list telegraf.entry) :
  validConfig cfg ->
  CreateInputClient cfg opcClient log0 =
    let o := set_TimestampFormat (formatOrDefault cfg) cfg in
    let checked :=
      match keptEventInput cfg with
      | Some e =>
          match ValidateEvents e with
          | Some err => Err (ErrInvalidEventInput err)
          | None => Ok (Some e)
          end
      | None => Ok None
      end in
    match checked with
    | Err err => (Done (Err err), log0)
    | Ok eventStreamingInput =>
        let log1 := (log0 ++ [ {| telegraf.e_level := telegraf.LDebug;
                                  telegraf.e_format := "Initialising OpcUAInputClient";
                                  telegraf.e_args := [] |} ])%list in
        match opcClient with
        | Err err => (Done (Err err), log1)
        | Ok statusCodeOK =>
            let c := {| StatusCodeOK := statusCodeOK;
                        Config := o;
                        Log := (log1 ++ [ {| telegraf.e_level := telegraf.LDebug;
                                             telegraf.e_format := "Initialising node to metric mapping";
                                             telegraf.e_args := [] |} ])%list;
                        NodeMetricMappings := [];
                        NodeIDs := [];
                        LastReceivedData := [];
                        EventStreamingInput := eventStreamingInput;
                        EventClientHandle := ∅ |} in
            match InitNodeMetricMapping c with
            | (Fault f, c) => (Fault f, Log c)
            | (Done (Some err), c) => (Done (Err err), Log c)
            | (Done None, c) =>
                (Done (Ok (set_LastReceivedData (emptySlot <$> NodeMetricMappings c) c)),
                 Log c)
            end
        end
    end.
Proof.
  intros Hv. unfold CreateInputClient. rewrite (Validate_valid _ Hv).
  unfold keptEventInput. simpl.
  destruct (cfg_EventStreamingInput cfg) as [e|] eqn:He; simpl; [|done].
  destruct (_ || _); [|done]. done.
Qed.


(** The client [CreateInputClient] gives, and its log. *)
Lemma CreateInputClient_created (cfg : InputClientConfig)
    (opcClient : result error (ua.StatusCode -> bool)) (log0 : list telegraf.entry) :
  match CreateInputClient cfg opcClient log0 with
  | (Done (Ok c), l) =>
      validConfig cfg
      ∧ Config c = set_TimestampFormat (formatOrDefault cfg) cfg
      ∧ opcClient = Ok (StatusCodeOK c)
      ∧ Forall2 builtFrom (pointSources (Config c)) (NodeMetricMappings c)
      ∧ LastReceivedData c = emptySlot <$> NodeMetricMappings c
      ∧ NodeIDs c = [] ∧ EventClientHandle c = ∅
      ∧ l = Log c ∧ log0 `prefix_of` l
  | (Done (Err _), l) => log0 `prefix_of` l ∧ (¬ validConfig cfg -> l = log0)
  | (Fault _, _) => False
  end.
Proof.
  destruct (decide (validConfig cfg)) as [Hv|Hv].
  2:{ destruct (Validate_invalid cfg Hv) as (err & cfg' & Hrun).
      unfold CreateInputClient. rewrite Hrun. done. }
  rewrite (CreateInputClient_eq _ _ _ Hv). cbv zeta.
  destruct (match keptEventInput cfg with Some _ => _ | None => _ end) as [ev|e];
    [|done].
  destruct opcClient as [ok|e].
  2:{ split; [by apply prefix_app_r|done]. }
  match goal with
  | |- context [InitNodeMetricMapping ?c] =>
      pose proof (InitNodeMetricMapping_sources c) as Hs;
      pose proof (InitNodeMetricMapping_frame c) as Hf;
      destruct (InitNodeMetricMapping c) as [[[e|]|f] c1]; try done
  end.
  - destruct Hf as (_ & _ & _ & _ & _ & _ & Hl). simpl in Hl. split; [|done].
    etrans; [|exact Hl]. rewrite <- app_assoc. by apply prefix_app_r.
  - destruct Hs as (built & Hm & Hb). simpl in Hm.
    destruct Hf as (Hok & Hc & Hn & _ & _ & He & Hl). simpl in *.
    split; [done|]. split; [done|]. split; [by rewrite Hok|].
    split; [by rewrite Hc, Hm|]. split; [done|]. split; [done|]. split; [done|].
    split; [done|].
    etrans; [|exact Hl]. rewrite <- app_assoc. by apply prefix_app_r.
Qed.

(** X7.  A client is created only from a configuration that [Validate]
    accepts.  It holds that configuration with the timestamp format filled
    in, the mappings of all its points, and one cache slot per mapping, in
    the same order, with the field name of the mapping, a nil value, the
    status 0 and zero times; its list of node IDs and its event handles are
    still empty.  The log only grows, and a configuration that is not valid
    is rejected before anything is logged. *)
Theorem CreateInputClient_fresh_client (cfg : InputClientConfig)
    (opcClient : result error (ua.StatusCode -> bool)) (log0 : list telegraf.entry) :
  match CreateInputClient cfg opcClient log0 with
  | (Done (Ok c), l) =>
      validConfig cfg
      ∧ Config c = set_TimestampFormat (formatOrDefault cfg) cfg
      ∧ opcClient = Ok (StatusCodeOK c)
      ∧ Forall2 builtFrom (pointSources (Config c)) (NodeMetricMappings c)
      ∧ LastReceivedData c = emptySlot <$> NodeMetricMappings c
      ∧ NodeIDs c = [] ∧ EventClientHandle c = ∅
      ∧ l = Log c ∧ log0 `prefix_of` l
  | (Done (Err _), l) => log0 `prefix_of` l ∧ (¬ validConfig cfg -> l = log0)
  | (Fault _, _) => False
  end.
Proof. apply CreateInputClient_created. Qed.

(** X8.  The event streaming input of a configuration is taken into the
    client only when one of its options is set, and then only when it is
    valid: it is validated after the configuration itself and before the
    protocol client is made, and an invalid one fails the creation with the
    wrapped error and nothing logged.  An input that passes the validation
    always has an option set.  An input with no option set is dropped
    without an error: a valid configuration with nothing else to gather
    from gives a client with no mapping and no event streaming input. *)
Theorem CreateInputClient_event_input (cfg : InputClientConfig)
    (opcClient : result error (ua.StatusCode -> bool)) (log0 : list telegraf.entry) :
  (∀ e, ValidateEvents e = None -> IsSet (Some e) = true)
  ∧ (∀ c l, CreateInputClient cfg opcClient log0 = (Done (Ok c), l) ->
       EventStreamingInput c = keptEventInput cfg
       ∧ ∀ e, EventStreamingInput c = Some e ->
              cfg_EventStreamingInput cfg = Some e ∧ ValidateEvents e = None)
  ∧ (∀ e err, validConfig cfg -> keptEventInput cfg = Some e ->
       ValidateEvents e = Some err ->
       CreateInputClient cfg opcClient log0
       = (Done (Err (ErrInvalidEventInput err)), log0))
  ∧ (∀ ok, validConfig cfg -> opcClient = Ok ok ->
       Groups cfg = [] -> RootNodes cfg = [] -> keptEventInput cfg = None ->
       ∃ c l, CreateInputClient cfg opcClient log0 = (Done (Ok c), l)
              ∧ NodeMetricMappings c = [] ∧ EventStreamingInput c = None).
Proof.
  split; [apply ValidateEvents_IsSet|]. split; [|split].
  - intros c l Hrun.
    destruct (decide (validConfig cfg)) as [Hv|Hv].
    2:{ destruct (Validate_invalid cfg Hv) as (err & cfg' & Hrun').
        unfold CreateInputClient in Hrun. by rewrite Hrun' in Hrun. }
    rewrite (CreateInputClient_eq _ _ _ Hv) in Hrun. cbv zeta in Hrun.
    assert (∀ e, keptEventInput cfg = Some e -> cfg_EventStreamingInput cfg = Some e)
      as Hkept.
    { intros e. unfold keptEventInput. by destruct (IsSet _). }
    destruct (keptEventInput cfg) as [e|] eqn:Hk.
    + destruct (ValidateEvents e) as [err|] eqn:He; [done|].
      destruct opcClient as [ok|err]; [|done].
      match type of Hrun with
      | context [InitNodeMetricMapping ?c0] =>
          pose proof (InitNodeMetricMapping_frame c0) as Hf;
          destruct (InitNodeMetricMapping c0) as [[[err|]|f] c1]; try done
      end.
      destruct Hf as (_ & _ & _ & _ & Hev & _). simpl in Hev.
      injection Hrun as <- <-. simpl. rewrite Hev. split; [done|].
      intros e' [= <-]. split; [by apply Hkept|done].
    + destruct opcClient as [ok|err]; [|done].
      match type of Hrun with
      | context [InitNodeMetricMapping ?c0] =>
          pose proof (InitNodeMetricMapping_frame c0) as Hf;
          destruct (InitNodeMetricMapping c0) as [[[err|]|f] c1]; try done
      end.
      destruct Hf as (_ & _ & _ & _ & Hev & _). simpl in Hev.
      injection Hrun as <- <-. simpl. rewrite Hev. done.
  - intros e err Hv Hk He. rewrite (CreateInputClient_eq _ _ _ Hv). cbv zeta.
    by rewrite Hk, He.
  - intros ok Hv -> Hg Hr Hk. rewrite (CreateInputClient_eq _ _ _ Hv). cbv zeta.
    rewrite Hk. unfold InitNodeMetricMapping. rewrite bind_get. simpl.
    rewrite Hg, Hr. simpl. eexists _, _. split; [reflexivity|]. done.
Qed.

End create.

(** ** The claims on the mapping build *)

Section build_claims.
Import input.

Lemma newMP_same_parts (a b : NodeMetricMapping) :
  metricName a = metricName b -> FieldName (Tag a) = FieldName (Tag b) ->
  MetricTags a = MetricTags b -> newMP a = newMP b.
Proof. intros Hm Hf Ht. unfold newMP, newMP_from. by rewrite Hm, Hf, Ht. Qed.

(** A build that accepts the configuration holds no two mappings with the
    same measurement name, field name and merged tags. *)
Lemma accepted_points_differ (o o' : OpcUAInputClient) :
  NodeMetricMappings o = [] ->
  InitNodeMetricMapping o = (Done None, o') ->
  ∀ i j a b, i ≠ j ->
    NodeMetricMappings o' !! i = Some a -> NodeMetricMappings o' !! j = Some b ->
    ¬ (metricName a = metricName b ∧ FieldName (Tag a) = FieldName (Tag b)
       ∧ MetricTags a = MetricTags b).
Proof.
  intros Hnew Hrun i j a b Hij Ha Hb (Hm & Hf & Ht).
  pose proof (InitNodeMetricMapping_spec o Hnew) as Hspec. rewrite Hrun in Hspec.
  destruct Hspec as (_ & Hnd & _). apply Hij.
  apply (NoDup_lookup _ i j (newMP a) Hnd).
  - by rewrite list_lookup_fmap, Ha.
  - rewrite list_lookup_fmap, Hb. simpl. f_equal. by apply newMP_same_parts.
Qed.

(** Two valid points with the same tag names and comma-free tag values that
    differ in a tag value are both accepted. *)
Lemma comma_free_accepted (a b : NodeMetricMapping) (ex : gset metricParts) :
  validateNodeToAdd ∅ a = Ok ex ->
  dom (MetricTags a) = dom (MetricTags b) ->
  comma_free (MetricTags a) -> comma_free (MetricTags b) ->
  MetricTags a ≠ MetricTags b ->
  structurallyValid (Tag b) ->
  validateNodeToAdd ex b = Ok ({[ newMP b ]} ∪ ex).
Proof.
  intros Ha Hd Ca Cb Hne Hvalid.
  apply validate_Ok in Ha as (-> & _ & _).
  apply validate_fresh; [done|].
  intros Hin. apply Hne. apply newMP_tags_inj; try done.
  assert (newMP b = newMP a) as Hk by set_solver. by rewrite Hk.
Qed.

Lemma runSteps_app (ex : gset metricParts) (a b : list buildStep) :
  runSteps ex (a ++ b) =
    match runSteps ex a with
    | (built, Err e) => (built, Err e)
    | (built, Ok ex1) => let (more, r) := runSteps ex1 b in ((built ++ more)%list, r)
    end.
Proof.
  revert ex. induction a as [|step a IH]; intros ex; simpl.
  - by destruct (runSteps ex b).
  - destruct (stepResult ex step) as [[built ex1]|e]; [|done].
    rewrite IH. destruct (runSteps ex1 a) as [m [ex2|e]]; [|done].
    destruct (runSteps ex2 b) as [m2 r]. by rewrite app_assoc.
Qed.

(** The steps after the first that fails are not looked at. *)
Lemma runSteps_first_error (ex ex1 : gset metricParts) (pre post : list buildStep)
    (step : buildStep) (built : list NodeMetricMapping) (e : error) :
  runSteps ex pre = (built, Ok ex1) -> stepResult ex1 step = Err e ->
  runSteps ex (pre ++ step :: post) = (built, Err e).
Proof.
  intros Hp Hs. rewrite runSteps_app, Hp. simpl. rewrite Hs. by rewrite app_nil_r.
Qed.

(** The keys after steps that passed are the keys of their mappings. *)
Lemma runSteps_keys (ex ex1 : gset metricParts) (steps : list buildStep)
    (built : list NodeMetricMapping) :
  runSteps ex steps = (built, Ok ex1) -> ex1 = keysOf built ∪ ex.
Proof.
  revert ex built. induction steps as [|step steps IH]; intros ex built; simpl.
  - intros [= <- <-]. unfold keysOf. simpl. set_solver.
  - destruct (stepResult ex step) as [[b ex2]|e] eqn:Hs; [|done].
    destruct (runSteps ex2 steps) as [more r] eqn:Hr. intros [= <- ->].
    rewrite (IH _ _ Hr). destruct step as [g|src]; simpl in Hs.
    + destruct (groupTags g); [|done]. simpl in Hs. by injection Hs as <- <-.
    + destruct (NewNodeMetricMapping _ _ _) as [nmm|]; [|done]. simpl in Hs.
      destruct (validateNodeToAdd ex nmm) as [ex3|] eqn:Hv; [|done]. simpl in Hs.
      injection Hs as <- <-. apply validate_Ok in Hv as (-> & _ & _).
      unfold keysOf. simpl. set_solver.
Qed.

Lemma addNode_run (mn : string) (gt : gmap string string)
    (ex : gset metricParts) (node : NodeSettings) (o : OpcUAInputClient) :
  addNode mn gt ex node o =
    match stepResult ex (Point {| ps_name := mn; ps_groupTags := gt;
                                  ps_node := node |}) with
    | Ok (built, ex') =>
        (Done (Ok ex'), set_NodeMetricMappings (NodeMetricMappings o ++ built) o)
    | Err e => (Done (Err e), o)
    end.
Proof.
  unfold addNode. simpl.
  destruct (NewNodeMetricMapping mn node gt) as [nmm|e]; simpl; [|done].
  by destruct (validateNodeToAdd ex nmm).
Qed.

(** The loop over the points of the root or of a group is the run of their
    steps. *)
Lemma points_run (mn : string) (gt : gmap string string)
    (w : NodeSettings -> NodeSettings) (xs : list NodeSettings)
    (ex : gset metricParts) (o : OpcUAInputClient) :
  let p := runSteps ex
             (Point <$> ((fun node => {| ps_name := mn; ps_groupTags := gt;
                                         ps_node := w node |}) <$> xs)) in
  ∃ o', range_until xs ex (fun ex node => addNode mn gt ex (w node)) o = (Done p.2, o')
        ∧ NodeMetricMappings o' = (NodeMetricMappings o ++ p.1)%list.
Proof.
  cbv zeta. revert ex o. induction xs as [|x xs IH]; intros ex o.
  - exists o. simpl. by rewrite app_nil_r.
  - cbn [range_until fmap list_fmap runSteps]. unfold bind at 1. rewrite addNode_run.
    destruct (stepResult ex _) as [[built ex1]|e].
    2:{ exists o. simpl. by rewrite app_nil_r. }
    destruct (IH ex1 (set_NodeMetricMappings (NodeMetricMappings o ++ built) o))
      as (o' & Hrun & Hm).
    exists o'. rewrite Hrun. destruct (runSteps ex1 _) as [more r]. simpl in *.
    split; [done|]. by rewrite Hm, <- app_assoc.
Qed.

Lemma group_run (cfg : InputClientConfig) (g : NodeGroupSettings)
    (ex : gset metricParts) (o : OpcUAInputClient) :
  let p := runSteps ex (groupSteps cfg g) in
  ∃ o', addGroup (MetricName cfg) ex g o = (Done p.2, o')
        ∧ NodeMetricMappings o' = (NodeMetricMappings o ++ p.1)%list.
Proof.
  unfold addGroup, groupSteps, groupSources, groupName.
  set (warn := if decide _ then _ else _).
  assert (∃ o1, warn o = (Done tt, o1) ∧ NodeMetricMappings o1 = NodeMetricMappings o)
    as (o1 & Hw & Ho1).
  { subst warn. case_decide; [|by eexists]. eexists. split; [reflexivity|]. done. }
  rewrite (bind_eq _ _ _ _ _ Hw). simpl.
  destruct (groupTags g) as [gt|e]; simpl.
  2:{ exists o1. by rewrite app_nil_r. }
  destruct (points_run
    (if decide (g_MetricName g = "") then MetricName cfg else g_MetricName g)
    gt (withGroupDefaults g) (g_Nodes g) ex o1) as (o' & Hrun & Hm).
  exists o'. rewrite Hrun. destruct (runSteps ex _) as [more r]. simpl in *.
  split; [done|]. by rewrite Hm, Ho1.
Qed.

Lemma groups_run (cfg : InputClientConfig) (gs : list NodeGroupSettings)
    (ex : gset metricParts) (o : OpcUAInputClient) :
  let p := runSteps ex (concat (groupSteps cfg <$> gs)) in
  ∃ o', range_until gs ex (addGroup (MetricName cfg)) o = (Done p.2, o')
        ∧ NodeMetricMappings o' = (NodeMetricMappings o ++ p.1)%list.
Proof.
  revert ex o. induction gs as [|g gs IH]; intros ex o.
  - exists o. simpl. by rewrite app_nil_r.
  - cbn [fmap list_fmap concat range_until]. rewrite runSteps_app.
    destruct (group_run cfg g ex o) as (o1 & Hrun & Hm). cbv zeta in Hrun, Hm.
    rewrite (bind_eq _ _ _ _ _ Hrun).
    destruct (runSteps ex (groupSteps cfg g)) as [built [ex1|e]]; simpl in *.
    + destruct (IH ex1 o1) as (o' & Hrun' & Hm'). cbv zeta in Hrun', Hm'.
      exists o'. rewrite Hrun'. destruct (runSteps ex1 _) as [more r]. simpl in *.
      split; [done|]. by rewrite Hm', Hm, <- app_assoc.
    + by exists o1.
Qed.

(** The build is the run of the steps of its configuration: it returns the
    error of the first step that fails, or none, and appends the mappings
    of the steps that passed. *)
Lemma InitNodeMetricMapping_run (o : OpcUAInputClient) :
  let p := runSteps ∅ (buildSteps (Config o)) in
  ∃ o', InitNodeMetricMapping o
        = (Done (match p.2 with Ok _ => None | Err e => Some e end), o')
        ∧ NodeMetricMappings o' = (NodeMetricMappings o ++ p.1)%list.
Proof.
  unfold InitNodeMetricMapping, buildSteps. rewrite bind_get. rewrite runSteps_app.
  destruct (points_run (MetricName (Config o)) ∅ (fun node => node)
              (RootNodes (Config o)) ∅ o) as (o1 & Hrun & Hm).
  cbv zeta in Hrun, Hm. rewrite (bind_eq _ _ _ _ _ Hrun).
  destruct (runSteps ∅ (Point <$> _)) as [built [ex1|e]]; simpl in *.
  2:{ by exists o1. }
  destruct (groups_run (Config o) (Groups (Config o)) ex1 o1) as (o2 & Hrun' & Hm').
  cbv zeta in Hrun', Hm'. rewrite (bind_eq _ _ _ _ _ Hrun').
  destruct (runSteps ex1 _) as [more [ex2|e]]; simpl in *;
    exists o2; (split; [done|]); by rewrite Hm', Hm, <- app_assoc.
Qed.

(** A point with non-empty names whose key is the key of a mapping of an
    earlier point ends the build with the duplicate error that names its
    field name, its measurement name and its tag text. *)
Lemma build_duplicate (o : OpcUAInputClient) (pre post : list buildStep)
    (src : pointSource) (built : list NodeMetricMapping) (ex : gset metricParts)
    (a b : NodeMetricMapping) :
  buildSteps (Config o) = (pre ++ Point src :: post)%list ->
  runSteps ∅ pre = (built, Ok ex) ->
  builtFrom src b ->
  FieldName (Tag b) ≠ "" -> Namespace (Tag b) ≠ "" -> Identifier (Tag b) ≠ "" ->
  a ∈ built -> newMP a = newMP b ->
  ∃ o', InitNodeMetricMapping o
        = (Done (Some (ErrDuplicated (FieldName (Tag b)) (metricName b)
                         (mp_tags (newMP b)))), o').
Proof.
  intros Hsteps Hpre Hb Hf Hn Hi Ha Hk.
  destruct (InitNodeMetricMapping_run o) as (o' & Hrun & Hm). cbv zeta in Hrun, Hm.
  assert (stepResult ex (Point src)
          = Err (ErrDuplicated (FieldName (Tag b)) (metricName b) (mp_tags (newMP b))))
    as Hstep.
  { unfold builtFrom in Hb. simpl. rewrite Hb. simpl.
    rewrite validate_duplicate; [done..|].
    rewrite (runSteps_keys _ _ _ _ Hpre). apply elem_of_union_l.
    unfold keysOf. apply elem_of_list_to_set, list_elem_of_fmap.
    exists a. by split. }
  rewrite Hsteps, (runSteps_first_error _ _ _ _ _ _ _ Hpre Hstep) in Hrun.
  by exists o'.
Qed.

(** The result of [CreateInputClient], by what fails first. *)
Lemma CreateInputClient_run (cfg : InputClientConfig)
    (opcClient : result error (ua.StatusCode -> bool)) (log0 : list telegraf.entry) :
  match CreateInputClient cfg opcClient log0 with
  | (Done (Ok c), _) =>
      ∃ ex, runSteps ∅ (buildSteps cfg) = (NodeMetricMappings c, Ok ex)
  | (Done (Err e), _) =>
      ¬ validConfig cfg
      ∨ (validConfig cfg
         ∧ ((∃ ev err, keptEventInput cfg = Some ev ∧ ValidateEvents ev = Some err
                       ∧ e = ErrInvalidEventInput err)
            ∨ ((∀ ev, keptEventInput cfg = Some ev -> ValidateEvents ev = None)
               ∧ (opcClient = Err e
                  ∨ (∃ ok built, opcClient = Ok ok
                       ∧ runSteps ∅ (buildSteps cfg) = (built, Err e))))))
  | (Fault _, _) => False
  end.
Proof.
  destruct (decide (validConfig cfg)) as [Hv|Hv].
  2:{ destruct (Validate_invalid cfg Hv) as (err & cfg' & Hrun).
      unfold CreateInputClient. rewrite Hrun. by left. }
  rewrite (CreateInputClient_eq _ _ _ Hv). cbv zeta.
  assert ((∃ ev err, keptEventInput cfg = Some ev ∧ ValidateEvents ev = Some err
                     ∧ match keptEventInput cfg with
                       | Some e => match ValidateEvents e with
                                   | Some err => Err (ErrInvalidEventInput err)
                                   | None => Ok (Some e)
                                   end
                       | None => Ok None
                       end = Err (ErrInvalidEventInput err))
          ∨ ((∀ ev, keptEventInput cfg = Some ev -> ValidateEvents ev = None)
             ∧ match keptEventInput cfg with
               | Some e => match ValidateEvents e with
                           | Some err => Err (ErrInvalidEventInput err)
                           | None => Ok (Some e)
                           end
               | None => Ok None
               end = Ok (keptEventInput cfg))) as [(ev & err & Hk & He & ->)|[Hev ->]].
  { destruct (keptEventInput cfg) as [ev|]; [|right; by split].
    destruct (ValidateEvents ev) as [err|] eqn:He.
    - left. by exists ev, err.
    - right. split; [|done]. by intros ? [= <-]. }
  { right. split; [done|]. left. by exists ev, err. }
  destruct opcClient as [ok|e].
  2:{ right. split; [done|]. right. split; [done|]. by left. }
  match goal with
  | |- context [InitNodeMetricMapping ?c] =>
      destruct (InitNodeMetricMapping_run c) as (c1 & Hrun & Hm)
  end.
  cbv zeta in Hrun, Hm. cbn [Config NodeMetricMappings app] in Hrun, Hm.
  change (buildSteps (set_TimestampFormat (formatOrDefault cfg) cfg))
    with (buildSteps cfg) in Hrun, Hm.
  rewrite Hrun.
  destruct (runSteps ∅ (buildSteps cfg)) as [built [ex|e]]; simpl in *.
  - exists ex. by rewrite Hm.
  - right. split; [done|]. right. split; [done|]. right. by exists ok, built.
Qed.

(** C1.  A value of a tag that holds the text that separates two tags is
    taken for two tags: the point with the one tag [a] of value [1, b=2]
    and the point with the tags [a] of value [1] and [b] of value [2] have
    the same measurement and field name and get the same tag text
    [a=1, b=2], so that the build, and with it the creation of the client,
    rejects the second as a duplicate of the first, although each of the
    two points alone is accepted.  The same happens to two points with the
    same tag names that differ in the value of each tag. *)
Theorem C1_distinct_tags_rejected :
  let m1 := sample_node "temp" "3" "s" "T1" {[ "a" := "1, b=2" ]} in
  let m2 := sample_node "temp" "3" "s" "T2" (<[ "a" := "1" ]> {[ "b" := "2" ]}) in
  let n1 := sample_node "temp" "3" "s" "T1" (<[ "a" := "" ]> {[ "b" := ", b=" ]}) in
  let n2 := sample_node "temp" "3" "s" "T2" (<[ "a" := ", b=" ]> {[ "b" := "" ]}) in
  (DefaultTags m1 !! "a" = Some "1, b=2" ∧ DefaultTags m2 !! "a" = Some "1"
   ∧ (InitNodeMetricMapping (sample_new_client [m1])).1 = Done None
   ∧ (InitNodeMetricMapping (sample_new_client [m2])).1 = Done None
   ∧ (InitNodeMetricMapping (sample_new_client [m1; m2])).1
     = Done (Some (ErrDuplicated "temp" "opcua" "a=1, b=2"))
   ∧ (CreateInputClient (sample_config [m1; m2] []) (Ok sample_ok) []).1
     = Done (Err (ErrDuplicated "temp" "opcua" "a=1, b=2")))
  ∧ (DefaultTags n1 !! "a" = Some "" ∧ DefaultTags n2 !! "a" = Some ", b="
     ∧ DefaultTags n1 !! "b" = Some ", b=" ∧ DefaultTags n2 !! "b" = Some ""
     ∧ (InitNodeMetricMapping (sample_new_client [n1])).1 = Done None
     ∧ (InitNodeMetricMapping (sample_new_client [n2])).1 = Done None
     ∧ (InitNodeMetricMapping (sample_new_client [n1; n2])).1
       = Done (Some (ErrDuplicated "temp" "opcua" "a=, b=, b="))
     ∧ (CreateInputClient (sample_config [n1; n2] []) (Ok sample_ok) []).1
       = Done (Err (ErrDuplicated "temp" "opcua" "a=, b=, b="))).
Proof. vm_compute. repeat split. Qed.

(** C2, as the code has it.  A point is checked for an empty field name,
    then an empty namespace, then an empty identifier, then for a key that
    is already taken, and only then for its identifier type (one of i, s,
    g, b, with an integer parse for i); so a point with non-empty names
    whose key collides is reported as a duplicate whatever its identifier
    type, by the validation and by the build.  The first step of the build
    that fails, be it a root point, the tags of a group or a point of a
    group, ends the build with its error and with the mappings of the steps
    before it; when every step passes the build returns no error and has
    appended the mappings of all points.  The creation of a client returns
    the error of the first step that fails and no client; a client that is
    created holds the mappings of all the steps of its configuration, which
    are valid, and the creation fails only for a configuration that is not
    valid, an event streaming input that is not valid, an error of the
    library or the error of a step of the build. *)
Theorem C2_validation_order (existing : gset metricParts) (nmm : NodeMetricMapping) :
  let node := Tag nmm in
  match validateNodeToAdd existing nmm with
  | Ok existing' =>
      structurallyValid node ∧ (newMP nmm ∉ existing)
      ∧ existing' = {[ newMP nmm ]} ∪ existing
  | Err (ErrEmptyName _) => FieldName node = ""
  | Err ErrEmptyNamespace => FieldName node ≠ "" ∧ Namespace node = ""
  | Err ErrEmptyIdentifier =>
      FieldName node ≠ "" ∧ Namespace node ≠ "" ∧ Identifier node = ""
  | Err (ErrDuplicated f m t) =>
      FieldName node ≠ "" ∧ Namespace node ≠ "" ∧ Identifier node ≠ ""
      ∧ newMP nmm ∈ existing
      ∧ newMP nmm = {| mp_metricName := m; mp_fieldName := f; mp_tags := t |}
  | Err (ErrIdentifierMismatch _ _) | Err (ErrInvalidIdentifierType _ _) =>
      FieldName node ≠ "" ∧ Namespace node ≠ "" ∧ Identifier node ≠ ""
      ∧ (newMP nmm ∉ existing) ∧ ¬ identifierTypeOK node
  | Err _ => False
  end
  ∧ (FieldName node ≠ "" -> Namespace node ≠ "" -> Identifier node ≠ "" ->
     newMP nmm ∈ existing ->
     validateNodeToAdd existing nmm =
       Err (ErrDuplicated (FieldName node) (metricName nmm) (mp_tags (newMP nmm))))
  ∧ (∀ (o : OpcUAInputClient) pre step post built ex e,
       buildSteps (Config o) = (pre ++ step :: post)%list ->
       runSteps ∅ pre = (built, Ok ex) ->
       stepResult ex step = Err e ->
       ∃ o', InitNodeMetricMapping o = (Done (Some e), o')
             ∧ NodeMetricMappings o' = (NodeMetricMappings o ++ built)%list)
  ∧ (∀ (o : OpcUAInputClient) pre src post built ex a b,
       buildSteps (Config o) = (pre ++ Point src :: post)%list ->
       runSteps ∅ pre = (built, Ok ex) ->
       builtFrom src b ->
       FieldName (Tag b) ≠ "" -> Namespace (Tag b) ≠ "" -> Identifier (Tag b) ≠ "" ->
       a ∈ built -> newMP a = newMP b ->
       ∃ o', InitNodeMetricMapping o
             = (Done (Some (ErrDuplicated (FieldName (Tag b)) (metricName b)
                              (mp_tags (newMP b)))), o'))
  ∧ (∀ (o : OpcUAInputClient) built ex,
       runSteps ∅ (buildSteps (Config o)) = (built, Ok ex) ->
       ∃ o', InitNodeMetricMapping o = (Done None, o')
             ∧ NodeMetricMappings o' = (NodeMetricMappings o ++ built)%list)
  ∧ (∀ cfg ok log0 pre step post built ex e,
       validConfig cfg ->
       (∀ ev, keptEventInput cfg = Some ev -> ValidateEvents ev = None) ->
       buildSteps cfg = (pre ++ step :: post)%list ->
       runSteps ∅ pre = (built, Ok ex) ->
       stepResult ex step = Err e ->
       ∃ l, CreateInputClient cfg (Ok ok) log0 = (Done (Err e), l))
  ∧ (∀ cfg opcClient log0,
       match CreateInputClient cfg opcClient log0 with
       | (Done (Ok c), _) =>
           (∃ ex, runSteps ∅ (buildSteps cfg) = (NodeMetricMappings c, Ok ex))
           ∧ Forall structurallyValid (Tag <$> NodeMetricMappings c)
       | (Done (Err e), _) =>
           ¬ validConfig cfg
           ∨ (∃ ev err, keptEventInput cfg = Some ev ∧ ValidateEvents ev = Some err
                        ∧ e = ErrInvalidEventInput err)
           ∨ opcClient = Err e
           ∨ ∃ built, runSteps ∅ (buildSteps cfg) = (built, Err e)
       | (Fault _, _) => False
       end).
Proof.
  intros node. split; [|split; [|split; [|split; [|split; [|split]]]]].
  - subst node. unfold validateNodeToAdd, structurallyValid, identifierTypeOK.
    repeat case_decide; rewrite ?length_zero_empty in *; simpl; try done.
    + destruct (Go.Atoi _) eqn:Ha; simpl.
      * repeat split; eauto.
      * repeat split; try done. intros [[_ [? ?]]|Hin]; [done|].
        match goal with Hi : IdentifierType _ = "i" |- _ => rewrite Hi in Hin end.
        set_solver.
    + repeat split; eauto.
    + repeat split; try done. intros [[? _]|?]; done.
  - apply validate_duplicate.
  - intros o pre step post built ex e Hsteps Hpre Hstep.
    destruct (InitNodeMetricMapping_run o) as (o' & Hrun & Hm). cbv zeta in Hrun, Hm.
    rewrite Hsteps, (runSteps_first_error _ _ _ _ _ _ _ Hpre Hstep) in Hrun, Hm.
    by exists o'.
  - intros o pre src post built ex a b. apply build_duplicate.
  - intros o built ex Hsteps.
    destruct (InitNodeMetricMapping_run o) as (o' & Hrun & Hm). cbv zeta in Hrun, Hm.
    rewrite Hsteps in Hrun, Hm. by exists o'.
  - intros cfg ok log0 pre step post built ex e Hv Hev Hsteps Hpre Hstep.
    pose proof (CreateInputClient_run cfg (Ok ok) log0) as Hc.
    rewrite Hsteps, (runSteps_first_error _ _ _ _ _ _ _ Hpre Hstep) in Hc.
    destruct (CreateInputClient cfg (Ok ok) log0) as [[[c|e']|f] l]; try done.
    + by destruct Hc as [? [=]].
    + exists l. destruct Hc as [?|[_ [(ev & err & Hk & He & _)|[_ [[=]|Hc]]]]]; [done|..].
      * rewrite (Hev _ Hk) in He. done.
      * destruct Hc as (? & ? & _ & [= _ ->]). done.
  - intros cfg opcClient log0.
    pose proof (CreateInputClient_run cfg opcClient log0) as Hc.
    pose proof (CreateInputClient_spec cfg opcClient log0) as Hs.
    destruct (CreateInputClient cfg opcClient log0) as [[[c|e]|f] l]; try done.
    + split; [done|]. by destruct Hs as (_ & _ & ? & _).
    + destruct Hc as [?|[_ [?|[_ [?|(ok & built & _ & ?)]]]]]; eauto.
Qed.

(** The root point and the first point of the group are mapped, the second
    point of the group has no identifier: the build ends with that error
    and two mappings, and the third point of the group is not looked at. *)
Lemma C2_validation_order_witness :
  ∃ o', InitNodeMetricMapping grouped_client = (Done (Some ErrEmptyIdentifier), o')
        ∧ length (NodeMetricMappings o') = 2%nat.
Proof.
  destruct (C2_validation_order ∅ (mapping_of temp_node)) as (_ & _ & Hfirst & _).
  destruct (Hfirst grouped_client
    [Point {| ps_name := "opcua"; ps_groupTags := ∅; ps_node := temp_node |};
     GroupTags sample_group;
     Point {| ps_name := "boiler"; ps_groupTags := {[ "site" := "north" ]};
              ps_node := sample_node "level" "3" "s" "Level" ∅ |}]
    (Point {| ps_name := "boiler"; ps_groupTags := {[ "site" := "north" ]};
              ps_node := sample_node "flow" "3" "s" "" ∅ |})
    [Point {| ps_name := "boiler"; ps_groupTags := {[ "site" := "north" ]};
              ps_node := sample_node "heat" "3" "s" "Heat" ∅ |}]
    (runSteps ∅
       [Point {| ps_name := "opcua"; ps_groupTags := ∅; ps_node := temp_node |};
        GroupTags sample_group;
        Point {| ps_name := "boiler"; ps_groupTags := {[ "site" := "north" ]};
                 ps_node := sample_node "level" "3" "s" "Level" ∅ |}]).1
    (keysOf (runSteps ∅
       [Point {| ps_name := "opcua"; ps_groupTags := ∅; ps_node := temp_node |};
        GroupTags sample_group;
        Point {| ps_name := "boiler"; ps_groupTags := {[ "site" := "north" ]};
                 ps_node := sample_node "level" "3" "s" "Level" ∅ |}]).1)
    ErrEmptyIdentifier) as (o' & Hrun & Hm).
  - vm_compute. reflexivity.
  - vm_compute. reflexivity.
  - vm_compute. reflexivity.
  - exists o'. split; [exact Hrun|]. rewrite Hm. vm_compute. reflexivity.
Defined.

(** C2 as stated fails: the second point has the identifier type x, which
    is not valid, and the key of the first; the build reports it as a
    duplicate, not for its identifier type. *)
Lemma C2_validation_order_counterexample :
  let n2 := sample_node "temp" "3" "x" "Temperature" ∅ in
  IdentifierType n2 = "x"
  ∧ (InitNodeMetricMapping (sample_new_client [temp_node; n2])).1
    = Done (Some (ErrDuplicated "temp" "opcua" "")).
Proof. vm_compute. split; reflexivity. Qed.

End build_claims.

(** ** Measurements *)

Section measurement.
Import input.
Context `{External}.

(** X9.  The time of a measurement is the server time of the cached value
    when the timestamp source is server, its source time when it is source,
    and the time of the call otherwise (gather, or nothing configured).  A
    cached status that is not good does not hold the measurement back: it
    is built all the same, and one debug entry naming the field, the
    measurement and the tag text is logged; nothing else of the client
    changes. *)
Theorem MetricForNode_time_and_trace (o : OpcUAInputClient) (i : nat)
    (nmm : NodeMetricMapping) (last : NodeValue)
    (Hmapping : NodeMetricMappings o !! i = Some nmm)
    (Hcache : LastReceivedData o !! i = Some last) :
  ∃ m o', MetricForNode i o = (Done m, o')
    ∧ telegraf.Tm m =
        (if decide (Timestamp (Config o) = "server") then ServerTime last
         else if decide (Timestamp (Config o) = "source") then SourceTime last
         else time_Now)
    ∧ o' = set_Log (Log o ++ if StatusCodeOK o (Quality last) then []
                             else [statusTrace nmm])%list o.
Proof.
  unfold MetricForNode.
  rewrite bind_get. unfold index. rewrite Hmapping, Hcache. rewrite !bind_ret.
  destruct (StatusCodeOK o (Quality last)) eqn:Hok; cbv [negb].
  - rewrite bind_ret. eexists _, _. split; [reflexivity|]. simpl. split; [done|].
    rewrite app_nil_r. by destruct o.
  - unfold bind, input.log, modify, ret.
    eexists _, _. split; [reflexivity|]. simpl. done.
Qed.

(** [UpdateNodeValue] on a handle the cache has: it may stop at a missing
    mapping, and writes nothing but the cache and the log. *)
Lemma UpdateNodeValue_shape (o : OpcUAInputClient) (i : nat) (d : ua.DataValue)
    (old : NodeValue) :
  LastReceivedData o !! i = Some old ->
  ∃ r o', UpdateNodeValue i d o = (r, o')
    ∧ same_mappings o o'
    ∧ length (LastReceivedData o') = length (LastReceivedData o).
Proof.
  intros Hold.
  destruct (NodeMetricMappings o !! i) as [nmm|] eqn:Hm.
  { destruct (UpdateNodeValue_spec o i d old nmm Hold Hm)
      as (new & o' & Hrun & Hs & Hl & _).
    eexists _, o'. split; [exact Hrun|]. split; [done|].
    by rewrite Hl, length_insert. }
  assert (i < length (LastReceivedData o))%nat as Hi by by eapply lookup_lt_Some.
  replace (UpdateNodeValue i d o) with
    (UpdateNodeValue i d
       (set_LastReceivedData (<[i := old]> (LastReceivedData o)) o))
    by (by rewrite <- client_as_slot).
  unfold UpdateNodeValue.
  destruct (StatusCodeOK o (ua.dv_Status d)) eqn:Hok.
  - destruct (ua.dv_Value d) as [variant|] eqn:Hv.
    + destruct (decide (ua.v_Type variant = ua.TypeIDDateTime)) as [Ht|Ht];
        destruct (ua.v_Value variant) eqn:Hvv;
        (eexists _, _; split;
         [ repeat slot_step set_nth_at;
           change (StatusCodeOK (set_LastReceivedData _ o)) with (StatusCodeOK o);
           rewrite Hok; cbv [negb];
           rewrite ?decide_True by done; rewrite ?decide_False by done;
           rewrite ?Hvv;
           repeat slot_step set_nth_at; reflexivity
         | split; [by unfold same_mappings|]; simpl; by rewrite length_insert ]).
    + eexists _, _. split.
      * repeat slot_step set_nth_at.
        change (StatusCodeOK (set_LastReceivedData _ o)) with (StatusCodeOK o).
        rewrite Hok. cbv [negb]. repeat slot_step set_nth_at. reflexivity.
      * split; [by unfold same_mappings|]. simpl. by rewrite length_insert.
  - eexists _, _. split.
    * repeat slot_step set_nth_at.
      change (StatusCodeOK (set_LastReceivedData _ o)) with (StatusCodeOK o).
      rewrite Hok. cbv [negb].
      change (NodeIDs (set_LastReceivedData _ o)) with (NodeIDs o).
      change (NodeMetricMappings (set_LastReceivedData _ o))
        with (NodeMetricMappings o).
      unfold index. rewrite Hm. case_decide; reflexivity.
    * split; [by unfold same_mappings|]. simpl. by rewrite length_insert.
Qed.

End measurement.

(** ** Handles out of range *)

Section bounds.
Import input.
Import opcua_listener.
Context `{External}.

Lemma embedded_run {A} (m : M input.OpcUAInputClient A) (o : subscribeClient) :
  embedded m o = ((m (OpcUAInputClient o)).1,
                  set_OpcUAInputClient (m (OpcUAInputClient o)).2 o).
Proof. unfold embedded. by destruct (m (OpcUAInputClient o)). Qed.

(** X10.  An item whose handle is not an index of the mappings, of the node
    IDs and of the cache stops the processing with a panic, and no
    measurement is sent for it: neither channel is written.  When the
    handle is outside the cache, nothing at all has changed. *)
Theorem dataChangeItem_bad_handle (o : subscribeClient)
    (item : ua.MonitoredItemNotification)
    (Hbad : ¬ validHandle (OpcUAInputClient o) item) :
  ∃ why o', dataChangeItem item o = (Fault (Panic why), o')
    ∧ metrics o' = metrics o
    ∧ eventMetrics o' = eventMetrics o
    ∧ ((length (LastReceivedData (OpcUAInputClient o)) <= ua.min_ClientHandle item)%nat
       -> o' = o).
Proof.
  unfold validHandle in Hbad. unfold dataChangeItem. cbv zeta.
  set (i := ua.min_ClientHandle item) in *. set (d := ua.min_Value item).
  rewrite bind_get. unfold index at 1.
  destruct (LastReceivedData (OpcUAInputClient o) !! i) as [old|] eqn:Hold.
  2:{ eexists _, _. split; [reflexivity|]. done. }
  apply lookup_lt_Some in Hold as Hi.
  destruct (UpdateNodeValue_shape (OpcUAInputClient o) i d old Hold)
    as (r & c1 & Hup & (HO & HC & HM & HI & HE) & Hlen).
  rewrite bind_ret. unfold bind at 1. rewrite embedded_run, Hup. simpl.
  destruct r as [[]|f].
  2:{ destruct f as [why|].
      - eexists _, _. split; [reflexivity|]. split; [done|]. split; [done|]. lia.
      - exfalso. clear -Hup Hold.
        destruct (NodeMetricMappings (OpcUAInputClient o) !! i) as [nmm|] eqn:Hm.
        + destruct (UpdateNodeValue_spec (OpcUAInputClient o) i d old nmm Hold Hm)
            as (new & o' & Hrun & _). congruence.
        + assert (i < length (LastReceivedData (OpcUAInputClient o)))%nat as Hi
            by by eapply lookup_lt_Some.
          revert Hup.
          replace (UpdateNodeValue i d (OpcUAInputClient o)) with
            (UpdateNodeValue i d
               (set_LastReceivedData (<[i := old]>
                  (LastReceivedData (OpcUAInputClient o))) (OpcUAInputClient o)))
            by (by rewrite <- client_as_slot).
          unfold UpdateNodeValue.
          repeat slot_step set_nth_at.
          change (StatusCodeOK (set_LastReceivedData _ ?c)) with (StatusCodeOK c).
          destruct (StatusCodeOK (OpcUAInputClient o) (ua.dv_Status d)); cbv [negb].
          * destruct (ua.dv_Value d) as [variant|].
            -- destruct (decide (ua.v_Type variant = ua.TypeIDDateTime));
                 destruct (ua.v_Value variant);
                 repeat slot_step set_nth_at; done.
            -- repeat slot_step set_nth_at. done.
          * change (NodeMetricMappings (set_LastReceivedData _ ?c))
              with (NodeMetricMappings c).
            unfold index. rewrite Hm. by case_decide. }
  rewrite bind_get.
  change (OpcUAInputClient (set_OpcUAInputClient c1 o)) with c1.
  unfold index at 1. rewrite HI.
  destruct (NodeIDs (OpcUAInputClient o) !! i) as [nid|] eqn:Hid.
  2:{ eexists _, _. split; [reflexivity|]. split; [done|]. split; [done|]. lia. }
  apply lookup_lt_Some in Hid as Hi2.
  rewrite bind_ret. unfold index at 1.
  destruct (LastReceivedData c1 !! i) as [new|] eqn:Hnew.
  2:{ apply lookup_ge_None in Hnew. lia. }
  rewrite bind_ret. rewrite (bind_eq _ _ _ _ _ (log_spec _ _ _ _)).
  unfold bind at 1. rewrite embedded_run.
  assert (NodeMetricMappings (OpcUAInputClient o) !! i = None) as Hm.
  { apply lookup_ge_None. lia. }
  unfold MetricForNode at 1 2. rewrite bind_get. unfold index at 1 3.
  unfold logged. simpl. rewrite HM, Hm. simpl.
  eexists _, _. split; [reflexivity|]. simpl. split; [done|]. split; [done|]. lia.
Qed.

End bounds.

(** ** Calls of a start operation *)

Section start.
Import input.
Import opcua_listener.
Context `{External}.

Lemma connect_calls (o : subscribeClient) :
  ∃ o1, connect o =
          (Done (match srv_Connect (server o) with
                 | Some err => Some err
                 | None => match srv_Subscribe (server o) with
                           | Err err => Some err
                           | Ok _ => None
                           end
                 end), o1)
        ∧ same_client o o1
        ∧ calls o1 = (calls o ++ CallConnect ::
                        match srv_Connect (server o) with
                        | Some _ => []
                        | None => [CallSubscribe (SubscriptionInterval (Config o))]
                        end)%list
        ∧ sub o1 = match srv_Connect (server o) with
                   | Some _ => sub o
                   | None => match srv_Subscribe (server o) with
                             | Err _ => None
                             | Ok id => Some id
                             end
                   end.
Proof.
  unfold connect. run_sc.
  destruct (srv_Connect (server o)) as [err|]; run_sc.
  - eexists. split; [reflexivity|]. unfold same_client. simpl. by repeat split.
  - destruct (srv_Subscribe (server o)) as [id|err]; run_sc;
      (eexists; split; [reflexivity|]); unfold same_client; simpl;
      rewrite <- app_assoc; by repeat split.
Qed.

Lemma connectFailed_calls (err : error) (o : subscribeClient) :
  calls (connectFailed err o).2 = calls o ∧ same_setup o (connectFailed err o).2
  ∧ processors (connectFailed err o).2 = processors o
  ∧ sub (connectFailed err o).2 = sub o.
Proof.
  unfold connectFailed. run_sc. by repeat case_decide.
Qed.

Lemma checkResults_calls (results : list ua.StatusCode) (idx : nat) (o : subscribeClient) :
  calls (checkResults idx results o).2 = calls o
  ∧ same_setup o (checkResults idx results o).2
  ∧ processors (checkResults idx results o).2 = processors o
  ∧ sub (checkResults idx results o).2 = sub o.
Proof.
  revert idx. induction results as [|res rest IH]; intros idx; [done|].
  simpl. rewrite bind_get.
  destruct (StatusCodeOK (OpcUAInputClient o) res); cbv [negb]; [apply IH|].
  unfold index.
  destruct (NodeMetricMappings (OpcUAInputClient o) !! idx) as [nmm|];
    destruct (NodeIDs (OpcUAInputClient o) !! idx) as [nid|];
    case_decide; by run_sc.
Qed.

Lemma checkEventResults_calls (results : list ua.StatusCode) (o : subscribeClient) :
  (checkEventResults results o).2 = o.
Proof. by rewrite checkEventResults_spec. Qed.

Lemma startStreamValues_calls (o o' : subscribeClient) r :
  startStreamValues o = (r, o') ->
  calls o' = (calls o ++ startCalls (monitoredItemsReqs o) o)%list
  ∧ same_setup o o' ∧ (processors o <= processors o')%nat.
Proof.
  unfold startStreamValues, startCalls. rewrite bind_get.
  destruct (decide (length (monitoredItemsReqs o) = 0%nat)) as [Hl|Hl].
  { apply length_zero_iff_nil in Hl. rewrite decide_True by done.
    intros [= <- <-]. by rewrite app_nil_r. }
  rewrite decide_False by (intros Hn; by rewrite Hn in Hl).
  destruct (connect_calls o) as (o1 & Hc & Hs & Hcalls & Hsub).
  destruct Hs as (HC & HR & HE & HM & HEM & HS & HP & _).
  rewrite (bind_eq _ _ _ _ _ Hc).
  destruct (srv_Connect (server o)) as [err|] eqn:Hconn.
  { destruct (connectFailed_calls err o1) as (Hk & (?&?&?&?) & ? & _).
    destruct (connectFailed err o1) as [r' s']. intros [= <- <-]. simpl in *.
    rewrite Hk, Hcalls. split; [done|]. unfold same_setup.
    split; [repeat split; congruence|lia]. }
  destruct (srv_Subscribe (server o)) as [id|err] eqn:Hsubs.
  2:{ destruct (connectFailed_calls err o1) as (Hk & (?&?&?&?) & ? & _).
      destruct (connectFailed err o1) as [r' s']. intros [= <- <-]. simpl in *.
      rewrite Hk, Hcalls. split; [done|]. unfold same_setup.
      split; [repeat split; congruence|lia]. }
  unfold Monitor. rewrite bind_assoc, bind_get, Hsub.
  unfold called. rewrite !bind_assoc. unfold bind at 1, modify. rewrite bind_ret.
  destruct (srv_Monitor (server o1) (monitoredItemsReqs o)) as [results|err].
  2:{ intros [= <- <-]. simpl. rewrite Hcalls, <- app_assoc. split; [done|].
      unfold same_setup. simpl. split; [repeat split; congruence|lia]. }
  rewrite (bind_eq _ _ _ _ _ (log_spec _ _ _ _)).
  unfold bind at 1.
  match goal with
  | |- context [checkResults 0 results ?s] =>
      destruct (checkResults_calls results 0 s) as (Hk & (?&?&?&?) & ? & _);
      destruct (checkResults 0 results s) as [[[e|]|f] s'] eqn:Hchk; simpl in *
  end;
  intros [= <- <-]; simpl;
  rewrite ?Hk, Hcalls, <- app_assoc; (split; [done|]);
  unfold same_setup; simpl; (split; [repeat split; congruence|lia]).
Qed.

Lemma startStreamEvents_calls (o o' : subscribeClient) r :
  startStreamEvents o = (r, o') ->
  calls o' = (calls o ++ startCalls (eventItemsReqs o) o)%list
  ∧ same_setup o o' ∧ (processors o <= processors o')%nat.
Proof.
  unfold startStreamEvents, startCalls. rewrite bind_get.
  destruct (decide (length (eventItemsReqs o) = 0%nat)) as [Hl|Hl].
  { apply length_zero_iff_nil in Hl. rewrite decide_True by done.
    intros [= <- <-]. by rewrite app_nil_r. }
  rewrite decide_False by (intros Hn; by rewrite Hn in Hl).
  destruct (connect_calls o) as (o1 & Hc & Hs & Hcalls & Hsub).
  destruct Hs as (HC & HR & HE & HM & HEM & HS & HP & _).
  rewrite (bind_eq _ _ _ _ _ Hc).
  destruct (srv_Connect (server o)) as [err|] eqn:Hconn.
  { destruct (connectFailed_calls err o1) as (Hk & (?&?&?&?) & ? & _).
    destruct (connectFailed err o1) as [r' s']. intros [= <- <-]. simpl in *.
    rewrite Hk, Hcalls. split; [done|]. unfold same_setup.
    split; [repeat split; congruence|lia]. }
  destruct (srv_Subscribe (server o)) as [id|err] eqn:Hsubs.
  2:{ destruct (connectFailed_calls err o1) as (Hk & (?&?&?&?) & ? & _).
      destruct (connectFailed err o1) as [r' s']. intros [= <- <-]. simpl in *.
      rewrite Hk, Hcalls. split; [done|]. unfold same_setup.
      split; [repeat split; congruence|lia]. }
  unfold Monitor. rewrite bind_assoc, bind_get, Hsub.
  unfold called. rewrite !bind_assoc. unfold bind at 1, modify. rewrite bind_ret.
  destruct (srv_Monitor (server o1) (eventItemsReqs o)) as [results|err].
  2:{ intros [= <- <-]. simpl. rewrite Hcalls, <- app_assoc. split; [done|].
      unfold same_setup. simpl. split; [repeat split; congruence|lia]. }
  rewrite (bind_eq _ _ _ _ _ (log_spec _ _ _ _)).
  rewrite (bind_eq _ _ _ _ _ (checkEventResults_spec _ _)).
  destruct (firstBad _ results) as [[k code]|]; intros [= <- <-]; simpl;
    rewrite Hcalls, <- app_assoc; (split; [done|]);
    unfold same_setup; simpl; (split; [repeat split; congruence|lia]).
Qed.

(** X11.  A start operation with requests makes its own connection attempt:
    a connect, then, when that succeeds, a subscribe, and, when that
    succeeds too, one registration of all its requests; without requests
    it makes no call.  It changes neither the configuration, the requests
    nor what the server answers, so that starting the value stream and then
    the event stream connects and subscribes twice. *)
Theorem start_calls (o : subscribeClient) :
  let o1 := (startStreamValues o).2 in
  let o2 := (startStreamEvents o1).2 in
  calls o1 = (calls o ++ startCalls (monitoredItemsReqs o) o)%list
  ∧ calls (startStreamEvents o).2 = (calls o ++ startCalls (eventItemsReqs o) o)%list
  ∧ calls o2 = (calls o ++ startCalls (monitoredItemsReqs o) o
                        ++ startCalls (eventItemsReqs o) o)%list.
Proof.
  intros o1 o2. subst o1 o2.
  destruct (startStreamValues o) as [r1 o1] eqn:Hv. cbn [snd].
  destruct (startStreamEvents o1) as [r2 o2] eqn:He.
  destruct (startStreamEvents o) as [r3 o3] eqn:He'.
  destruct (startStreamValues_calls _ _ _ Hv) as (H1 & (HC & HR & HE & HS) & _).
  destruct (startStreamEvents_calls _ _ _ He) as (H2 & _).
  destruct (startStreamEvents_calls _ _ _ He') as (H3 & _).
  simpl. split; [done|]. split; [done|].
  rewrite H2, H1, <- app_assoc. f_equal. f_equal.
  unfold startCalls. by rewrite HE, HS, HC.
Qed.

End start.

(** ** A registration call that fails *)

Section registration.
Import input.
Import opcua_listener.
Context `{External}.

(** X12.  When the registration call itself fails, after a connect and a
    subscribe that succeeded, the start operation returns a nil channel and
    the error of the call wrapped in its own message, whatever the
    connect-fail-behavior is.  No processing is started; the log holds what
    the library has written while connecting and the two entries of
    [connect], and nothing about the failed registration; the subscription
    just made is kept. *)
Theorem registration_call_fails (o : subscribeClient) (id : Z) (err : error)
    (Hconnect : srv_Connect (server o) = None)
    (Hsubscribe : srv_Subscribe (server o) = Ok id) :
  (length (monitoredItemsReqs o) ≠ 0%nat ->
   srv_Monitor (server o) (monitoredItemsReqs o) = Err err ->
   ∃ o', startStreamValues o =
           (Done (None, Some (ErrWrap "failed to start monitoring items: " err)), o')
         ∧ processors o' = processors o
         ∧ sub o' = Some id
         ∧ Log (OpcUAInputClient o')
           = (Log (OpcUAInputClient o) ++ srv_ConnectLog (server o)
              ++ connectEntries id)%list)
  ∧ (length (eventItemsReqs o) ≠ 0%nat ->
     srv_Monitor (server o) (eventItemsReqs o) = Err err ->
     ∃ o', startStreamEvents o =
             (Done (None, Some (ErrWrap "failed to start monitoring event stream: " err)),
              o')
           ∧ processors o' = processors o
           ∧ eventMetrics o' = eventMetrics o
           ∧ sub o' = Some id
           ∧ Log (OpcUAInputClient o')
             = (Log (OpcUAInputClient o) ++ srv_ConnectLog (server o)
                ++ connectEntries id)%list).
Proof.
  split; intros Hlen Hmon.
  - unfold startStreamValues. rewrite bind_get, decide_False by done.
    unfold connect, Monitor. run_sc. rewrite Hconnect. run_sc.
    rewrite Hsubscribe. run_sc. rewrite Hmon.
    eexists. split; [reflexivity|]. simpl. rewrite <- !app_assoc. done.
  - unfold startStreamEvents. rewrite bind_get, decide_False by done.
    unfold connect, Monitor. run_sc. rewrite Hconnect. run_sc.
    rewrite Hsubscribe. run_sc. rewrite Hmon.
    eexists. split; [reflexivity|]. simpl. rewrite <- !app_assoc. done.
Qed.

End registration.

(** ** Notifications without data *)

Section notifications.
Import input.
Import opcua_listener.
Context `{External}.

(** X13.  A notification that carries an error is logged as an error and
    skipped, whatever its payload is; a payload of an unexpected type is
    logged as a warning and skipped.  In both cases the loop goes on with
    the next notification, and only the log has changed: no cache slot is
    written and no measurement is sent. *)
Theorem notification_without_data (res : PublishNotificationData)
    (rest : list PublishNotificationData) (o : subscribeClient)
    (Hrunning : cancelled o = false)
    (Hres : is_Some (pn_Error res) ∨ ∃ t, pn_Value res = ua.OtherNotification t) :
  ∃ entry,
    processReceivedNotifications (res :: rest) o
    = processReceivedNotifications rest (logged [entry] o)
    ∧ telegraf.e_level entry
      = match pn_Error res with
        | Some _ => telegraf.LError
        | None => telegraf.LWarn
        end.
Proof.
  simpl. rewrite bind_get, Hrunning. unfold processNotification.
  destruct (pn_Error res) as [err|] eqn:He.
  - eexists. rewrite bind_assoc, (bind_eq _ _ _ _ _ (log_spec _ _ _ _)), !bind_ret.
    split; reflexivity.
  - destruct Hres as [[? [=]]|[t ->]].
    eexists. rewrite bind_assoc, (bind_eq _ _ _ _ _ (log_spec _ _ _ _)), !bind_ret.
    split; reflexivity.
Qed.

(** X14.  A notification with a nil payload ends the processing for good:
    an error entry is logged and the loop returns, so that whatever the
    channel delivers after it is never processed. *)
Theorem nil_notification_ends_processing (pre post : list PublishNotificationData)
    (o : subscribeClient) :
  processReceivedNotifications (pre ++ nilNotification :: post) o
  = processReceivedNotifications (pre ++ [nilNotification]) o
  ∧ (cancelled o = false ->
     processReceivedNotifications (nilNotification :: post) o
     = (Done tt, logged [ {| telegraf.e_level := telegraf.LError;
                             telegraf.e_format := "Received nil notification";
                             telegraf.e_args := [] |} ] o)).
Proof.
  split.
  - revert o. induction pre as [|res pre IH]; intros o.
    + simpl. rewrite !bind_get. destruct (cancelled o); [done|].
      unfold processNotification. simpl.
      by rewrite !bind_assoc, !(bind_eq _ _ _ _ _ (log_spec _ _ _ _)), !bind_ret.
    + simpl. rewrite !bind_get. destruct (cancelled o); [done|].
      unfold bind. by destruct (processNotification res o) as [[[]|f] o'].
  - intros Hrunning. simpl. rewrite bind_get, Hrunning.
    unfold processNotification. simpl.
    by rewrite !bind_assoc, !(bind_eq _ _ _ _ _ (log_spec _ _ _ _)), !bind_ret.
Qed.

Lemma eventFields_too_many (fs : list ua.Variant) (i : nat) (names : list string)
    (fields : gmap string ua.value) (o : subscribeClient) :
  (i <= length names < i + length fs)%nat ->
  ∃ ws, eventFields i names fs fields o
        = (Fault (Panic "index out of range"), logged ws o).
Proof.
  revert i fields o. induction fs as [|f rest IH]; intros i fields o Hlen.
  - simpl in Hlen. lia.
  - simpl in *. unfold index.
    destruct (names !! i) as [name|] eqn:Hn.
    2:{ exists []. by rewrite logged_nil. }
    apply lookup_lt_Some in Hn. rewrite bind_ret.
    assert (∀ fields' ws, ∃ ws',
              eventFields (S i) names rest fields' (logged ws o)
              = (Fault (Panic "index out of range"), logged ws' o)) as Hrest.
    { intros fields' ws. destruct (IH (S i) fields' (logged ws o)) as [ws' Hr]; [lia|].
      exists (ws ++ ws')%list. by rewrite Hr, logged_logged. }
    assert (∀ fields', ∃ ws',
              eventFields (S i) names rest fields' o
              = (Fault (Panic "index out of range"), logged ws' o)) as Hrest0.
    { intros fields'. destruct (Hrest fields' []) as [ws' Hr].
      rewrite logged_nil in Hr. by exists ws'. }
    destruct (ua.v_Value f) eqn:Hv;
      try (case_decide;
           [ try (rewrite (bind_eq _ _ _ _ _ (log_spec _ _ _ _)); apply Hrest);
             try apply Hrest0
           | apply Hrest0 ]).
    rewrite (bind_eq _ _ _ _ _ (log_spec _ _ _ _)). apply Hrest.
Qed.

(** X15.  An event with more fields than there are field names for its
    handle (none for a handle that is not registered) stops the processing
    with a panic at the first field without a name; the fields before it
    may have been logged, but no measurement is sent on either channel. *)
Theorem processEvent_too_many_fields (o : subscribeClient) (event : ua.EventFieldList)
    (Hlong : (length (eventNames o event) < length (ua.EventFields event))%nat) :
  ∃ o', processEvent event o = (Fault (Panic "index out of range"), o')
    ∧ eventMetrics o' = eventMetrics o
    ∧ metrics o' = metrics o
    ∧ LastReceivedData (OpcUAInputClient o') = LastReceivedData (OpcUAInputClient o).
Proof.
  unfold processEvent, eventNames in *. rewrite bind_get. cbv zeta.
  destruct (eventFields_too_many (ua.EventFields event) 0
              (match EventClientHandle (OpcUAInputClient o) !! ua.efl_ClientHandle event with
               | Some n => ev_Fields n
               | None => []
               end) ∅ o) as [ws Hrun]; [lia|].
  unfold bind. rewrite Hrun. eexists. split; [reflexivity|]. done.
Qed.

End notifications.

(** ** The list of node IDs *)

Section node_id_list.
Import input.
Context (ParseNodeID : string -> result error ua.NodeID).

Lemma InitNodeIDs_loop (ms : list NodeMetricMapping) (o : OpcUAInputClient) :
  let body := fun (_ : unit) (node : NodeMetricMapping) =>
    match ParseNodeID (NodeID (Tag node)) with
    | Err err => ret (Err err)
    | Ok nid =>
        modify (fun o => set_NodeIDs (NodeIDs o ++ [nid]) o) ;;;
        ret (Ok tt)
    end in
  match range_until ms tt body o with
  | (Done (Ok _), o') =>
      ∃ nids, o' = set_NodeIDs (NodeIDs o ++ nids) o
              ∧ Forall2 (parsedFrom ParseNodeID) ms nids
  | (Done (Err err), o') =>
      ∃ pre nmm post nids,
        ms = (pre ++ nmm :: post)%list
        ∧ ParseNodeID (NodeID (Tag nmm)) = Err err
        ∧ o' = set_NodeIDs (NodeIDs o ++ nids) o
        ∧ Forall2 (parsedFrom ParseNodeID) pre nids
  | (Fault _, _) => False
  end.
Proof.
  intros body. revert o. induction ms as [|nmm ms IH]; intros o.
  - simpl. exists []. rewrite app_nil_r. split; [by destruct o|constructor].
  - simpl. unfold bind at 1. unfold body at 1.
    destruct (ParseNodeID (NodeID (Tag nmm))) as [nid|err] eqn:Hp.
    + unfold bind at 1, modify, ret at 1.
      specialize (IH (set_NodeIDs (NodeIDs o ++ [nid]) o)).
      destruct (range_until ms tt body _) as [[[[]|err]|f] o']; [| |done].
      * destruct IH as (nids & -> & Hall). exists (nid :: nids). split.
        { simpl. unfold set_NodeIDs. simpl. by rewrite <- app_assoc. }
        by constructor.
      * destruct IH as (pre & bad & post & nids & -> & Hbad & -> & Hall).
        exists (nmm :: pre), bad, post, (nid :: nids).
        split; [done|]. split; [done|]. split.
        { simpl. unfold set_NodeIDs. simpl. by rewrite <- app_assoc. }
        by constructor.
    + unfold ret. exists [], nmm, ms, []. split; [done|]. split; [done|].
      rewrite app_nil_r. split; [by destruct o|constructor].
Qed.

(** What [InitNodeIDs] leaves in the client. *)
Lemma InitNodeIDs_spec (o : OpcUAInputClient) :
  match InitNodeIDs ParseNodeID o with
  | (Done None, o') =>
      Forall2 (parsedFrom ParseNodeID) (NodeMetricMappings o) (NodeIDs o')
      ∧ o' = set_NodeIDs (NodeIDs o') o
  | (Done (Some err), o') =>
      ∃ pre nmm post,
        NodeMetricMappings o = (pre ++ nmm :: post)%list
        ∧ ParseNodeID (NodeID (Tag nmm)) = Err err
        ∧ Forall2 (parsedFrom ParseNodeID) pre (NodeIDs o')
        ∧ o' = set_NodeIDs (NodeIDs o') o
  | (Fault _, _) => False
  end.
Proof.
  unfold InitNodeIDs. unfold bind at 1, modify. rewrite bind_get.
  pose proof (InitNodeIDs_loop (NodeMetricMappings o) (set_NodeIDs [] o)) as Hloop.
  cbv zeta in Hloop. unfold bind at 1.
  change (NodeMetricMappings (set_NodeIDs [] o)) with (NodeMetricMappings o).
  destruct (range_until (NodeMetricMappings o) tt _ (set_NodeIDs [] o))
    as [[[[]|err]|f] o']; [| |done].
  - destruct Hloop as (nids & -> & Hall). simpl. done.
  - destruct Hloop as (pre & nmm & post & nids & Hm & Hbad & -> & Hall). simpl.
    exists pre, nmm, post. done.
Qed.

(** X16.  [InitNodeIDs] replaces the list of node IDs by the parsed node
    IDs of the mappings, one per mapping and in the same order; whatever
    the list held before is dropped.  It stops at the first mapping whose
    node ID text the library does not parse and returns the error of the
    library; the list then holds the node IDs of the mappings before that
    one.  Nothing else of the client changes. *)
Theorem InitNodeIDs_result (o : OpcUAInputClient) :
  match InitNodeIDs ParseNodeID o with
  | (Done None, o') =>
      Forall2 (parsedFrom ParseNodeID) (NodeMetricMappings o) (NodeIDs o')
      ∧ o' = set_NodeIDs (NodeIDs o') o
  | (Done (Some err), o') =>
      ∃ pre nmm post,
        NodeMetricMappings o = (pre ++ nmm :: post)%list
        ∧ ParseNodeID (NodeID (Tag nmm)) = Err err
        ∧ Forall2 (parsedFrom ParseNodeID) pre (NodeIDs o')
        ∧ o' = set_NodeIDs (NodeIDs o') o
  | (Fault _, _) => False
  end.
Proof. apply InitNodeIDs_spec. Qed.

End node_id_list.

(** ** Requests for monitored items *)

Section requests.
Import input.
Import opcua_listener.
Context `{External}.

(** [assignConfigValuesToRequest] always returns, and leaves the item to
    monitor and the client handle of the request as they are. *)
Lemma assign_frame (monParams : input.MonitoringParameters)
    (req : ua.MonitoredItemCreateRequest) :
  ∃ r req', assignConfigValuesToRequest monParams req = (Done r, req')
    ∧ ua.ItemToMonitor req' = ua.ItemToMonitor req
    ∧ ua.rp_ClientHandle (ua.RequestedParameters req')
      = ua.rp_ClientHandle (ua.RequestedParameters req)
    ∧ ua.rp_SamplingInterval (ua.RequestedParameters req')
      = Z.quot (SamplingInterval monParams) Millisecond
    ∧ ua.rp_QueueSize (ua.RequestedParameters req')
      = default (ua.rp_QueueSize (ua.RequestedParameters req)) (QueueSize monParams)
    ∧ ua.rp_DiscardOldest (ua.RequestedParameters req')
      = default (ua.rp_DiscardOldest (ua.RequestedParameters req))
          (DiscardOldest monParams)
    ∧ (mp_DataChangeFilter monParams = None ->
       r = None
       ∧ ua.rp_Filter (ua.RequestedParameters req')
         = ua.rp_Filter (ua.RequestedParameters req)).
Proof.
  unfold assignConfigValuesToRequest.
  destruct (mp_DataChangeFilter monParams) as [filter|] eqn:Hf.
  - pose proof (check_None_iff filter) as Hc.
    destruct (checkDataChangeFilterParameters filter) as [e|] eqn:He.
    + destruct (QueueSize monParams), (DiscardOldest monParams); run;
        eexists _, _; (split; [reflexivity|]); done.
    + destruct (proj1 Hc eq_refl) as (_ & _ & v & Hv & _). rewrite Hv.
      destruct (QueueSize monParams), (DiscardOldest monParams); run;
        eexists _, _; (split; [reflexivity|]); done.
  - destruct (QueueSize monParams), (DiscardOldest monParams); run;
      eexists _, _; (split; [reflexivity|]); done.
Qed.

(** A change filter that is rejected fails the translation. *)
Lemma assign_rejected (monParams : input.MonitoringParameters)
    (filter : input.DataChangeFilter) (e : error) (req : ua.MonitoredItemCreateRequest) :
  mp_DataChangeFilter monParams = Some filter ->
  checkDataChangeFilterParameters filter = Some e ->
  ∃ err req', assignConfigValuesToRequest monParams req = (Done (Some err), req').
Proof.
  intros Hf He. unfold assignConfigValuesToRequest. rewrite Hf, He.
  destruct (QueueSize monParams), (DiscardOldest monParams); run; by eauto.
Qed.

Context (New : ua.NodeID -> ua.AttributeID -> nat -> ua.MonitoredItemCreateRequest).

Lemma createMonitoredItems_loop (nodeIDs : list ua.NodeID) (i : nat)
    (client : input.OpcUAInputClient) (reqs : list ua.MonitoredItemCreateRequest) :
  match createMonitoredItems New i nodeIDs client reqs with
  | Done (Ok reqs') =>
      ∃ made, reqs' = (reqs ++ made)%list
        ∧ length made = length nodeIDs
        ∧ ∀ k nodeID, nodeIDs !! k = Some nodeID ->
            ∃ req, made !! k = Some req ∧ requestFor New client (i + k) nodeID req
  | Done (Err err) =>
      ∃ k nodeID nmm req',
        nodeIDs !! k = Some nodeID
        ∧ NodeMetricMappings client !! (i + k)%nat = Some nmm
        ∧ assignConfigValuesToRequest (MonitoringParams (Tag nmm))
            (New nodeID ua.AttributeIDValue (i + k)) = (Done (Some err), req')
        ∧ ∀ j nid, (j < k)%nat -> nodeIDs !! j = Some nid ->
            ∃ req, requestFor New client (i + j) nid req
  | Fault f =>
      f = Panic "index out of range"
      ∧ (length (NodeMetricMappings client) < i + length nodeIDs)%nat
  end.
Proof.
  revert i reqs. induction nodeIDs as [|nodeID rest IH]; intros i reqs; simpl.
  - exists []. rewrite app_nil_r. split; [done|]. split; [done|]. by intros k ? ?.
  - destruct (NodeMetricMappings client !! i) as [nmm|] eqn:Hm.
    2:{ apply lookup_ge_None in Hm. split; [done|lia]. }
    destruct (assign_frame (MonitoringParams (Tag nmm)) (New nodeID ua.AttributeIDValue i))
      as (r & req' & Hrun & _).
    rewrite Hrun. destruct r as [err|].
    { exists 0%nat, nodeID, nmm, req'. rewrite Nat.add_0_r.
      split; [done|]. split; [done|]. split; [done|]. intros j nid Hj. lia. }
    specialize (IH (S i) (reqs ++ [req'])%list).
    destruct (createMonitoredItems New (S i) rest client _) as [[reqs'|err]|f].
    + destruct IH as (made & -> & Hlen & Hall). exists (req' :: made).
      rewrite <- app_assoc. split; [done|]. split; [simpl; lia|].
      intros [|k] nid Hk; simpl in *.
      * injection Hk as <-. exists req'. split; [done|]. exists nmm.
        by rewrite Nat.add_0_r.
      * destruct (Hall k nid Hk) as (req & Hreq & Hfor). exists req.
        split; [done|]. by rewrite <- Nat.add_succ_comm.
    + destruct IH as (k & nid & nmm' & req'' & Hk & Hm' & Hrun' & Hbefore).
      exists (S k), nid, nmm', req''. rewrite <- Nat.add_succ_comm.
      split; [done|]. split; [done|]. split; [done|].
      intros [|j] nid' Hj Hnid'; simpl in Hnid'.
      * injection Hnid' as <-. exists req', nmm. by rewrite Nat.add_0_r.
      * destruct (Hbefore j nid' ltac:(lia) Hnid') as (req & Hfor). exists req.
        by rewrite <- Nat.add_succ_comm.
    + destruct IH as [-> Hlen]. split; [done|]. lia.
Qed.


(** X17.  The requests for the monitored items are made in the order of the
    node IDs, one per node ID: the request at the index [i] monitors the
    node ID at the index [i], has [i] as its client handle, and takes its
    sampling interval, in whole milliseconds, from the mapping at the index
    [i].  The creation succeeds exactly when no mapping of a node ID has a
    change filter that is rejected; otherwise it returns the error of the
    first such mapping.  It does not panic when every node ID has a
    mapping. *)
Theorem createMonitoredItems_handles (client : input.OpcUAInputClient)
    (Hitem : ∀ nodeID h, ua.ItemToMonitor (New nodeID ua.AttributeIDValue h) = nodeID)
    (Hhandle : ∀ nodeID h,
       ua.rp_ClientHandle (ua.RequestedParameters (New nodeID ua.AttributeIDValue h)) = h)
    (Hlen : (length (NodeIDs client) <= length (NodeMetricMappings client))%nat) :
  let accepted i :=
    ∀ nmm filter, NodeMetricMappings client !! i = Some nmm ->
      mp_DataChangeFilter (MonitoringParams (Tag nmm)) = Some filter ->
      checkDataChangeFilterParameters filter = None in
  match createMonitoredItems New 0 (NodeIDs client) client [] with
  | Done (Ok reqs) =>
      length reqs = length (NodeIDs client)
      ∧ (∀ i req, reqs !! i = Some req ->
          ua.rp_ClientHandle (ua.RequestedParameters req) = i
          ∧ NodeIDs client !! i = Some (ua.ItemToMonitor req)
          ∧ ∃ nmm, NodeMetricMappings client !! i = Some nmm
              ∧ ua.rp_SamplingInterval (ua.RequestedParameters req)
                = Z.quot (SamplingInterval (MonitoringParams (Tag nmm))) Millisecond)
      ∧ ∀ i, (i < length (NodeIDs client))%nat -> accepted i
  | Done (Err err) =>
      ∃ i nodeID nmm filter req',
        NodeIDs client !! i = Some nodeID
        ∧ NodeMetricMappings client !! i = Some nmm
        ∧ mp_DataChangeFilter (MonitoringParams (Tag nmm)) = Some filter
        ∧ is_Some (checkDataChangeFilterParameters filter)
        ∧ assignConfigValuesToRequest (MonitoringParams (Tag nmm))
            (New nodeID ua.AttributeIDValue i) = (Done (Some err), req')
        ∧ ∀ j, (j < i)%nat -> accepted j
  | Fault _ => False
  end.
Proof.
  intros accepted.
  assert (∀ i nid req, requestFor New client i nid req -> accepted i) as Hacc.
  { intros i nid req (nmm & Hm & Hrun) nmm' filter Hm' Hf.
    assert (nmm' = nmm) as -> by congruence.
    destruct (checkDataChangeFilterParameters filter) as [e|] eqn:He; [|done].
    destruct (assign_rejected _ filter e (New nid ua.AttributeIDValue i) Hf He)
      as (err & req' & Hrun'). congruence. }
  pose proof (createMonitoredItems_loop (NodeIDs client) 0 client []) as Hloop.
  destruct (createMonitoredItems New 0 (NodeIDs client) client []) as [[reqs|err]|f].
  - destruct Hloop as (made & -> & Hmade & Hall). simpl. split; [done|]. split.
    + intros i req Hreq.
      destruct (NodeIDs client !! i) as [nodeID|] eqn:Hid.
      2:{ apply lookup_ge_None in Hid. apply lookup_lt_Some in Hreq. lia. }
      destruct (Hall i nodeID Hid) as (req' & Hreq' & nmm & Hm & Hrun).
      simpl in Hm, Hrun. assert (req' = req) as -> by congruence.
      destruct (assign_frame (MonitoringParams (Tag nmm))
                  (New nodeID ua.AttributeIDValue i))
        as (r & req'' & Hrun' & HI & HH & HS & _).
      rewrite Hrun in Hrun'. injection Hrun' as <- <-.
      rewrite HH, HI, Hhandle, Hitem. split; [done|]. split; [done|]. by exists nmm.
    + intros i Hi. apply lookup_lt_is_Some in Hi as [nid Hnid].
      destruct (Hall i nid Hnid) as (req & _ & Hfor). by eapply Hacc.
  - destruct Hloop as (k & nodeID & nmm & req' & Hk & Hm & Hrun & Hbefore).
    simpl in Hm, Hrun.
    assert (∀ j, (j < k)%nat -> accepted j) as Hfirst.
    { intros j Hj.
      assert (is_Some (NodeIDs client !! j)) as [nid Hnid].
      { apply lookup_lt_is_Some. apply lookup_lt_Some in Hk. lia. }
      destruct (Hbefore j nid Hj Hnid) as (req & Hfor). by eapply Hacc. }
    destruct (mp_DataChangeFilter (MonitoringParams (Tag nmm))) as [filter|] eqn:Hf.
    + exists k, nodeID, nmm, filter, req'. split; [done|]. split; [done|].
      split; [done|]. split; [|done].
      destruct (checkDataChangeFilterParameters filter) as [e|] eqn:He; [by eexists|].
      destruct (assign_valid_filter _ filter (New nodeID ua.AttributeIDValue k) Hf He)
        as (v & req'' & _ & Hrun' & _). congruence.
    + destruct (assign_frame (MonitoringParams (Tag nmm))
                  (New nodeID ua.AttributeIDValue k)) as (r & req'' & Hrun' & Hrest).
      destruct Hrest as (_ & _ & _ & _ & _ & Hnone).
      destruct (Hnone Hf) as [-> _]. congruence.
  - destruct Hloop as [_ Hlong]. simpl in Hlong. lia.
Qed.

End requests.

(** ** Parameters of a request *)

Section request_parameters.
Import input.
Import opcua_listener.
Context `{External}.

(** X18.  [assignConfigValuesToRequest] always returns: it never reads a
    deadband value that was not set.  It leaves the item to monitor and the
    client handle of the request alone, always writes the sampling interval
    in whole milliseconds (an interval below one millisecond gives 0),
    writes the queue size and the discard policy only when they are
    configured, also when it then rejects the change filter, and without a
    change filter it returns no error and keeps the filter of the
    request. *)
Theorem assignConfigValuesToRequest_parameters (monParams : input.MonitoringParameters)
    (req : ua.MonitoredItemCreateRequest) :
  ∃ r req', assignConfigValuesToRequest monParams req = (Done r, req')
    ∧ ua.ItemToMonitor req' = ua.ItemToMonitor req
    ∧ ua.rp_ClientHandle (ua.RequestedParameters req')
      = ua.rp_ClientHandle (ua.RequestedParameters req)
    ∧ ua.rp_SamplingInterval (ua.RequestedParameters req')
      = Z.quot (SamplingInterval monParams) Millisecond
    ∧ ua.rp_QueueSize (ua.RequestedParameters req')
      = default (ua.rp_QueueSize (ua.RequestedParameters req)) (QueueSize monParams)
    ∧ ua.rp_DiscardOldest (ua.RequestedParameters req')
      = default (ua.rp_DiscardOldest (ua.RequestedParameters req))
          (DiscardOldest monParams)
    ∧ (mp_DataChangeFilter monParams = None ->
       r = None
       ∧ ua.rp_Filter (ua.RequestedParameters req')
         = ua.rp_Filter (ua.RequestedParameters req)).
Proof. apply assign_frame. Qed.

End request_parameters.

(** ** Handles of a created client *)

Section aligned.
Import input.
Context (ParseNodeID : string -> result error ua.NodeID).

(** X19.  A client made by [CreateInputClient] whose node IDs were then
    built by [InitNodeIDs] has one mapping, one node ID and one cache slot
    per point of its configuration, at the same index: the node ID parsed
    from the settings of the mapping, and a slot with its field name.  So
    the handles that are valid for the processing of a data change are
    exactly the indices below the number of points. *)
Theorem created_client_handles (cfg : InputClientConfig)
    (opcClient : result error (ua.StatusCode -> bool)) (log0 l : list telegraf.entry)
    (c c' : OpcUAInputClient)
    (Hcreate : CreateInputClient cfg opcClient log0 = (Done (Ok c), l))
    (Hids : InitNodeIDs ParseNodeID c = (Done None, c')) :
  let n := length (configPoints (Config c')) in
  Tag <$> NodeMetricMappings c' = configPoints (Config c')
  ∧ length (NodeIDs c') = n
  ∧ length (LastReceivedData c') = n
  ∧ (∀ item, validHandle c' item ↔ (ua.min_ClientHandle item < n)%nat)
  ∧ (∀ i nmm, NodeMetricMappings c' !! i = Some nmm ->
       ∃ nid, NodeIDs c' !! i = Some nid
              ∧ ParseNodeID (NodeID (Tag nmm)) = Ok nid
              ∧ LastReceivedData c' !! i = Some (emptySlot nmm)).
Proof.
  intros n.
  pose proof (CreateInputClient_created cfg opcClient log0) as Hc.
  pose proof (CreateInputClient_spec cfg opcClient log0) as Hs.
  rewrite Hcreate in Hc, Hs.
  destruct Hc as (_ & _ & _ & _ & Hcache & _).
  destruct Hs as (Htags & _ & _ & _).
  pose proof (InitNodeIDs_spec ParseNodeID c) as Hi. rewrite Hids in Hi.
  destruct Hi as (Hall & Hc').
  assert (NodeMetricMappings c' = NodeMetricMappings c) as HM by by rewrite Hc'.
  assert (LastReceivedData c' = LastReceivedData c) as HL by by rewrite Hc'.
  assert (Config c' = Config c) as HC by by rewrite Hc'.
  assert (length (NodeMetricMappings c) = n) as Hn.
  { subst n. by rewrite HC, <- Htags, length_fmap. }
  assert (length (NodeIDs c') = n) as Hn2.
  { rewrite <- Hn. symmetry. by eapply Forall2_length. }
  assert (length (LastReceivedData c') = n) as Hn3.
  { by rewrite HL, Hcache, length_fmap. }
  split; [by rewrite HM, HC|]. split; [done|]. split; [done|]. split.
  - intros item. unfold validHandle. rewrite HM, Hn, Hn2, Hn3. tauto.
  - intros i nmm Hm. rewrite HM in Hm.
    destruct (Forall2_lookup_l _ _ _ _ _ Hall Hm) as (nid & Hnid & Hp).
    exists nid. split; [done|]. split; [done|].
    by rewrite HL, Hcache, list_lookup_fmap, Hm.
Qed.

End aligned.

(** ** Stopping *)

Section stopping.
Import input.
Import opcua_listener.
Context `{External}.

Lemma stop_eq (o : subscribeClient) (connected : bool)
    (cancel : option error) (disconnect : option string) :
  stop connected cancel disconnect o
  = (Done (if connected then Some Closed else None),
     set_cancelled (connected || cancelled o)
       (logged (stopEntries o connected cancel disconnect) o)).
Proof.
  unfold stop, stopEntries.
  rewrite (bind_eq _ _ _ _ _ (log_spec _ _ _ _)).
  destruct connected; cbv [negb orb].
  2:{ reflexivity. }
  rewrite bind_get.
  change (sub (logged _ o)) with (sub o).
  destruct (sub o) as [id|], cancel as [err|], disconnect as [text|];
    rewrite ?(bind_eq _ _ _ _ _ (log_spec _ _ _ _)), ?bind_ret;
    unfold Stop; run_sc; unfold logged, set_cancelled; simpl;
    rewrite <- ?app_assoc; simpl; try rewrite app_nil_r; reflexivity.
Qed.


(** X20.  [stop] never fails: what goes wrong when the subscription is
    cancelled or the connection is closed is logged as a warning and not
    returned.  For a client that is not connected it logs one debug entry
    and returns a nil channel, and the processing context is not cancelled.
    For a connected client it returns a closed channel and the context is
    cancelled.  Apart from the log and the context, the client is left as
    it was: the subscription, the requests, the cache and both channels. *)
Theorem stop_never_fails (o : subscribeClient) (connected : bool)
    (cancel : option error) (disconnect : option string) :
  ∃ r o', stop connected cancel disconnect o = (Done r, o')
    ∧ (r = None ↔ connected = false)
    ∧ (connected = true -> r = Some Closed)
    ∧ cancelled o' = connected || cancelled o
    ∧ sub o' = sub o
    ∧ same_client o o'
    ∧ Log (OpcUAInputClient o) `prefix_of` Log (OpcUAInputClient o')
    ∧ (connected = false ->
       length (Log (OpcUAInputClient o')) = S (length (Log (OpcUAInputClient o)))).
Proof.
  eexists _, _. split; [apply stop_eq|]. simpl.
  split; [by destruct connected|]. split; [by intros ->|].
  split; [done|]. split; [done|]. split; [by unfold same_client|].
  split; [by apply prefix_app_r|].
  intros ->. unfold stopEntries. rewrite length_app. simpl. lia.
Qed.

End stopping.

(** ** Event filters *)

Section event_filters.
Import event_filter.

Lemma determineNodeIDType_cases (node : EventNodeMetricMapping) :
  match determineNodeIDType node with
  | Done (Ok r) =>
      asNodeID (EventType node) r ∧ ¬ twoByteOutOfRange node ∧ ¬ unknownEventType node
  | Done (Err e) =>
      e = ErrTwoByteRange (ua.nid_IntID (EventType node)) ∧ twoByteOutOfRange node
  | Fault _ => unknownEventType node
  end.
Proof.
  unfold determineNodeIDType, asNodeID, twoByteOutOfRange, unknownEventType,
    uint8, uint16.
  cbv zeta. destruct (ua.nid_Type (EventType node)) eqn:Ht; try case_decide;
    repeat split; try done; try (by intros [[=] _]); try lia;
    rewrite N.mod_small by lia; lia.
Qed.

(** X21.  [determineNodeIDType] returns an error exactly for an event type
    that is a two-byte node ID with an identifier above 255, and it panics,
    when it builds the text of the error, exactly for an event type that
    has none of the six types.  Otherwise it calls the constructor of the
    type of the event type with the namespace of the event type and with
    what [IntID()] or [StringID()] give for it; only for a four-byte node ID
    these are cut, without an error, to 8 and 16 bits. *)
Theorem determineNodeIDType_result (node : EventNodeMetricMapping) :
  ((∃ e, determineNodeIDType node = Done (Err e)) ↔ twoByteOutOfRange node)
  ∧ ((∃ f, determineNodeIDType node = Fault f) ↔ unknownEventType node)
  ∧ (∀ r, determineNodeIDType node = Done (Ok r) -> asNodeID (EventType node) r)
  ∧ (∀ ns id, determineNodeIDType node = Done (Ok (ua.NewFourByteNodeID ns id)) ->
       (ua.nid_Namespace (EventType node) < 256)%N ->
       (ua.nid_IntID (EventType node) < 65536)%N ->
       ns = ua.nid_Namespace (EventType node) ∧ id = ua.nid_IntID (EventType node)).
Proof.
  pose proof (determineNodeIDType_cases node) as Hc.
  destruct (determineNodeIDType node) as [[r|e]|f].
  - destruct Hc as (Hr & Hn2 & Hnu).
    split; [split; [by intros [? [=]]|done]|].
    split; [split; [by intros [? [=]]|done]|].
    split; [by intros ? [= <-]|].
    intros ns id [= ->] Hns Hid. destruct Hr as (_ & -> & ->).
    by rewrite !N.mod_small by done.
  - destruct Hc as [-> H2].
    split; [split; [done|by eexists]|].
    split; [split; [by intros [? [=]]|]|].
    { unfold unknownEventType. destruct H2 as [-> _]. done. }
    split; [by intros ? [=]|]. by intros ns id [=].
  - split; [split; [by intros [? [=]]|]|].
    { unfold unknownEventType in Hc. intros [H2 _]. congruence. }
    split; [split; [done|by eexists]|].
    split; [by intros ? [=]|]. by intros ns id [=].
Qed.

Lemma selectClauses_Ok (node : EventNodeMetricMapping) (names : list string)
    (t : ua.NewNodeID) :
  determineNodeIDType node = Done (Ok t) ->
  selectClauses node names = Done (Ok (valueOf t <$> names)).
Proof.
  intros Ht. induction names as [|name rest IH]; [done|].
  simpl. by rewrite Ht, IH.
Qed.

Lemma selectClauses_stopped (node : EventNodeMetricMapping) (names : list string) :
  (∀ t, determineNodeIDType node ≠ Done (Ok t)) ->
  selectClauses node names =
    match names with
    | [] => Done (Ok [])
    | _ => match determineNodeIDType node with
           | Done (Ok _) => Done (Ok [])
           | Done (Err e) => Done (Err e)
           | Fault f => Fault f
           end
    end.
Proof.
  intros Hn. destruct names; [done|]. simpl.
  destruct (determineNodeIDType node) as [[t|e]|f]; [by destruct (Hn t)|done..].
Qed.

(** X22.  The select clauses of an event filter are one operand per
    configured field, in the order of the fields: the value of the
    attribute of that name, in the namespace 0, of the type definition that
    [determineNodeIDType] gives for the event type.  With a field, their
    creation returns an error exactly when the event type is a two-byte
    node ID with an identifier above 255 and panics exactly when the event
    type has none of the six types; without fields it gives no clause,
    whatever the event type is. *)
Theorem createSelectClauses_result (node : EventNodeMetricMapping) :
  ((∃ e, createSelectClauses node = Done (Err e))
   ↔ Fields node ≠ [] ∧ twoByteOutOfRange node)
  ∧ ((∃ f, createSelectClauses node = Fault f)
     ↔ Fields node ≠ [] ∧ unknownEventType node)
  ∧ (∀ selects, createSelectClauses node = Done (Ok selects) ->
       length selects = length (Fields node)
       ∧ ∀ i name, Fields node !! i = Some name ->
           ∃ t, determineNodeIDType node = Done (Ok t)
                ∧ asNodeID (EventType node) t
                ∧ selects !! i = Some (valueOf t name)).
Proof.
  unfold createSelectClauses.
  pose proof (determineNodeIDType_cases node) as Hc.
  destruct (determineNodeIDType node) as [[t|e]|f] eqn:Ht.
  - destruct Hc as (Hr & Hn2 & Hnu).
    rewrite (selectClauses_Ok _ _ _ Ht).
    split; [split; [by intros [? [=]]|tauto]|].
    split; [split; [by intros [? [=]]|tauto]|].
    intros selects [= <-]. rewrite length_fmap. split; [done|].
    intros i name Hi. exists t. split; [done|]. split; [done|].
    by rewrite list_lookup_fmap, Hi.
  - destruct Hc as [-> H2].
    rewrite selectClauses_stopped by (rewrite Ht; congruence). rewrite Ht.
    assert (¬ unknownEventType node) as Hnu.
    { unfold unknownEventType. destruct H2 as [-> _]. done. }
    destruct (Fields node) as [|name rest].
    + split; [split; [by intros [? [=]]|by intros [? _]]|].
      split; [split; [by intros [? [=]]|by intros [? _]]|].
      intros selects [= <-]. split; [done|]. by intros i name Hi.
    + split; [split; [done|by eexists]|].
      split; [split; [by intros [? [=]]|tauto]|]. by intros selects [=].
  - rewrite selectClauses_stopped by (rewrite Ht; congruence). rewrite Ht.
    assert (¬ twoByteOutOfRange node) as Hn2.
    { unfold unknownEventType in Hc. intros [H2 _]. congruence. }
    destruct (Fields node) as [|name rest].
    + split; [split; [by intros [? [=]]|by intros [? _]]|].
      split; [split; [by intros [? [=]]|by intros [? _]]|].
      intros selects [= <-]. split; [done|]. by intros i name Hi.
    + split; [split; [by intros [? [=]]|tauto]|].
      split; [split; [done|by eexists]|]. by intros selects [=].
Qed.

(** X23.  Without source names the where clause of an event filter is
    empty, whatever the event type is.  With source names it has one
    element, with the operator [InList]: its first operand is the value of
    the attribute [SourceName] of the type definition that
    [determineNodeIDType] gives for the event type, and the others are the
    configured source names, in their order.  With a field or a source
    name, the creation of the filter returns an error exactly when the
    event type is a two-byte node ID with an identifier above 255, and it
    panics exactly when the event type has none of the six types; a filter
    that is made holds the select clauses and the where clause of the
    mapping. *)
Theorem createEventFilter_result (node : EventNodeMetricMapping) :
  (SourceNames node = [] ->
   createWhereClauses node = Done (Ok {| ua.Elements := [] |}))
  ∧ (∀ wheres, SourceNames node ≠ [] ->
       createWhereClauses node = Done (Ok wheres) ->
       ∃ t element,
         determineNodeIDType node = Done (Ok t)
         ∧ asNodeID (EventType node) t
         ∧ ua.Elements wheres = [element]
         ∧ ua.cfe_FilterOperator element = ua.FilterOperatorInList
         ∧ ua.eo_Value <$> ua.FilterOperands element
           = ua.AttributeOperand (valueOf t "SourceName")
             :: (ua.LiteralOperand <$> SourceNames node))
  ∧ ((∃ e, createEventFilter node = Done (Err e))
     ↔ (Fields node ≠ [] ∨ SourceNames node ≠ []) ∧ twoByteOutOfRange node)
  ∧ ((∃ f, createEventFilter node = Fault f)
     ↔ (Fields node ≠ [] ∨ SourceNames node ≠ []) ∧ unknownEventType node)
  ∧ (∀ filter, createEventFilter node = Done (Ok filter) ->
       createSelectClauses node = Done (Ok (ua.SelectClauses (ua.eo_Value filter)))
       ∧ createWhereClauses node = Done (Ok (ua.WhereClause (ua.eo_Value filter)))).
Proof.
  pose proof (determineNodeIDType_cases node) as Hc.
  split; [|split; [|split; [|split]]].
  - intros Hs. unfold createWhereClauses. by rewrite Hs.
  - intros wheres Hs. unfold createWhereClauses.
    rewrite decide_False by (by rewrite length_zero_iff_nil).
    destruct (determineNodeIDType node) as [[t|e]|f]; [|done..].
    destruct Hc as (Hr & _). intros [= <-]. exists t. eexists.
    split; [done|]. split; [done|]. split; [done|]. split; [done|].
    simpl. f_equal. rewrite <- list_fmap_compose. done.
  - unfold createEventFilter, createSelectClauses, createWhereClauses.
    destruct (determineNodeIDType node) as [[t|e]|f] eqn:Ht.
    + destruct Hc as (_ & Hn2 & _). rewrite (selectClauses_Ok _ _ _ Ht).
      split; [case_decide; by intros [? [=]]|tauto].
    + destruct Hc as [-> H2].
      rewrite selectClauses_stopped by (rewrite Ht; congruence). rewrite Ht.
      destruct (Fields node) as [|name rest].
      * destruct (SourceNames node) as [|s ss]; simpl.
        -- split; [by intros [? [=]]|]. by intros [[?|?] _].
        -- split; [intros _|by eexists]. split; [by right|done].
      * split; [intros _|by eexists]. split; [by left|done].
    + assert (¬ twoByteOutOfRange node) as Hn2.
      { unfold unknownEventType in Hc. intros [H2 _]. congruence. }
      rewrite selectClauses_stopped by (rewrite Ht; congruence). rewrite Ht.
      destruct (Fields node) as [|name rest].
      * destruct (SourceNames node) as [|s ss]; simpl.
        -- split; [by intros [? [=]]|]. by intros [[?|?] _].
        -- split; [by intros [? [=]]|tauto].
      * split; [by intros [? [=]]|tauto].
  - unfold createEventFilter, createSelectClauses, createWhereClauses.
    destruct (determineNodeIDType node) as [[t|e]|f] eqn:Ht.
    + destruct Hc as (_ & _ & Hnu). rewrite (selectClauses_Ok _ _ _ Ht).
      split; [case_decide; by intros [? [=]]|tauto].
    + destruct Hc as [-> H2].
      assert (¬ unknownEventType node) as Hnu.
      { unfold unknownEventType. destruct H2 as [-> _]. done. }
      rewrite selectClauses_stopped by (rewrite Ht; congruence). rewrite Ht.
      destruct (Fields node) as [|name rest].
      * destruct (SourceNames node) as [|s ss]; simpl.
        -- split; [by intros [? [=]]|]. by intros [[?|?] _].
        -- split; [by intros [? [=]]|tauto].
      * split; [by intros [? [=]]|tauto].
    + rewrite selectClauses_stopped by (rewrite Ht; congruence). rewrite Ht.
      destruct (Fields node) as [|name rest].
      * destruct (SourceNames node) as [|s ss]; simpl.
        -- split; [by intros [? [=]]|]. by intros [[?|?] _].
        -- split; [intros _|by eexists]. split; [by right|done].
      * split; [intros _|by eexists]. split; [by left|done].
  - intros filter. unfold createEventFilter.
    destruct (createSelectClauses node) as [[selects|e]|f]; [|done..].
    destruct (createWhereClauses node) as [[wheres|e]|f]; [|done..].
    by intros [= <-].
Qed.

End event_filters.

(** ** The tolerance of the test utilities *)

Section tolerance.
Import testutil.

Lemma SFcompare_opp (a b : spec_float) :
  SFcompare (SFopp a) (SFopp b) = SFcompare b a.
Proof.
  destruct a as [[]|[]| |[] ma ea], b as [[]|[]| |[] mb eb]; simpl; try done;
    rewrite (Z.compare_antisym ea eb);
    destruct (ea ?= eb)%Z; simpl; try done.
  - f_equal. by rewrite (Pos.compare_cont_antisym mb ma Eq).
  - f_equal. by rewrite (Pos.compare_cont_antisym ma mb Eq).
Qed.

Lemma SFopp_involutive (a : spec_float) : SFopp (SFopp a) = a.
Proof. destruct a as [s|s| |s m e]; simpl; by rewrite ?negb_involutive. Qed.

Lemma ltb_opp_opp (x y : float) :
  PrimFloat.ltb (- x) (- y) = PrimFloat.ltb y x.
Proof. by rewrite !FloatAxioms.ltb_spec, !FloatAxioms.opp_spec; unfold SFltb; rewrite SFcompare_opp. Qed.

Lemma ltb_opp_r (x y : float) :
  PrimFloat.ltb x (- y) = PrimFloat.ltb y (- x).
Proof.
  rewrite !FloatAxioms.ltb_spec, !FloatAxioms.opp_spec. unfold SFltb.
  rewrite <- (SFopp_involutive (FloatOps.Prim2SF x)) at 1.
  by rewrite SFcompare_opp.
Qed.

Lemma is_nan_spec (x : float) :
  PrimFloat.is_nan x = true -> FloatOps.Prim2SF x = S754_nan.
Proof.
  unfold PrimFloat.is_nan. rewrite FloatAxioms.eqb_spec. unfold SFeqb.
  destruct (FloatOps.Prim2SF x) as [[]|[]| |[] m e]; simpl; try done.
  - by rewrite Z.compare_refl, Pos.compare_cont_refl.
  - by rewrite Z.compare_refl, Pos.compare_cont_refl.
Qed.

Lemma ltb_nan_l (x y : float) : PrimFloat.is_nan x = true -> PrimFloat.ltb x y = false.
Proof. intros Hx%is_nan_spec. rewrite FloatAxioms.ltb_spec, Hx. done. Qed.

Lemma ltb_nan_r (x y : float) : PrimFloat.is_nan y = true -> PrimFloat.ltb x y = false.
Proof.
  intros Hy%is_nan_spec. rewrite FloatAxioms.ltb_spec, Hy. unfold SFltb.
  by destruct (FloatOps.Prim2SF x).
Qed.

(** X24.  The tolerance of [WithinDefaultDelta] is symmetric: a difference
    and its opposite are judged alike.  A difference that is not a number
    is judged to be within the tolerance, since it compares neither below
    nor above the bounds. *)
Theorem WithinDefaultDelta_symmetric (dt : float) :
  WithinDefaultDelta (- dt) = WithinDefaultDelta dt
  ∧ (PrimFloat.is_nan dt = true -> WithinDefaultDelta dt = true).
Proof.
  unfold WithinDefaultDelta. split.
  - rewrite ltb_opp_opp, (ltb_opp_r DefaultDelta dt). by rewrite orb_comm.
  - intros Hn. by rewrite (ltb_nan_l _ _ Hn), (ltb_nan_r _ _ Hn).
Qed.

End tolerance.

(** ** Data changes in the loop *)

Section loop.
Import input.
Import opcua_listener.
Context `{External}.

(** The processing of data changes touches neither the context nor the
    event channel, however it ends. *)
Lemma dataChangeItem_context (item : ua.MonitoredItemNotification) (o : subscribeClient) :
  cancelled (dataChangeItem item o).2 = cancelled o
  ∧ eventMetrics (dataChangeItem item o).2 = eventMetrics o.
Proof.
  cut (∀ p, dataChangeItem item o = p ->
            cancelled p.2 = cancelled o ∧ eventMetrics p.2 = eventMetrics o).
  { intros Hp. by apply Hp. }
  intros p Hp. unfold dataChangeItem in Hp. cbv zeta in Hp.
  rewrite bind_get in Hp. unfold index at 1 in Hp.
  destruct (LastReceivedData (OpcUAInputClient o) !! _) as [old|]; [|by subst p].
  rewrite bind_ret in Hp. unfold bind at 1 in Hp. rewrite embedded_run in Hp.
  destruct (UpdateNodeValue _ _ _) as [[[]|f] c1]; [|by subst p]. cbn [fst snd] in Hp.
  rewrite bind_get in Hp. unfold index at 1 in Hp.
  destruct (NodeIDs _ !! _) as [nid|]; [|by subst p]. rewrite bind_ret in Hp.
  unfold index at 1 in Hp.
  destruct (LastReceivedData _ !! _) as [new|]; [|by subst p]. rewrite bind_ret in Hp.
  rewrite (bind_eq _ _ _ _ _ (log_spec _ _ _ _)) in Hp.
  unfold bind at 1 in Hp. rewrite embedded_run in Hp.
  destruct (MetricForNode _ _) as [[m|f] c2]; by subst p.
Qed.

Lemma dataChangeItems_context (items : list ua.MonitoredItemNotification)
    (o : subscribeClient) :
  cancelled (range_each items dataChangeItem o).2 = cancelled o
  ∧ eventMetrics (range_each items dataChangeItem o).2 = eventMetrics o.
Proof.
  revert o. induction items as [|item rest IH]; intros o; [done|].
  simpl. unfold bind. pose proof (dataChangeItem_context item o) as [Hc He].
  destruct (dataChangeItem item o) as [[[]|f] o1]; [|done].
  simpl in Hc, He. destruct (IH o1) as [-> ->]. done.
Qed.

(** X25.  A notification of data changes whose handles are all valid puts
    one measurement per item on the metric channel, in the order of the
    items and each with the name and the tags of the mapping at its
    handle; then the loop goes on with the next notification, with the
    context as it was and the event channel untouched. *)
Theorem data_changes_processed (items : list ua.MonitoredItemNotification)
    (rest : list PublishNotificationData) (o : subscribeClient)
    (Hrunning : cancelled o = false)
    (Hvalid : Forall (validHandle (OpcUAInputClient o)) items) :
  ∃ ms o',
    processReceivedNotifications (dataChange items :: rest) o
    = processReceivedNotifications rest o'
    ∧ metrics o' = (metrics o ++ ms)%list
    ∧ Forall2 (fun item m =>
         ∃ nmm, NodeMetricMappings (OpcUAInputClient o) !! ua.min_ClientHandle item
                  = Some nmm
                ∧ telegraf.Name m = metricName nmm
                ∧ telegraf.Tags m = tagsOf nmm) items ms
    ∧ cancelled o' = false
    ∧ eventMetrics o' = eventMetrics o.
Proof.
  simpl. rewrite bind_get, Hrunning. unfold processNotification. simpl.
  rewrite !bind_assoc, (bind_eq _ _ _ _ _ (log_spec _ _ _ _)).
  set (o1 := logged _ o).
  destruct (dataChangeItems_spec items o1 Hvalid) as (ms & o' & Hrun & Hm & Hall).
  pose proof (dataChangeItems_context items o1) as [Hc He]. rewrite Hrun in Hc, He.
  rewrite !bind_assoc, (bind_eq _ _ _ _ _ Hrun), !bind_ret.
  exists ms, o'. split; [done|]. split; [done|]. split; [done|].
  simpl in Hc, He. by rewrite Hc, He.
Qed.

End loop.

(** ** Instances of the properties *)

Section witnesses.
Import input.
Import opcua_listener.
#[local] Existing Instance sample_External.

(** The second tag repeats the name of the first; the third, with one
    entry, is not looked at. *)
Lemma tagsSliceToMap_first_error_witness :
  tagsSliceToMap [["a"; "1"]] = Ok {[ "a" := "1" ]}
  ∧ tagsSliceToMap [["a"; "1"]; ["a"; "2"]; ["b"]] = Err (ErrTagDuplicateKey 2 "a").
Proof.
  assert (tagsSliceToMap [["a"; "1"]] = Ok {[ "a" := "1" ]}) as Hpre
    by (vm_compute; reflexivity).
  split; [exact Hpre|].
  apply (tagsSliceToMap_first_error [["a"; "1"]] [["b"]] ["a"; "2"] _ Hpre).
  right. simpl. apply list_elem_of_singleton. reflexivity.
Defined.

(** Two points with the node ID of the temperature have its settings. *)
Lemma NodeID_injective_witness :
  let other := sample_node "inlet" "3" "s" "Temperature" {[ "line" := "1" ]} in
  NodeID temp_node = NodeID other
  ∧ Namespace temp_node = Namespace other
  ∧ IdentifierType temp_node = IdentifierType other
  ∧ Identifier temp_node = Identifier other.
Proof.
  intros other. split; [reflexivity|].
  apply (NodeID_injective temp_node other); reflexivity.
Defined.

(** The measurement of the temperature with a bad status: it is built, at
    the time of the call, and the trace is logged. *)
Lemma MetricForNode_time_and_trace_witness :
  let o := sample_client [] [bad_slot; slot "pressure" ua.VNil 0] in
  ∃ m o', MetricForNode 0 o = (Done m, o')
    ∧ telegraf.Tm m = time_Now
    ∧ Log o' = [statusTrace (mapping_of temp_node)].
Proof.
  intros o.
  destruct (MetricForNode_time_and_trace o 0 (mapping_of temp_node) bad_slot
              eq_refl eq_refl) as (m & o' & Hrun & Htm & Ho').
  exists m, o'. split; [exact Hrun|]. split; [exact Htm|]. rewrite Ho'. reflexivity.
Defined.

(** A data change for the handle 5 of a client with two points. *)
Lemma dataChangeItem_bad_handle_witness :
  let o := sample_subscriber (answering_server []) "error" in
  let item := {| ua.min_ClientHandle := 5;
                 ua.min_Value := ua.min_Value (temp_change 2 0 9) |} in
  ∃ why, dataChangeItem item o = (Fault (Panic why), o).
Proof.
  intros o item.
  destruct (dataChangeItem_bad_handle o item) as (why & o' & Hrun & _ & _ & Ho').
  { unfold validHandle. simpl. lia. }
  exists why. rewrite <- (Ho' ltac:(simpl; lia)) at 2. exact Hrun.
Defined.

(** The server refuses the registration; the policy is retry. *)
Lemma registration_call_fails_witness :
  let o := sample_subscriber unwilling_server "retry" in
  ∃ o', startStreamValues o =
          (Done (None, Some (ErrWrap "failed to start monitoring items: "
                               (ErrLibrary "too many monitored items"))), o')
        ∧ processors o' = 0%nat ∧ sub o' = Some 1.
Proof.
  intros o.
  destruct (proj1 (registration_call_fails o 1 (ErrLibrary "too many monitored items")
                     eq_refl eq_refl) ltac:(discriminate) eq_refl)
    as (o' & Hrun & Hp & Hs & _).
  exists o'. split; [exact Hrun|]. split; [exact Hp|exact Hs].
Defined.

(** A notification with an error, then the channel is closed. *)
Lemma notification_without_data_witness :
  let o := sample_subscriber (answering_server []) "error" in
  ∃ entry,
    processReceivedNotifications [error_notification] o
    = processReceivedNotifications [] (logged [entry] o)
    ∧ telegraf.e_level entry = telegraf.LError.
Proof.
  intros o.
  exact (notification_without_data error_notification [] o eq_refl
           (or_introl (ex_intro _ _ eq_refl))).
Defined.

(** An event with three fields for a handle with two names. *)
Lemma processEvent_too_many_fields_witness :
  let o := set_eventMetrics (Some []) (sample_subscriber (answering_server []) "error") in
  ∃ o', processEvent long_event o = (Fault (Panic "index out of range"), o')
        ∧ eventMetrics o' = Some [].
Proof.
  intros o.
  assert (length (eventNames o long_event) < length (ua.EventFields long_event))%nat
    as Hlong by (vm_compute; lia).
  destruct (processEvent_too_many_fields o long_event Hlong) as (o' & Hrun & He & _).
  exists o'. split; [exact Hrun|exact He].
Defined.

(** The client of the two sample points, with its node IDs. *)
Lemma created_client_handles_witness :
  let cfg := sample_config [temp_node; pressure_node] [] in
  ∃ c c' l,
    CreateInputClient cfg (Ok sample_ok) [] = (Done (Ok c), l)
    ∧ InitNodeIDs sample_parser c = (Done None, c')
    ∧ length (NodeIDs c') = 2%nat
    ∧ length (LastReceivedData c') = 2%nat.
Proof.
  intros cfg.
  assert (∃ c, CreateInputClient cfg (Ok sample_ok) []
               = (Done (Ok c), (CreateInputClient cfg (Ok sample_ok) []).2)) as [c Hc]
    by (vm_compute; eexists; reflexivity).
  assert (∃ c', InitNodeIDs sample_parser c = (Done None, c')) as [c' Hc'].
  { pose proof (InitNodeIDs_spec sample_parser c) as Hi.
    destruct (InitNodeIDs sample_parser c) as [[[err|]|f] c'']; [|by eexists|done].
    destruct Hi as (pre & nmm & post & _ & Hbad & _). discriminate Hbad. }
  destruct (created_client_handles sample_parser cfg (Ok sample_ok) [] _ c c' Hc Hc')
    as (Htags & Hn & Hl & _).
  assert (input.Config c' = set_TimestampFormat (formatOrDefault cfg) cfg) as HC.
  { pose proof (InitNodeIDs_spec sample_parser c) as Hi. rewrite Hc' in Hi.
    destruct Hi as [_ ->]. simpl.
    pose proof (CreateInputClient_created cfg (Ok sample_ok) []) as Hcr.
    rewrite Hc in Hcr. by destruct Hcr as (_ & ? & _). }
  exists c, c'. eexists. split; [exact Hc|]. split; [exact Hc'|].
  rewrite Hn, Hl, HC. split; reflexivity.
Defined.

(** The requests for the two sample points. *)
Lemma createMonitoredItems_handles_witness :
  let client := sample_client [] sample_cache in
  ∃ r0 r1,
    createMonitoredItems sample_new_request 0 (NodeIDs client) client []
    = Done (Ok [r0; r1])
    ∧ ua.rp_ClientHandle (ua.RequestedParameters r1) = 1%nat
    ∧ ua.ItemToMonitor r1 = {| ua.NodeID_String := "ns=3;s=Pressure" |}.
Proof.
  intros client.
  pose proof (createMonitoredItems_handles sample_new_request client
                (fun _ _ => eq_refl) (fun _ _ => eq_refl) ltac:(simpl; lia)) as Hh.
  cbv zeta in Hh.
  destruct (createMonitoredItems sample_new_request 0 (NodeIDs client) client [])
    as [[reqs|err]|f] eqn:Hrun; [| |destruct Hh].
  2:{ exfalso. destruct Hh as (i & nodeID & nmm & filter & req' & _ & Hm & Hf & _).
      destruct i as [|[|i]]; simpl in Hm; simplify_eq; discriminate Hf. }
  destruct Hh as (Hlen & Hall & _).
  destruct reqs as [|r0 [|r1 [|r2 reqs]]]; try discriminate Hlen.
  exists r0, r1. split; [reflexivity|].
  destruct (Hall 1%nat r1 eq_refl) as (Hhandle & Hid & _).
  split; [exact Hhandle|]. simpl in Hid. by injection Hid as <-.
Defined.

(** Two data changes of the temperature in one notification, then the
    channel is closed. *)
Lemma data_changes_processed_witness :
  let o := sample_subscriber (answering_server []) "error" in
  ∃ ms o',
    processReceivedNotifications
      [dataChange [temp_change 79 0 9; temp_change 80 0 10]] o
    = processReceivedNotifications [] o'
    ∧ metrics o' = ms ∧ length ms = 2%nat.
Proof.
  intros o.
  assert (Forall (validHandle (OpcUAInputClient o))
            [temp_change 79 0 9; temp_change 80 0 10]) as Hvalid.
  { repeat constructor; unfold validHandle; simpl; lia. }
  destruct (data_changes_processed [temp_change 79 0 9; temp_change 80 0 10] [] o
              eq_refl Hvalid) as (ms & o' & Hrun & Hm & Hall & _).
  exists ms, o'. split; [exact Hrun|]. split; [exact Hm|].
  symmetry. exact (Forall2_length _ _ _ Hall).
Defined.

End witnesses.
